(** * Kiosco POS: catalogue, search, sales and cash drawer

    A shallow embedding of the repository and service layers of
    [src/micro-saas.py] (classes [RepositorioCategoria], [RepositorioProducto],
    [RepositorioVenta], [ServicioCategoria], [ServicioProducto],
    [ServicioVenta], [ServicioPOS], and the two handlers of the presentation
    layer that write to the store: [PestanaVentas.procesar_pago] and
    [PestanaCaja.registrar_retiro]).

    Modelling conventions.
    - The SQLite file is a record of tables ([BaseDatos]); a table is the list
      of its rows in rowid order.  Every repository method opens its own
      connection and commits when the [with] block ends, so every repository
      call is one committed step on [BaseDatos].
    - Python [int] is [Z]; SQLite INTEGER is its signed 64-bit part.  The
      modules named after the classes say what the statements do once their
      parameters are bound.  The modules whose name ends in [Enlazado] put
      the binding in front: [sqlite3] raises OverflowError for an [int]
      outside that part, and the services answer it in their [except]
      branch, or raise it where they have no [try].
    - Python [float] and SQLite REAL (prices, totals, amounts) are idealised as
      exact rationals [Q]: rounding is not modelled, and equalities between
      amounts are stated with [==].  A NaN is not a rational: amounts are
      numbers.
    - Python [str] and SQLite TEXT are [string], a string of bytes; case
      folding is the ASCII one that SQLite's LOWER and LIKE implement.
      Python's [lower], [upper], [isalpha] and [len] work on Unicode
      characters; they are the byte-wise functions on ASCII text
      ([Texto.es_ascii]), and the theorems on search terms, prefixes and
      category names that depend on them are stated for ASCII text.
    - A timestamp ('YYYY-MM-DD HH:MM:SS') is the number of seconds since an
      epoch; [DATE(fecha)] is the day number.  CURRENT_TIMESTAMP is UTC and
      [date.today()] is local: a method that uses one of them reads it from
      its argument [ahora]; [DosRelojes] gives the method that uses both an
      argument for each.
    - Apart from the UNIQUE constraints and from the parameters that do not
      bind, the store never fails. *)

From Stdlib Require Import ZArith QArith Bool List String Ascii Lia.
From Stdlib Require Import Permutation Sorted Decimal DecimalString.
Import ListNotations.

Local Open Scope string_scope.
Local Open Scope list_scope.
Local Open Scope Z_scope.

(** ** Text: case folding, LIKE and number formatting *)

Module Texto.

(** ASCII lower-casing of one character, as SQLite's LOWER and LIKE do. *)
Definition minuscula (c : ascii) : ascii :=
  let n := N_of_ascii c in
  if ((65 <=? n) && (n <=? 90))%N then ascii_of_N (n + 32) else c.

(** [LOWER(s)] (and [str.lower()] on ASCII text). *)
Fixpoint lower (s : string) : string :=
  match s with
  | EmptyString => EmptyString
  | String c r => String (minuscula c) (lower r)
  end.

(** ASCII upper-casing: [str.upper()] on ASCII text. *)
Definition mayuscula (c : ascii) : ascii :=
  let n := N_of_ascii c in
  if ((97 <=? n) && (n <=? 122))%N then ascii_of_N (n - 32) else c.

Fixpoint upper (s : string) : string :=
  match s with
  | EmptyString => EmptyString
  | String c r => String (mayuscula c) (upper r)
  end.

Definition es_porcentaje (c : ascii) : bool := Ascii.eqb c "%".
Definition es_guion_bajo (c : ascii) : bool := Ascii.eqb c "_".

(** Characters compare equal in LIKE when they agree up to ASCII case. *)
Definition igual_ci (c d : ascii) : bool :=
  Ascii.eqb (minuscula c) (minuscula d).

(** [f] holds of some suffix of [s]: what the wildcard [%] tries. *)
Fixpoint algun_sufijo (f : string -> bool) (s : string) : bool :=
  f s || match s with
         | EmptyString => false
         | String _ r => algun_sufijo f r
         end.

(** SQLite's [s LIKE pat] without ESCAPE: [%] matches any run of
    characters, [_] exactly one, any other character itself up to ASCII
    case. *)
Fixpoint like (pat s : string) : bool :=
  match pat with
  | EmptyString =>
      match s with EmptyString => true | String _ _ => false end
  | String c pat' =>
      if es_porcentaje c then algun_sufijo (like pat') s
      else
        match s with
        | EmptyString => false
        | String d r => (es_guion_bajo c || igual_ci c d) && like pat' r
        end
  end.

(** No character of [s] is a LIKE wildcard. *)
Fixpoint sin_comodines (s : string) : bool :=
  match s with
  | EmptyString => true
  | String c r =>
      negb (es_porcentaje c) && negb (es_guion_bajo c) && sin_comodines r
  end.

(** [s] starts with [p], compared case-insensitively. *)
Fixpoint empieza_con (p s : string) : bool :=
  match p, s with
  | EmptyString, _ => true
  | String _ _, EmptyString => false
  | String c p', String d r => igual_ci c d && empieza_con p' r
  end.

(** [s] contains [t] as a substring, compared case-insensitively. *)
Fixpoint contiene (t s : string) : bool :=
  empieza_con t s || match s with
                     | EmptyString => false
                     | String _ r => contiene t r
                     end.

(** [s] equals [t], compared case-insensitively. *)
Definition igual_sin_caso (t s : string) : bool :=
  String.eqb (lower s) (lower t).

Fixpoint ceros (n : nat) : string :=
  match n with
  | O => EmptyString
  | S k => String "0" (ceros k)
  end.

(** Left-pad [s] with zeros up to [ancho] characters. *)
Definition rellenar (ancho : nat) (s : string) : string :=
  (ceros (ancho - String.length s) ++ s)%string.

Definition decimal (n : Z) : string :=
  NilZero.string_of_uint (N.to_uint (Z.to_N n)).

(** The format [{n:03d}]: sign-aware zero padding to width 3. *)
Definition formato_03d (n : Z) : string :=
  if n <? 0 then String "-" (rellenar 2 (decimal (- n)))
  else rellenar 3 (decimal n).

(** The text is ASCII: every byte is below 128.  On such text the methods
    of Python's [str] ([lower], [upper], [isalpha], [len]), which work on
    Unicode characters, are the byte-wise functions of this module. *)
Definition es_byte_ascii (c : ascii) : bool := (N_of_ascii c <? 128)%N.

Fixpoint es_ascii (s : string) : bool :=
  match s with
  | EmptyString => true
  | String c r => es_byte_ascii c && es_ascii r
  end.

End Texto.

(** ** Domain models (the dataclasses) *)

Module Categoria.
Record t := mk {
  id : option Z;
  nombre : string;
  prefijo : string;
  descripcion : string;
  activo : bool;
  creado_en : option Z
}.
End Categoria.

Module Producto.
Record t := mk {
  id : option Z;
  sku : string;
  nombre : string;
  descripcion : string;
  cantidad : Z;
  precio : Q;
  stock_minimo : Z;
  categoria : string;
  creado_en : option Z;
  actualizado_en : option Z
}.

Definition tiene_stock_bajo (p : t) : bool := cantidad p <=? stock_minimo p.
End Producto.

Module ItemCarrito.
Record t := mk {
  producto_id : Z;
  sku : string;
  nombre : string;
  cantidad : Z;
  precio_unitario : Q;
  subtotal : Q
}.
End ItemCarrito.

(** ** The store: one record of tables, rows in rowid order *)

Module FilaCategoria.
Record t := mk {
  id : Z;
  nombre : string;
  prefijo : string;
  descripcion : string;
  activo : bool;
  creado_en : Z
}.
End FilaCategoria.

Module FilaProducto.
Record t := mk {
  id : Z;
  sku : string;
  nombre : string;
  descripcion : string;
  cantidad : Z;
  precio : Q;
  stock_minimo : Z;
  categoria : string;
  creado_en : Z;
  actualizado_en : Z
}.
End FilaProducto.

Module FilaVenta.
Record t := mk {
  id : Z;
  total : Q;
  metodo_pago : string;
  fecha : Z;
  usuario : string
}.
End FilaVenta.

Module FilaDetalle.
Record t := mk {
  id : Z;
  venta_id : Z;
  producto_id : Z;
  sku : string;
  nombre_producto : string;
  cantidad : Z;
  precio_unitario : Q;
  subtotal : Q
}.
End FilaDetalle.

(** The CHECK constraint of [movimientos_caja.tipo]. *)
Inductive TipoMovimiento := RETIRO | INGRESO.

Definition es_retiro (t : TipoMovimiento) : bool :=
  match t with RETIRO => true | INGRESO => false end.

Module FilaMovimiento.
Record t := mk {
  id : Z;
  fecha : Z;
  tipo : TipoMovimiento;
  monto : Q;
  concepto : string;
  usuario : string
}.
End FilaMovimiento.

(** The tables, and for the AUTOINCREMENT keys that the code reads back
    ([cursor.lastrowid]) the largest rowid handed out so far. *)
Record BaseDatos := mkBD {
  categorias : list FilaCategoria.t;
  productos : list FilaProducto.t;
  ventas : list FilaVenta.t;
  detalles_venta : list FilaDetalle.t;
  movimientos_caja : list FilaMovimiento.t;
  sec_ventas : Z;
  sec_detalles : Z;
  sec_movimientos : Z
}.

Definition con_categorias (f : list FilaCategoria.t -> list FilaCategoria.t)
    (bd : BaseDatos) : BaseDatos :=
  mkBD (f (categorias bd)) (productos bd) (ventas bd) (detalles_venta bd)
       (movimientos_caja bd) (sec_ventas bd) (sec_detalles bd)
       (sec_movimientos bd).

Definition con_productos (f : list FilaProducto.t -> list FilaProducto.t)
    (bd : BaseDatos) : BaseDatos :=
  mkBD (categorias bd) (f (productos bd)) (ventas bd) (detalles_venta bd)
       (movimientos_caja bd) (sec_ventas bd) (sec_detalles bd)
       (sec_movimientos bd).

(** [DATE(fecha)]: the day a timestamp falls on. *)
Definition DATE (fecha : Z) : Z := fecha / 86400.

(** ** Commands on the store

    A command returns its result, the store it leaves and the stores it
    committed on the way, oldest first: the history is what an observer of
    the database file sees between the statements of a service call. *)

Definition Estado (A : Type) : Type :=
  BaseDatos -> A * BaseDatos * list BaseDatos.

Definition ret {A} (a : A) : Estado A := fun bd => (a, bd, []).

Definition bind {A B} (m : Estado A) (k : A -> Estado B) : Estado B :=
  fun bd =>
    let '(a, bd1, h1) := m bd in
    let '(b, bd2, h2) := k a bd1 in
    (b, bd2, h1 ++ h2).

(** A query: reads the store and commits nothing new. *)
Definition leer {A} (f : BaseDatos -> A) : Estado A :=
  fun bd => (f bd, bd, []).

(** One [with self._conexion() as conn:] block that writes: the block runs
    as a transaction and is committed when it ends. *)
Definition transaccion {A} (f : BaseDatos -> A * BaseDatos) : Estado A :=
  fun bd => let '(a, bd') := f bd in (a, bd', [bd']).

Notation "x <- m ;; k" := (bind m (fun x => k))
  (at level 61, m at next level, right associativity).

Definition resultado {A} (r : A * BaseDatos * list BaseDatos) : A :=
  fst (fst r).
Definition final {A} (r : A * BaseDatos * list BaseDatos) : BaseDatos :=
  snd (fst r).
Definition historia {A} (r : A * BaseDatos * list BaseDatos)
  : list BaseDatos := snd r.

(** [for x in xs: cuerpo(x)] with the results of the body dropped. *)
Fixpoint para_cada {A B} (cuerpo : A -> Estado B) (xs : list A)
  : Estado unit :=
  match xs with
  | [] => ret tt
  | x :: r => _ <- cuerpo x ;; para_cada cuerpo r
  end.

(** The texts the services return, one constructor per f-string. *)
Inductive Mensaje :=
| CarritoVacio                          (* "Carrito vacio" *)
| StockInsuficiente (nombre : string)   (* "Stock insuficiente para {nombre}" *)
| VentaCompletada (venta_id : Z)        (* "Venta #{venta_id} completada" *)
| MontoNoPositivo                       (* "El monto debe ser positivo" *)
| FondosInsuficientes (disponible : Q)  (* "Fondos insuficientes. ..." *)
| RetiroRegistrado (monto : Q)          (* "Retiro de ${monto} registrado" *)
| ProductoActualizado                   (* "Producto actualizado" *)
| CategoriaActualizada                  (* "Categoria actualizada" *)
| NoSePudoActualizar                    (* "No se pudo actualizar" *)
| ErrorAlmacen                          (* "Error: {e}" *)
| IngreseConcepto.                      (* "Ingrese un concepto" *)

(** ORDER BY: a stable insertion sort on a boolean order. *)
Section Ordenar.
Context {A : Type} (le : A -> A -> bool).

Fixpoint insertar (x : A) (l : list A) : list A :=
  match l with
  | [] => [x]
  | y :: r => if le x y then x :: l else y :: insertar x r
  end.

Definition ordenar (l : list A) : list A := fold_right insertar [] l.
End Ordenar.

(** The builtin [sum] of Python over amounts: a left fold from 0. *)
Definition py_sum (l : list Q) : Q := fold_left Qplus l 0%Q.

(** SQL's SUM: NULL on no rows, else the total. *)
Definition SUM (l : list Q) : option Q :=
  match l with
  | [] => None
  | _ => Some (fold_right Qplus 0%Q l)
  end.

Definition COALESCE (v : option Q) (d : Q) : Q :=
  match v with Some x => x | None => d end.

(** ** Repositories *)

Module RepositorioCategoria.

Definition _fila_a_categoria (row : FilaCategoria.t) : Categoria.t :=
  Categoria.mk (Some (FilaCategoria.id row)) (FilaCategoria.nombre row)
    (FilaCategoria.prefijo row) (FilaCategoria.descripcion row)
    (FilaCategoria.activo row) (Some (FilaCategoria.creado_en row)).

(** [SELECT * FROM categorias WHERE id = ?], [fetchone], for an id that
    binds. *)
Definition obtener_por_id (categoria_id : Z) (bd : BaseDatos)
  : option Categoria.t :=
  option_map _fila_a_categoria
    (find (fun r => FilaCategoria.id r =? categoria_id) (categorias bd)).

(** The UNIQUE constraints on [nombre] and [prefijo]: another row already
    holds one of the new values. *)
Definition choca (cid : Z) (nombre prefijo : string)
    (filas : list FilaCategoria.t) : bool :=
  existsb (fun r => negb (FilaCategoria.id r =? cid)
                    && (String.eqb (FilaCategoria.nombre r) nombre
                        || String.eqb (FilaCategoria.prefijo r) prefijo))
          filas.

(** [UPDATE categorias SET nombre, prefijo, descripcion WHERE id = ?];
    [None] is the IntegrityError of a UNIQUE constraint, on which the
    connection rolls back; [Some b] is [cursor.rowcount > 0]. *)
Definition actualizar (categoria : Categoria.t) : Estado (option bool) :=
  transaccion (fun bd =>
    match Categoria.id categoria with
    | None => (Some false, bd)
    | Some cid =>
        let nombre := Texto.upper (Categoria.nombre categoria) in
        let prefijo := Texto.upper (Categoria.prefijo categoria) in
        if existsb (fun r => FilaCategoria.id r =? cid) (categorias bd) then
          if choca cid nombre prefijo (categorias bd) then (None, bd)
          else
            (Some true,
             con_categorias
               (map (fun r =>
                       if FilaCategoria.id r =? cid then
                         FilaCategoria.mk (FilaCategoria.id r) nombre prefijo
                           (Categoria.descripcion categoria)
                           (FilaCategoria.activo r)
                           (FilaCategoria.creado_en r)
                       else r)) bd)
        else (Some false, bd)
    end).

End RepositorioCategoria.

Module RepositorioProducto.

Definition _fila_a_producto (row : FilaProducto.t) : Producto.t :=
  Producto.mk (Some (FilaProducto.id row)) (FilaProducto.sku row)
    (FilaProducto.nombre row) (FilaProducto.descripcion row)
    (FilaProducto.cantidad row) (FilaProducto.precio row)
    (FilaProducto.stock_minimo row) (FilaProducto.categoria row)
    (Some (FilaProducto.creado_en row))
    (Some (FilaProducto.actualizado_en row)).

(** [patron = f"%{termino}%"]. *)
Definition patron (termino : string) : string :=
  (String "%" termino ++ "%")%string.

(** The WHERE clause of the search. *)
Definition coincide (termino : string) (r : FilaProducto.t) : bool :=
  let pat := Texto.lower (patron termino) in
  Texto.like pat (Texto.lower (FilaProducto.nombre r))
  || Texto.like pat (Texto.lower (FilaProducto.sku r))
  || Texto.like pat (Texto.lower (FilaProducto.categoria r)).

(** The CASE expression of the ORDER BY; its fourth parameter is
    [termino.lower()], which is [Texto.lower] on an ASCII term. *)
Definition rango (termino : string) (r : FilaProducto.t) : Z :=
  if String.eqb (Texto.lower (FilaProducto.sku r))
                (Texto.lower (Texto.lower termino)) then 0
  else if Texto.like (Texto.lower (patron termino))
                     (Texto.lower (FilaProducto.nombre r)) then 1
  else 2.

(** [ORDER BY CASE ... END, nombre]: TEXT compares bytewise. *)
Definition orden (termino : string) (r1 r2 : FilaProducto.t) : bool :=
  (rango termino r1 <? rango termino r2)
  || ((rango termino r1 =? rango termino r2)
      && String.leb (FilaProducto.nombre r1) (FilaProducto.nombre r2)).

(** The object built for each row of the search: the six selected columns,
    an empty description and a minimum stock of 5. *)
Definition producto_de_busqueda (row : FilaProducto.t) : Producto.t :=
  Producto.mk (Some (FilaProducto.id row)) (FilaProducto.sku row)
    (FilaProducto.nombre row) "" (FilaProducto.cantidad row)
    (FilaProducto.precio row) 5 (FilaProducto.categoria row) None None.

(** The rows the search statement yields ([LIMIT 10]).  The table made by
    [crear_tabla] has the column [categoria], so the statement of the
    [except sqlite3.OperationalError] branch is never run. *)
Definition filas_para_venta (termino : string) (bd : BaseDatos)
  : list FilaProducto.t :=
  firstn 10 (ordenar (orden termino)
               (filter (coincide termino) (productos bd))).

Definition buscar_para_venta (termino : string) (bd : BaseDatos)
  : list Producto.t :=
  map producto_de_busqueda (filas_para_venta termino bd).

(** [SELECT * FROM productos WHERE id = ?], [fetchone], for an id that
    binds. *)
Definition obtener_por_id (producto_id : Z) (bd : BaseDatos)
  : option Producto.t :=
  option_map _fila_a_producto
    (find (fun r => FilaProducto.id r =? producto_id) (productos bd)).

(** [SELECT COUNT( * ) FROM productos WHERE sku LIKE f"{prefijo}%"],
    plus one. *)
Definition obtener_siguiente_numero_sku (prefijo : string) (bd : BaseDatos)
  : Z :=
  Z.of_nat
    (List.length
       (filter (fun r => Texto.like (prefijo ++ "%")%string
                           (FilaProducto.sku r)) (productos bd))) + 1.

(** The rows [UPDATE productos ... WHERE id = ? AND cantidad >= ?]
    selects. *)
Definition vendible (producto_id cantidad_vendida : Z)
    (r : FilaProducto.t) : bool :=
  (FilaProducto.id r =? producto_id)
  && (cantidad_vendida <=? FilaProducto.cantidad r).

Definition descontar_fila (cantidad_vendida ahora : Z)
    (r : FilaProducto.t) : FilaProducto.t :=
  FilaProducto.mk (FilaProducto.id r) (FilaProducto.sku r)
    (FilaProducto.nombre r) (FilaProducto.descripcion r)
    (FilaProducto.cantidad r - cantidad_vendida) (FilaProducto.precio r)
    (FilaProducto.stock_minimo r) (FilaProducto.categoria r)
    (FilaProducto.creado_en r) ahora.

(** [UPDATE productos SET cantidad = cantidad - ?, actualizado_en = now
    WHERE id = ? AND cantidad >= ?]; returns [cursor.rowcount > 0]. *)
Definition actualizar_stock (producto_id cantidad_vendida ahora : Z)
  : Estado bool :=
  transaccion (fun bd =>
    (existsb (vendible producto_id cantidad_vendida) (productos bd),
     con_productos
       (map (fun r => if vendible producto_id cantidad_vendida r
                      then descontar_fila cantidad_vendida ahora r
                      else r)) bd)).

Definition tiene_id (oid : option Z) (r : FilaProducto.t) : bool :=
  match oid with
  | Some i => FilaProducto.id r =? i
  | None => false
  end.

Definition sobrescribir (producto : Producto.t) (ahora : Z)
    (r : FilaProducto.t) : FilaProducto.t :=
  FilaProducto.mk (FilaProducto.id r) (FilaProducto.sku r)
    (Producto.nombre producto) (Producto.descripcion producto)
    (Producto.cantidad producto) (Producto.precio producto)
    (Producto.stock_minimo producto) (Producto.categoria producto)
    (FilaProducto.creado_en r) ahora.

(** [UPDATE productos SET nombre, descripcion, cantidad, precio,
    stock_minimo, categoria, actualizado_en = now WHERE id = ?]; returns
    [cursor.rowcount > 0]. *)
Definition actualizar (producto : Producto.t) (ahora : Z) : Estado bool :=
  transaccion (fun bd =>
    (existsb (tiene_id (Producto.id producto)) (productos bd),
     con_productos
       (map (fun r => if tiene_id (Producto.id producto) r
                      then sobrescribir producto ahora r
                      else r)) bd)).

End RepositorioProducto.

Module RepositorioVenta.

Definition detalle_de (venta_id id : Z) (item : ItemCarrito.t)
  : FilaDetalle.t :=
  FilaDetalle.mk id venta_id (ItemCarrito.producto_id item)
    (ItemCarrito.sku item) (ItemCarrito.nombre item)
    (ItemCarrito.cantidad item) (ItemCarrito.precio_unitario item)
    (ItemCarrito.subtotal item).

(** The rows of [detalles_venta] for [items], keyed from [desde + 1]. *)
Fixpoint detalles_de (venta_id desde : Z) (items : list ItemCarrito.t)
  : list FilaDetalle.t :=
  match items with
  | [] => []
  | item :: r =>
      detalle_de venta_id (desde + 1) item :: detalles_de venta_id (desde + 1) r
  end.

(** One INSERT into [ventas], then one INSERT into [detalles_venta] per
    item, in a single connection; returns the new sale's id. *)
Definition registrar_venta (items : list ItemCarrito.t) (total : Q)
    (metodo_pago : string) (ahora : Z) : Estado Z :=
  transaccion (fun bd =>
    let venta_id := sec_ventas bd + 1 in
    (venta_id,
     mkBD (categorias bd) (productos bd)
          (ventas bd
             ++ [FilaVenta.mk venta_id total metodo_pago ahora "CAJERO"])
          (detalles_venta bd ++ detalles_de venta_id (sec_detalles bd) items)
          (movimientos_caja bd)
          venta_id
          (sec_detalles bd + Z.of_nat (List.length items))
          (sec_movimientos bd))).

(** [ORDER BY fecha DESC]. *)
Definition mas_reciente (v w : FilaVenta.t) : bool :=
  FilaVenta.fecha w <=? FilaVenta.fecha v.

(** [SELECT * FROM ventas WHERE DATE(fecha) = hoy ORDER BY fecha DESC]. *)
Definition obtener_ventas_dia (ahora : Z) (bd : BaseDatos)
  : list FilaVenta.t :=
  let hoy := DATE ahora in
  ordenar mas_reciente
    (filter (fun v => DATE (FilaVenta.fecha v) =? hoy) (ventas bd)).

(** [INSERT INTO movimientos_caja (tipo, monto, concepto)
    VALUES ('RETIRO', ?, ?)]. *)
Definition registrar_retiro (monto : Q) (concepto : string) (ahora : Z)
  : Estado Z :=
  transaccion (fun bd =>
    let id := sec_movimientos bd + 1 in
    (id,
     mkBD (categorias bd) (productos bd) (ventas bd) (detalles_venta bd)
          (movimientos_caja bd
             ++ [FilaMovimiento.mk id ahora RETIRO monto concepto "CAJERO"])
          (sec_ventas bd) (sec_detalles bd) id)).

(** The WHERE clause shared by the two queries on today's withdrawals. *)
Definition retiro_de_hoy (hoy : Z) (m : FilaMovimiento.t) : bool :=
  (DATE (FilaMovimiento.fecha m) =? hoy) && es_retiro (FilaMovimiento.tipo m).

(** [SELECT COALESCE(SUM(monto), 0) FROM movimientos_caja
    WHERE DATE(fecha) = hoy AND tipo = 'RETIRO']. *)
Definition total_retiros_dia (ahora : Z) (bd : BaseDatos) : Q :=
  let hoy := DATE ahora in
  COALESCE
    (SUM (map FilaMovimiento.monto
            (filter (retiro_de_hoy hoy) (movimientos_caja bd))))
    0%Q.

End RepositorioVenta.

(** ** Services *)

Module ServicioCategoria.

Definition obtener_por_id := RepositorioCategoria.obtener_por_id.

(** No validation of the new name or prefix: only the store's UNIQUE
    constraints can refuse the update. *)
Definition actualizar (categoria : Categoria.t) : Estado (bool * Mensaje) :=
  r <- RepositorioCategoria.actualizar categoria ;;
  match r with
  | Some true => ret (true, CategoriaActualizada)
  | Some false => ret (false, NoSePudoActualizar)
  | None => ret (false, ErrorAlmacen)
  end.

End ServicioCategoria.

Module ServicioProducto.

(** [len(termino)] is the number of bytes of an ASCII term. *)
Definition buscar (termino : string) (bd : BaseDatos) : list Producto.t :=
  if (String.length termino <? 2)%nat then []
  else RepositorioProducto.buscar_para_venta termino bd.

(** For an id that binds; [ServicioProductoEnlazado] has the other ids. *)
Definition generar_sku_sugerido (categoria_id : Z) (bd : BaseDatos)
  : string :=
  match ServicioCategoria.obtener_por_id categoria_id bd with
  | None => ""
  | Some categoria =>
      let numero :=
        RepositorioProducto.obtener_siguiente_numero_sku
          (Categoria.prefijo categoria) bd in
      (Categoria.prefijo categoria ++ Texto.formato_03d numero)%string
  end.

(** For a product whose integers bind; [ServicioProductoEnlazado] has the
    [except] branch. *)
Definition actualizar (producto : Producto.t) (ahora : Z)
  : Estado (bool * Mensaje) :=
  ok <- RepositorioProducto.actualizar producto ahora ;;
  if ok then ret (true, ProductoActualizado)
  else ret (false, NoSePudoActualizar).

Definition actualizar_stock := RepositorioProducto.actualizar_stock.

End ServicioProducto.

Definition subtotales (items : list ItemCarrito.t) : list Q :=
  map ItemCarrito.subtotal items.

Module ServicioVenta.

(** For a cart whose lines bind; [ServicioVentaEnlazado] has the [except]
    branch. *)
Definition procesar_venta (items : list ItemCarrito.t)
    (metodo_pago : string) (ahora : Z)
  : Estado (bool * Mensaje * option Z) :=
  match items with
  | [] => ret (false, CarritoVacio, None)
  | _ :: _ =>
      let total := py_sum (subtotales items) in
      venta_id <- RepositorioVenta.registrar_venta items total metodo_pago
                    ahora ;;
      ret (true, VentaCompletada venta_id, Some venta_id)
  end.

Definition obtener_ventas_dia := RepositorioVenta.obtener_ventas_dia.

Definition registrar_retiro (monto : Q) (concepto : string)
    (disponible : Q) (ahora : Z) : Estado (bool * Mensaje) :=
  if Qle_bool monto 0 then ret (false, MontoNoPositivo)
  else if negb (Qle_bool monto disponible)
  then ret (false, FondosInsuficientes disponible)
  else
    _ <- RepositorioVenta.registrar_retiro monto concepto ahora ;;
    ret (true, RetiroRegistrado monto).

Definition total_retiros_dia := RepositorioVenta.total_retiros_dia.

End ServicioVenta.

Module ServicioPOS.

(** The validation loop of [procesar_venta], for product ids that bind:
    the first item whose product is missing or has less stock than the item
    asks for.  [ServicioPOSEnlazado] has the loop for any ids. *)
Fixpoint primer_sin_stock (items : list ItemCarrito.t) (bd : BaseDatos)
  : option ItemCarrito.t :=
  match items with
  | [] => None
  | item :: r =>
      match RepositorioProducto.obtener_por_id
              (ItemCarrito.producto_id item) bd with
      | None => Some item
      | Some producto =>
          if Producto.cantidad producto <? ItemCarrito.cantidad item
          then Some item
          else primer_sin_stock r bd
      end
  end.

Definition procesar_venta (items : list ItemCarrito.t)
    (metodo_pago : string) (ahora : Z)
  : Estado (bool * Mensaje * option Z) :=
  match items with
  | [] => ret (false, CarritoVacio, None)
  | _ :: _ =>
      falla <- leer (primer_sin_stock items) ;;
      match falla with
      | Some item =>
          ret (false, StockInsuficiente (ItemCarrito.nombre item), None)
      | None =>
          let total := py_sum (subtotales items) in
          venta_id <- RepositorioVenta.registrar_venta items total
                        metodo_pago ahora ;;
          _ <- para_cada
                 (fun item =>
                    RepositorioProducto.actualizar_stock
                      (ItemCarrito.producto_id item)
                      (ItemCarrito.cantidad item) ahora)
                 items ;;
          ret (true, VentaCompletada venta_id, Some venta_id)
      end
  end.

Definition obtener_ventas_dia := RepositorioVenta.obtener_ventas_dia.
Definition total_retiros_dia := RepositorioVenta.total_retiros_dia.

Definition efectivo_disponible (ahora : Z) (bd : BaseDatos) : Q :=
  let ventas := obtener_ventas_dia ahora bd in
  let total_ventas :=
    match ventas with
    | [] => 0%Q
    | _ :: _ => py_sum (map FilaVenta.total ventas)
    end in
  let retiros := total_retiros_dia ahora bd in
  (total_ventas - retiros)%Q.

(** With the local date and the UTC date equal; [DosRelojes] has the
    method for any two clocks. *)
Definition registrar_retiro (monto : Q) (concepto : string) (ahora : Z)
  : Estado (bool * Mensaje) :=
  if Qle_bool monto 0 then ret (false, MontoNoPositivo)
  else
    disponible <- leer (efectivo_disponible ahora) ;;
    if negb (Qle_bool monto disponible)
    then ret (false, FondosInsuficientes disponible)
    else
      _ <- RepositorioVenta.registrar_retiro monto concepto ahora ;;
      ret (true, RetiroRegistrado monto).

End ServicioPOS.

(** ** The two handlers of the presentation layer that write to the store *)

Module PestanaVentas.

(** What [procesar_pago] did. *)
Inductive Salida :=
| AvisoCarritoVacio
| ErrorStock (nombre : string)
| PagoCancelado
| Procesado (r : bool * Mensaje * option Z).

(** [procesar_pago]; [pago] is [dialogo.resultado], the payment method
    chosen in the dialog or [None] when it was cancelled.  The lines of the
    cart bind. *)
Definition procesar_pago (items : list ItemCarrito.t)
    (pago : option string) (ahora : Z) : Estado Salida :=
  match items with
  | [] => ret AvisoCarritoVacio
  | _ :: _ =>
      falla <- leer (ServicioPOS.primer_sin_stock items) ;;
      match falla with
      | Some item => ret (ErrorStock (ItemCarrito.nombre item))
      | None =>
          match pago with
          | Some (String c m) =>
              _ <- para_cada
                     (fun item =>
                        ServicioProducto.actualizar_stock
                          (ItemCarrito.producto_id item)
                          (ItemCarrito.cantidad item) ahora)
                     items ;;
              r <- ServicioVenta.procesar_venta items (String c m) ahora ;;
              ret (Procesado r)
          | _ => ret PagoCancelado
          end
      end
  end.

End PestanaVentas.

Module PestanaCaja.

(** [registrar_retiro] once the amount typed in the dialog parsed as a
    number: [disponible] is read when the dialog opens, as
    [servicio_venta.total_retiros_dia()]. *)
Definition registrar_retiro (monto : Q) (concepto : string) (ahora : Z)
  : Estado (bool * Mensaje) :=
  disponible <- leer (ServicioVenta.total_retiros_dia ahora) ;;
  match concepto with
  | EmptyString => ret (false, IngreseConcepto)
  | String _ _ =>
      ServicioVenta.registrar_retiro monto concepto disponible ahora
  end.

End PestanaCaja.

(** ** Properties the specification talks about *)

(** Every product's recorded quantity is at least 0. *)
Definition stock_no_negativo (bd : BaseDatos) : Prop :=
  Forall (fun r => 0 <= FilaProducto.cantidad r) (productos bd).

(** A sale attempt, through the service or through the checkout tab. *)
Inductive Venta :=
| VentaPOS (items : list ItemCarrito.t) (metodo_pago : string) (ahora : Z)
| PagoEnCaja (items : list ItemCarrito.t) (pago : option string) (ahora : Z).

Definition ejecutar (v : Venta) : Estado unit :=
  match v with
  | VentaPOS items metodo_pago ahora =>
      _ <- ServicioPOS.procesar_venta items metodo_pago ahora ;; ret tt
  | PagoEnCaja items pago ahora =>
      _ <- PestanaVentas.procesar_pago items pago ahora ;; ret tt
  end.

(** Any sequence of sale attempts, one after the other. *)
Definition jornada (vs : list Venta) : Estado unit := para_cada ejecutar vs.

(** How one row of [productos] may differ after a decrement of [n] units of
    product [pid]: the guard held and exactly [n] units left, or the row is
    as it was. *)
Definition descuento_guardado (pid n : Z) (r r' : FilaProducto.t) : Prop :=
  (FilaProducto.id r = pid /\ n <= FilaProducto.cantidad r
   /\ FilaProducto.id r' = FilaProducto.id r
   /\ FilaProducto.cantidad r' = FilaProducto.cantidad r - n)
  \/ ((FilaProducto.id r <> pid \/ FilaProducto.cantidad r < n) /\ r' = r).

(** The live quantity of a product, if the product exists. *)
Definition cantidad_viva (producto_id : Z) (bd : BaseDatos) : option Z :=
  option_map Producto.cantidad
    (RepositorioProducto.obtener_por_id producto_id bd).

(** The item references a missing product or asks for more than the
    product's live quantity. *)
Definition falta_stock (bd : BaseDatos) (item : ItemCarrito.t) : Prop :=
  match cantidad_viva (ItemCarrito.producto_id item) bd with
  | None => True
  | Some q => q < ItemCarrito.cantidad item
  end.

(** The day's sales total and withdrawals total, read off the tables row by
    row. *)
Fixpoint total_ventas_del_dia (dia : Z) (vs : list FilaVenta.t) : Q :=
  match vs with
  | [] => 0%Q
  | v :: r =>
      if DATE (FilaVenta.fecha v) =? dia
      then (FilaVenta.total v + total_ventas_del_dia dia r)%Q
      else total_ventas_del_dia dia r
  end.

Fixpoint total_retiros_del_dia (dia : Z) (ms : list FilaMovimiento.t) : Q :=
  match ms with
  | [] => 0%Q
  | m :: r =>
      match FilaMovimiento.tipo m with
      | RETIRO =>
          if DATE (FilaMovimiento.fecha m) =? dia
          then (FilaMovimiento.monto m + total_retiros_del_dia dia r)%Q
          else total_retiros_del_dia dia r
      | INGRESO => total_retiros_del_dia dia r
      end
  end.

(** The available balance of a day as the specification defines it. *)
Definition saldo_disponible (dia : Z) (bd : BaseDatos) : Q :=
  (total_ventas_del_dia dia (ventas bd)
   - total_retiros_del_dia dia (movimientos_caja bd))%Q.

(** Nothing was sold and nothing was withdrawn on that day. *)
Definition sin_actividad (dia : Z) (bd : BaseDatos) : Prop :=
  (forall v, In v (ventas bd) -> DATE (FilaVenta.fecha v) <> dia)
  /\ (forall m, In m (movimientos_caja bd) ->
        FilaMovimiento.tipo m = RETIRO ->
        DATE (FilaMovimiento.fecha m) <> dia).

(** The SKU the specification describes for a prefix: the prefix, then one
    more than the number of products whose SKU starts with it. *)
Definition productos_con_prefijo (prefijo : string) (bd : BaseDatos) : nat :=
  List.length
    (filter (fun r => Texto.empieza_con prefijo (FilaProducto.sku r))
       (productos bd)).

Definition sku_especificado (prefijo : string) (bd : BaseDatos) : string :=
  let n := Z.of_nat (productos_con_prefijo prefijo bd) in
  (prefijo ++ Texto.formato_03d (n + 1))%string.

(** The search as the specification describes it. *)
Module Busqueda.

(** Substring match on name, SKU or category label. *)
Definition coincide (termino : string) (p : Producto.t) : bool :=
  Texto.contiene termino (Producto.nombre p)
  || Texto.contiene termino (Producto.sku p)
  || Texto.contiene termino (Producto.categoria p).



End Busqueda.


(** Each store of the history is reached from the one before by a step
    in [R]. *)
Fixpoint encadenada (R : BaseDatos -> BaseDatos -> Prop) (bd : BaseDatos)
    (h : list BaseDatos) : Prop :=
  match h with
  | [] => True
  | s :: r => R bd s /\ encadenada R s r
  end.

(** The history of [m] is a chain of [R]-steps that ends in the store [m]
    leaves. *)
Definition paso_a_paso (R : BaseDatos -> BaseDatos -> Prop) {A}
    (m : Estado A) : Prop :=
  forall bd,
    encadenada R bd (historia (m bd))
    /\ final (m bd) = List.last (historia (m bd)) bd.

(** A committed step of a sale: the products are untouched, or some
    product was decremented under its guard. *)
Definition paso_de_venta (s s' : BaseDatos) : Prop :=
  productos s' = productos s
  \/ exists pid n,
       Forall2 (descuento_guardado pid n) (productos s) (productos s').

(** A row of [detalles_venta] is the snapshot of a cart item for a sale. *)
Definition detalle_del_item (venta_id : Z) (d : FilaDetalle.t)
    (item : ItemCarrito.t) : Prop :=
  FilaDetalle.venta_id d = venta_id
  /\ FilaDetalle.producto_id d = ItemCarrito.producto_id item
  /\ FilaDetalle.sku d = ItemCarrito.sku item
  /\ FilaDetalle.nombre_producto d = ItemCarrito.nombre item
  /\ FilaDetalle.cantidad d = ItemCarrito.cantidad item
  /\ FilaDetalle.precio_unitario d = ItemCarrito.precio_unitario item
  /\ FilaDetalle.subtotal d = ItemCarrito.subtotal item.

(** ** Example stores *)

Module Ejemplo.

(** The first product of [_inicializar_datos_ejemplo], with 5 units. *)
Definition coca : FilaProducto.t :=
  FilaProducto.mk 1 "BEB001" "Coca-Cola 600ml" "Gaseosa" 5 25 10 "Bebidas"
    0 0.

Definition sprite : FilaProducto.t :=
  FilaProducto.mk 2 "BEB002" "Sprite 600ml" "Gaseosa" 40 25 8 "Bebidas"
    0 0.

Definition bebidas : FilaCategoria.t :=
  FilaCategoria.mk 1 "BEBIDAS" "BEB" "Gaseosas y aguas" true 0.

Definition tienda : BaseDatos :=
  mkBD [bebidas] [coca; sprite] [] [] [] 0 0 0.

Definition tres_cocas : ItemCarrito.t :=
  ItemCarrito.mk 1 "BEB001" "Coca-Cola 600ml" 3 25 75.

Definition seis_cocas : ItemCarrito.t :=
  ItemCarrito.mk 1 "BEB001" "Coca-Cola 600ml" 6 25 150.

(** A day with sales of 100 and a withdrawal of 30. *)
Definition con_retiro_de_30 : BaseDatos :=
  mkBD [bebidas] [coca; sprite]
       [FilaVenta.mk 1 100 "efectivo" 1000 "CAJERO"] []
       [FilaMovimiento.mk 1 2000 RETIRO 30 "cambio" "CAJERO"] 1 0 1.

(** A day with sales of 100 and a withdrawal of 60. *)
Definition con_retiro_de_60 : BaseDatos :=
  mkBD [bebidas] [coca; sprite]
       [FilaVenta.mk 1 100 "efectivo" 1000 "CAJERO"] []
       [FilaMovimiento.mk 1 2000 RETIRO 60 "cambio" "CAJERO"] 1 0 1.


Definition almacen_editado : Categoria.t :=
  Categoria.mk (Some 1) "Almacen" "a_" "" true None.




Definition b : FilaProducto.t :=
  FilaProducto.mk 2 "A_1" "b" "" 1 1 5 "c" 0 0.


(** An update of product 1 that carries another SKU, a negative quantity
    and a price of zero. *)
Definition coca_editada : Producto.t :=
  Producto.mk (Some 1) "XXX999" "Coca-Cola 1l" "Gaseosa" (-3) 0 10 "Bebidas"
    None None.

End Ejemplo.

(** ** Catalogue administration

    The remaining methods of the repositories and services.  The rowid that
    AUTOINCREMENT hands out for a new category or product is an explicit
    argument, as the clock is: SQLite picks it larger than every rowid the
    table ever held. *)

(** The texts of the catalogue services, one constructor per f-string. *)
Inductive MensajeCatalogo :=
| CategoriaDuplicada (nombre : string) (* "Ya existe una categoria '...'" *)
| PrefijoObligatorio            (* "El prefijo es obligatorio" *)
| PrefijoLargo                  (* "... no puede tener mas de 5 caracteres" *)
| PrefijoNoAlfabetico           (* "El prefijo solo puede contener letras" *)
| PrefijoDuplicado (prefijo : string)  (* "Ya existe ... con prefijo '...'" *)
| PrefijoValido                 (* the empty text of a valid prefix *)
| CategoriaCreada (nombre : string)    (* "Categoria '{nombre}' creada" *)
| CategoriaEliminada            (* "Categoria eliminada" *)
| SkuDuplicado (sku : string)   (* "Ya existe un producto con SKU '{sku}'" *)
| NombreObligatorio             (* "El nombre es obligatorio" *)
| PrecioNoPositivo              (* "El precio debe ser mayor a cero" *)
| CantidadNegativa              (* "La cantidad no puede ser negativa" *)
| ProductoAgregado (nombre : string)   (* "Producto '{nombre}' agregado" *)
| ProductoEliminado             (* "Producto eliminado" *)
| NoSePudoEliminar              (* "No se pudo eliminar" *)
| ErrorDeAlmacen.               (* "Error: {e}" *)

Definition es_letra (c : ascii) : bool :=
  let n := N_of_ascii c in
  (((65 <=? n) && (n <=? 90)) || ((97 <=? n) && (n <=? 122)))%N.

Fixpoint todas_letras (s : string) : bool :=
  match s with
  | EmptyString => true
  | String c r => es_letra c && todas_letras r
  end.

(** [str.isalpha()] on ASCII text: at least one character, all letters. *)
Definition isalpha (s : string) : bool :=
  match s with
  | EmptyString => false
  | String _ _ => todas_letras s
  end.

(** [ORDER BY nombre] on [categorias] and on [productos]. *)
Definition por_nombre_categoria (a b : FilaCategoria.t) : bool :=
  String.leb (FilaCategoria.nombre a) (FilaCategoria.nombre b).

Definition por_nombre_producto (a b : FilaProducto.t) : bool :=
  String.leb (FilaProducto.nombre a) (FilaProducto.nombre b).

(** Further methods of [RepositorioCategoria]. *)
Module CategoriaRepo.

(** [SELECT * FROM categorias [WHERE activo = 1] ORDER BY nombre]. *)
Definition obtener_todas (solo_activas : bool) (bd : BaseDatos)
  : list Categoria.t :=
  map RepositorioCategoria._fila_a_categoria
    (ordenar por_nombre_categoria
       (if solo_activas then filter FilaCategoria.activo (categorias bd)
        else categorias bd)).

(** [SELECT * FROM categorias WHERE prefijo = ?] with [prefijo.upper()]. *)
Definition obtener_por_prefijo (prefijo : string) (bd : BaseDatos)
  : option Categoria.t :=
  option_map RepositorioCategoria._fila_a_categoria
    (find (fun r => String.eqb (FilaCategoria.prefijo r)
                      (Texto.upper prefijo)) (categorias bd)).

(** [INSERT INTO categorias (nombre, prefijo, descripcion)] with the name
    and the prefix upper-cased; [None] is the IntegrityError of the UNIQUE
    constraints, [Some rowid] is [cursor.lastrowid]. *)
Definition agregar (categoria : Categoria.t) (rowid ahora : Z)
  : Estado (option Z) :=
  transaccion (fun bd =>
    let nombre := Texto.upper (Categoria.nombre categoria) in
    let prefijo := Texto.upper (Categoria.prefijo categoria) in
    if existsb (fun r => String.eqb (FilaCategoria.nombre r) nombre
                         || String.eqb (FilaCategoria.prefijo r) prefijo)
               (categorias bd)
    then (None, bd)
    else
      (Some rowid,
       con_categorias
         (fun filas =>
            filas ++ [FilaCategoria.mk rowid nombre prefijo
                        (Categoria.descripcion categoria) true ahora])
         bd)).

(** [UPDATE categorias SET activo = 0 WHERE id = ?]; returns
    [cursor.rowcount > 0]. *)
Definition eliminar (categoria_id : Z) : Estado bool :=
  transaccion (fun bd =>
    (existsb (fun r => FilaCategoria.id r =? categoria_id) (categorias bd),
     con_categorias
       (map (fun r =>
               if FilaCategoria.id r =? categoria_id then
                 FilaCategoria.mk (FilaCategoria.id r) (FilaCategoria.nombre r)
                   (FilaCategoria.prefijo r) (FilaCategoria.descripcion r)
                   false (FilaCategoria.creado_en r)
               else r)) bd)).

End CategoriaRepo.

(** Further methods of [ServicioCategoria]. *)
Module CategoriaSrv.

Definition obtener_todas (bd : BaseDatos) : list Categoria.t :=
  CategoriaRepo.obtener_todas true bd.

(** On an ASCII prefix, where [upper], [len] and [isalpha] are the
    byte-wise ones. *)
Definition validar_prefijo (prefijo : string) (bd : BaseDatos)
  : bool * MensajeCatalogo :=
  match prefijo with
  | EmptyString => (false, PrefijoObligatorio)
  | String _ _ =>
      let prefijo := Texto.upper prefijo in
      if (5 <? String.length prefijo)%nat then (false, PrefijoLargo)
      else if negb (isalpha prefijo) then (false, PrefijoNoAlfabetico)
      else
        match CategoriaRepo.obtener_por_prefijo prefijo bd with
        | Some _ => (false, PrefijoDuplicado prefijo)
        | None => (true, PrefijoValido)
        end
  end.

(** The loop over [obtener_todas(solo_activas=False)]: some category has
    the same upper-cased name ([upper] on ASCII names). *)
Definition nombre_repetido (nombre : string) (bd : BaseDatos) : bool :=
  existsb (fun c => String.eqb (Texto.upper (Categoria.nombre c))
                      (Texto.upper nombre))
          (CategoriaRepo.obtener_todas false bd).

Definition agregar (categoria : Categoria.t) (rowid ahora : Z)
  : Estado (bool * MensajeCatalogo) :=
  repetido <- leer (nombre_repetido (Categoria.nombre categoria)) ;;
  if repetido
  then ret (false, CategoriaDuplicada (Categoria.nombre categoria))
  else
    v <- leer (validar_prefijo (Categoria.prefijo categoria)) ;;
    if negb (fst v) then ret (false, snd v)
    else
      r <- CategoriaRepo.agregar categoria rowid ahora ;;
      match r with
      | Some _ => ret (true, CategoriaCreada (Categoria.nombre categoria))
      | None => ret (false, ErrorDeAlmacen)
      end.

Definition eliminar (categoria_id : Z) : Estado (bool * MensajeCatalogo) :=
  ok <- CategoriaRepo.eliminar categoria_id ;;
  if ok then ret (true, CategoriaEliminada)
  else ret (false, NoSePudoEliminar).

End CategoriaSrv.

(** Further methods of [RepositorioProducto]. *)
Module ProductoRepo.

(** [INSERT INTO productos (sku, nombre, descripcion, cantidad, precio,
    stock_minimo, categoria)] with the SKU upper-cased; [None] is the
    IntegrityError of the UNIQUE constraint on [sku]. *)
Definition agregar (producto : Producto.t) (rowid ahora : Z)
  : Estado (option Z) :=
  transaccion (fun bd =>
    let sku := Texto.upper (Producto.sku producto) in
    if existsb (fun r => String.eqb (FilaProducto.sku r) sku) (productos bd)
    then (None, bd)
    else
      (Some rowid,
       con_productos
         (fun filas =>
            filas ++ [FilaProducto.mk rowid sku (Producto.nombre producto)
                        (Producto.descripcion producto)
                        (Producto.cantidad producto)
                        (Producto.precio producto)
                        (Producto.stock_minimo producto)
                        (Producto.categoria producto) ahora ahora])
         bd)).

(** [SELECT * FROM productos ORDER BY nombre]. *)
Definition obtener_todos (bd : BaseDatos) : list Producto.t :=
  map RepositorioProducto._fila_a_producto
    (ordenar por_nombre_producto (productos bd)).

(** [SELECT * FROM productos WHERE sku = ?] with [sku.upper()]. *)
Definition obtener_por_sku (sku : string) (bd : BaseDatos)
  : option Producto.t :=
  option_map RepositorioProducto._fila_a_producto
    (find (fun r => String.eqb (FilaProducto.sku r) (Texto.upper sku))
       (productos bd)).

(** [DELETE FROM productos WHERE id = ?]; returns
    [cursor.rowcount > 0]. *)
Definition eliminar (producto_id : Z) : Estado bool :=
  transaccion (fun bd =>
    (existsb (fun r => FilaProducto.id r =? producto_id) (productos bd),
     con_productos
       (filter (fun r => negb (FilaProducto.id r =? producto_id))) bd)).

End ProductoRepo.

(** Further methods of [ServicioProducto]. *)
Module ProductoSrv.

Definition obtener_todos := ProductoRepo.obtener_todos.

(** For a product whose integers bind; [ServicioProductoEnlazado] has the
    other products. *)
Definition agregar (producto : Producto.t) (rowid ahora : Z)
  : Estado (bool * MensajeCatalogo) :=
  existente <- leer (ProductoRepo.obtener_por_sku (Producto.sku producto)) ;;
  match existente with
  | Some _ => ret (false, SkuDuplicado (Producto.sku producto))
  | None =>
      match Producto.nombre producto with
      | EmptyString => ret (false, NombreObligatorio)
      | String _ _ =>
          if Qle_bool (Producto.precio producto) 0
          then ret (false, PrecioNoPositivo)
          else if Producto.cantidad producto <? 0
          then ret (false, CantidadNegativa)
          else
            r <- ProductoRepo.agregar producto rowid ahora ;;
            match r with
            | Some _ => ret (true, ProductoAgregado (Producto.nombre producto))
            | None => ret (false, ErrorDeAlmacen)
            end
      end
  end.

Definition eliminar (producto_id : Z) : Estado (bool * MensajeCatalogo) :=
  ok <- ProductoRepo.eliminar producto_id ;;
  if ok then ret (true, ProductoEliminado)
  else ret (false, NoSePudoEliminar).

(** [sum(1 for p in todos if p.categoria == categoria_nombre)]. *)
Definition contar_por_categoria (categoria_nombre : string) (bd : BaseDatos)
  : Z :=
  Z.of_nat
    (List.length
       (filter (fun p => String.eqb (Producto.categoria p) categoria_nombre)
          (obtener_todos bd))).

End ProductoSrv.

(** Further methods of [RepositorioVenta]. *)
Module VentaRepo.

Definition mas_reciente (m n : FilaMovimiento.t) : bool :=
  FilaMovimiento.fecha n <=? FilaMovimiento.fecha m.

(** [SELECT * FROM movimientos_caja WHERE DATE(fecha) = hoy AND
    tipo = 'RETIRO' ORDER BY fecha DESC]. *)
Definition obtener_retiros_dia (ahora : Z) (bd : BaseDatos)
  : list FilaMovimiento.t :=
  ordenar mas_reciente
    (filter (RepositorioVenta.retiro_de_hoy (DATE ahora))
       (movimientos_caja bd)).

End VentaRepo.

(** ** Parameters the store refuses

    [sqlite3] binds a Python [int] as a signed 64-bit INTEGER; for any other
    [int] the call to [execute] raises OverflowError before the statement
    runs.  The exception leaves the [with] block, so the connection rolls
    back and nothing is committed.  The repository methods above say what a
    statement does once its parameters are bound.  Here they are given with
    the binding in front, and the service methods that call them with their
    [try]/[except] around it, or without it where the source has none. *)

(** The exception of a parameter that does not fit. *)
Inductive Excepcion :=
| OverflowError.  (* "Python int too large to convert to SQLite INTEGER" *)

(** What a call does: it returns, or it raises. *)
Inductive Llamada (A : Type) :=
| Retorna (a : A)
| Lanza (e : Excepcion).

Arguments Retorna {A} a.
Arguments Lanza {A} e.

Module Sqlite3.

(** The integers that fit a signed 64-bit INTEGER. *)
Definition cabe (n : Z) : bool := (- 2 ^ 63 <=? n) && (n <? 2 ^ 63).

(** A query whose integer parameters are [enteros]. *)
Definition consultar {A} (enteros : list Z) (consulta : BaseDatos -> A)
    (bd : BaseDatos) : Llamada A :=
  if forallb cabe enteros then Retorna (consulta bd)
  else Lanza OverflowError.

(** A [with] block that writes, its statements taking the integer
    parameters [enteros]: a parameter that does not fit rolls the block
    back. *)
Definition ejecutar {A} (enteros : list Z) (bloque : Estado A)
  : Estado (Llamada A) :=
  fun bd =>
    if forallb cabe enteros then
      let '(a, bd', h) := bloque bd in (Retorna a, bd', h)
    else (Lanza OverflowError, bd, []).

End Sqlite3.

(** [RepositorioCategoria], binding included. *)
Module RepositorioCategoriaEnlazado.

Definition obtener_por_id (categoria_id : Z)
  : BaseDatos -> Llamada (option Categoria.t) :=
  Sqlite3.consultar [categoria_id]
    (RepositorioCategoria.obtener_por_id categoria_id).

End RepositorioCategoriaEnlazado.

(** [RepositorioProducto], binding included. *)
Module RepositorioProductoEnlazado.

Definition obtener_por_id (producto_id : Z)
  : BaseDatos -> Llamada (option Producto.t) :=
  Sqlite3.consultar [producto_id]
    (RepositorioProducto.obtener_por_id producto_id).

Definition actualizar_stock (producto_id cantidad_vendida ahora : Z)
  : Estado (Llamada bool) :=
  Sqlite3.ejecutar [cantidad_vendida; producto_id; cantidad_vendida]
    (RepositorioProducto.actualizar_stock producto_id cantidad_vendida
       ahora).

(** [producto.id] is an [int], or [None], which binds as NULL. *)
Definition entero_opcional (oid : option Z) : list Z :=
  match oid with
  | Some i => [i]
  | None => []
  end.

(** The integers the UPDATE of [actualizar] takes. *)
Definition enteros_de (producto : Producto.t) : list Z :=
  Producto.cantidad producto :: Producto.stock_minimo producto
    :: entero_opcional (Producto.id producto).

Definition actualizar (producto : Producto.t) (ahora : Z)
  : Estado (Llamada bool) :=
  Sqlite3.ejecutar (enteros_de producto)
    (RepositorioProducto.actualizar producto ahora).

Definition agregar (producto : Producto.t) (rowid ahora : Z)
  : Estado (Llamada (option Z)) :=
  Sqlite3.ejecutar
    [Producto.cantidad producto; Producto.stock_minimo producto]
    (ProductoRepo.agregar producto rowid ahora).

End RepositorioProductoEnlazado.

(** [RepositorioVenta], binding included. *)
Module RepositorioVentaEnlazado.

(** The integers of the cart that the INSERTs into [detalles_venta]
    take. *)
Definition enteros_de (items : list ItemCarrito.t) : list Z :=
  flat_map (fun item => [ItemCarrito.producto_id item;
                         ItemCarrito.cantidad item]) items.

(** The INSERT into [ventas] and the INSERTs into [detalles_venta] share
    one [with] block: a line that does not bind rolls the sale back. *)
Definition registrar_venta (items : list ItemCarrito.t) (total : Q)
    (metodo_pago : string) (ahora : Z) : Estado (Llamada Z) :=
  Sqlite3.ejecutar (enteros_de items)
    (RepositorioVenta.registrar_venta items total metodo_pago ahora).

End RepositorioVentaEnlazado.

(** [ServicioProducto], with the exceptions of the store. *)
Module ServicioProductoEnlazado.

(** No [try] in this method: what [obtener_por_id] raises, it raises. *)
Definition generar_sku_sugerido (categoria_id : Z) (bd : BaseDatos)
  : Llamada string :=
  match RepositorioCategoriaEnlazado.obtener_por_id categoria_id bd with
  | Lanza e => Lanza e
  | Retorna None => Retorna ""
  | Retorna (Some categoria) =>
      let numero :=
        RepositorioProducto.obtener_siguiente_numero_sku
          (Categoria.prefijo categoria) bd in
      Retorna (Categoria.prefijo categoria ++ Texto.formato_03d numero)%string
  end.

Definition agregar (producto : Producto.t) (rowid ahora : Z)
  : Estado (bool * MensajeCatalogo) :=
  existente <- leer (ProductoRepo.obtener_por_sku (Producto.sku producto)) ;;
  match existente with
  | Some _ => ret (false, SkuDuplicado (Producto.sku producto))
  | None =>
      match Producto.nombre producto with
      | EmptyString => ret (false, NombreObligatorio)
      | String _ _ =>
          if Qle_bool (Producto.precio producto) 0
          then ret (false, PrecioNoPositivo)
          else if Producto.cantidad producto <? 0
          then ret (false, CantidadNegativa)
          else
            r <- RepositorioProductoEnlazado.agregar producto rowid ahora ;;
            match r with
            | Retorna (Some _) =>
                ret (true, ProductoAgregado (Producto.nombre producto))
            | Retorna None => ret (false, ErrorDeAlmacen)
            | Lanza _ => ret (false, ErrorDeAlmacen)
            end
      end
  end.

Definition actualizar (producto : Producto.t) (ahora : Z)
  : Estado (bool * Mensaje) :=
  r <- RepositorioProductoEnlazado.actualizar producto ahora ;;
  match r with
  | Retorna true => ret (true, ProductoActualizado)
  | Retorna false => ret (false, NoSePudoActualizar)
  | Lanza _ => ret (false, ErrorAlmacen)
  end.

End ServicioProductoEnlazado.

(** [ServicioVenta], with the exceptions of the store. *)
Module ServicioVentaEnlazado.

Definition procesar_venta (items : list ItemCarrito.t)
    (metodo_pago : string) (ahora : Z)
  : Estado (bool * Mensaje * option Z) :=
  match items with
  | [] => ret (false, CarritoVacio, None)
  | _ :: _ =>
      let total := py_sum (subtotales items) in
      r <- RepositorioVentaEnlazado.registrar_venta items total metodo_pago
             ahora ;;
      match r with
      | Retorna venta_id =>
          ret (true, VentaCompletada venta_id, Some venta_id)
      | Lanza _ => ret (false, ErrorAlmacen, None)
      end
  end.

End ServicioVentaEnlazado.

(** [ServicioPOS], with the exceptions of the store. *)
Module ServicioPOSEnlazado.

(** What the validation loop of [procesar_venta] comes to. *)
Inductive Validacion :=
| Aprobada
| SinStock (item : ItemCarrito.t)
| Interrumpida (e : Excepcion).

(** The loop runs before the [try]: an exception of [obtener_por_id]
    leaves [procesar_venta]. *)
Fixpoint validar (items : list ItemCarrito.t) (bd : BaseDatos)
  : Validacion :=
  match items with
  | [] => Aprobada
  | item :: r =>
      match RepositorioProductoEnlazado.obtener_por_id
              (ItemCarrito.producto_id item) bd with
      | Lanza e => Interrumpida e
      | Retorna None => SinStock item
      | Retorna (Some producto) =>
          if Producto.cantidad producto <? ItemCarrito.cantidad item
          then SinStock item
          else validar r bd
      end
  end.

(** The loop of decrements, inside the [try]: it stops at the first
    exception, with the decrements before it committed. *)
Fixpoint descontar (items : list ItemCarrito.t) (ahora : Z)
  : Estado (Llamada unit) :=
  match items with
  | [] => ret (Retorna tt)
  | item :: r =>
      ok <- RepositorioProductoEnlazado.actualizar_stock
              (ItemCarrito.producto_id item) (ItemCarrito.cantidad item)
              ahora ;;
      match ok with
      | Retorna _ => descontar r ahora
      | Lanza e => ret (Lanza e)
      end
  end.

Definition procesar_venta (items : list ItemCarrito.t)
    (metodo_pago : string) (ahora : Z)
  : Estado (Llamada (bool * Mensaje * option Z)) :=
  match items with
  | [] => ret (Retorna (false, CarritoVacio, None))
  | _ :: _ =>
      v <- leer (validar items) ;;
      match v with
      | Interrumpida e => ret (Lanza e)
      | SinStock item =>
          ret (Retorna
                 (false, StockInsuficiente (ItemCarrito.nombre item), None))
      | Aprobada =>
          let total := py_sum (subtotales items) in
          r <- RepositorioVentaEnlazado.registrar_venta items total
                 metodo_pago ahora ;;
          match r with
          | Lanza _ => ret (Retorna (false, ErrorAlmacen, None))
          | Retorna venta_id =>
              d <- descontar items ahora ;;
              match d with
              | Lanza _ => ret (Retorna (false, ErrorAlmacen, None))
              | Retorna _ =>
                  ret (Retorna
                         (true, VentaCompletada venta_id, Some venta_id))
              end
          end
      end
  end.

End ServicioPOSEnlazado.

(** ** Two clocks

    [date.today()] reads the local date, CURRENT_TIMESTAMP is UTC.  A method
    that only reads, or only writes, uses one of them, which is its
    argument [ahora].  [ServicioPOS.registrar_retiro] uses both: the day of
    the balance it checks is the local one, the row it inserts is stamped in
    UTC. *)
Module DosRelojes.

(** [hoy] is the local time, [ahora] the UTC time of the same instant. *)
Definition registrar_retiro (monto : Q) (concepto : string) (hoy ahora : Z)
  : Estado (bool * Mensaje) :=
  if Qle_bool monto 0 then ret (false, MontoNoPositivo)
  else
    disponible <- leer (ServicioPOS.efectivo_disponible hoy) ;;
    if negb (Qle_bool monto disponible)
    then ret (false, FondosInsuficientes disponible)
    else
      _ <- RepositorioVenta.registrar_retiro monto concepto ahora ;;
      ret (true, RetiroRegistrado monto).

End DosRelojes.

(** ** The cart of the checkout tab

    [CarritoWidget] keeps the list [self.items]; its methods are functions
    from the list to the new list.  A cart item carries an integer product
    id, so a product without id, which no search returns, is outside the
    model ([None]). *)
Module CarritoWidget.

Inductive Mensaje :=
| StockMaximo (maximo : Z)         (* "Stock insuficiente. Max: {maximo}" *)
| CantidadActualizada (nombre : string) (cantidad : Z)
| Agregado (nombre : string) (cantidad : Z).

(** What the loop over [self.items] finds for a product id. *)
Inductive Linea :=
| NoEsta
| Excede
| Sumada (items : list ItemCarrito.t) (item : ItemCarrito.t).

Definition con_cantidad (item : ItemCarrito.t) (nueva_cantidad : Z)
  : ItemCarrito.t :=
  ItemCarrito.mk (ItemCarrito.producto_id item) (ItemCarrito.sku item)
    (ItemCarrito.nombre item) nueva_cantidad
    (ItemCarrito.precio_unitario item)
    (inject_Z nueva_cantidad * ItemCarrito.precio_unitario item)%Q.

Fixpoint sumar (pid cantidad stock : Z) (items : list ItemCarrito.t)
  : Linea :=
  match items with
  | [] => NoEsta
  | item :: r =>
      if ItemCarrito.producto_id item =? pid then
        let nueva_cantidad := ItemCarrito.cantidad item + cantidad in
        if stock <? nueva_cantidad then Excede
        else Sumada (con_cantidad item nueva_cantidad :: r)
                    (con_cantidad item nueva_cantidad)
      else
        match sumar pid cantidad stock r with
        | Sumada r' item' => Sumada (item :: r') item'
        | otra => otra
        end
  end.

Definition agregar (items : list ItemCarrito.t) (producto : Producto.t)
    (cantidad : Z)
  : option (list ItemCarrito.t * (bool * Mensaje)) :=
  match Producto.id producto with
  | None => None
  | Some pid =>
      let stock := Producto.cantidad producto in
      Some
        match sumar pid cantidad stock items with
        | Excede => (items, (false, StockMaximo stock))
        | Sumada items' item =>
            (items',
             (true, CantidadActualizada (ItemCarrito.nombre item)
                      (ItemCarrito.cantidad item)))
        | NoEsta =>
            if stock <? cantidad then (items, (false, StockMaximo stock))
            else
              (items
                 ++ [ItemCarrito.mk pid (Producto.sku producto)
                       (Producto.nombre producto) cantidad
                       (Producto.precio producto)
                       (inject_Z cantidad * Producto.precio producto)%Q],
               (true, Agregado (Producto.nombre producto) cantidad))
        end
  end.

Definition limpiar (items : list ItemCarrito.t) : list ItemCarrito.t := [].

Definition obtener_total (items : list ItemCarrito.t) : Q :=
  py_sum (subtotales items).

End CarritoWidget.

(** ** Properties of the catalogue and of the cart *)

(** No two products hold the same SKU, and every SKU is stored
    upper-cased. *)
Definition skus_unicos (bd : BaseDatos) : Prop :=
  NoDup (map FilaProducto.sku (productos bd))
  /\ Forall (fun r => Texto.upper (FilaProducto.sku r) = FilaProducto.sku r)
       (productos bd).

(** What [ServicioProducto.agregar] checks of the name and of the
    quantity. *)
Definition en_rango (r : FilaProducto.t) : Prop :=
  FilaProducto.nombre r <> ""
  /\ 0 <= FilaProducto.cantidad r.

(** No two categories hold the same id, the same name or the same
    prefix. *)
Definition categorias_unicas (bd : BaseDatos) : Prop :=
  NoDup (map FilaCategoria.id (categorias bd))
  /\ NoDup (map FilaCategoria.nombre (categorias bd))
  /\ NoDup (map FilaCategoria.prefijo (categorias bd)).

(** The subtotal of a line is its quantity times its unit price. *)
Definition linea_coherente (item : ItemCarrito.t) : Prop :=
  ItemCarrito.subtotal item
  = (inject_Z (ItemCarrito.cantidad item)
     * ItemCarrito.precio_unitario item)%Q.

(** The product id and the quantity of the line fit a signed 64-bit
    INTEGER. *)
Definition linea_enlazable (item : ItemCarrito.t) : Prop :=
  Sqlite3.cabe (ItemCarrito.producto_id item) = true
  /\ Sqlite3.cabe (ItemCarrito.cantidad item) = true.

(** One line per product, every line coherent. *)
Definition carrito_coherente (items : list ItemCarrito.t) : Prop :=
  NoDup (map ItemCarrito.producto_id items)
  /\ Forall linea_coherente items.

(** An operation on the product catalogue. *)
Inductive OperacionCatalogo :=
| Alta (producto : Producto.t) (rowid ahora : Z)
| Modificacion (producto : Producto.t) (ahora : Z)
| Baja (producto_id : Z)
| Descuento (producto_id cantidad_vendida ahora : Z).

Definition aplicar (op : OperacionCatalogo) : Estado unit :=
  match op with
  | Alta producto rowid ahora =>
      _ <- ProductoSrv.agregar producto rowid ahora ;; ret tt
  | Modificacion producto ahora =>
      _ <- ServicioProducto.actualizar producto ahora ;; ret tt
  | Baja producto_id =>
      _ <- ProductoSrv.eliminar producto_id ;; ret tt
  | Descuento producto_id cantidad_vendida ahora =>
      _ <- ServicioProducto.actualizar_stock producto_id cantidad_vendida
             ahora ;; ret tt
  end.

(** The operation is not an update through [updateProduct]. *)
Definition sin_modificacion (op : OperacionCatalogo) : Prop :=
  match op with
  | Modificacion _ _ => False
  | _ => True
  end.

(** An operation on the categories. *)
Inductive OperacionCategoria :=
| AltaCategoria (categoria : Categoria.t) (rowid ahora : Z)
| CambioCategoria (categoria : Categoria.t)
| BajaCategoria (categoria_id : Z).

Definition aplicar_categoria (op : OperacionCategoria) : Estado unit :=
  match op with
  | AltaCategoria categoria rowid ahora =>
      _ <- CategoriaSrv.agregar categoria rowid ahora ;; ret tt
  | CambioCategoria categoria =>
      _ <- ServicioCategoria.actualizar categoria ;; ret tt
  | BajaCategoria categoria_id =>
      _ <- CategoriaSrv.eliminar categoria_id ;; ret tt
  end.

(** AUTOINCREMENT at work along a sequence of operations: the rowid of
    each new category is larger than every id the table holds then. *)
Fixpoint rowids_nuevos (ops : list OperacionCategoria) (bd : BaseDatos)
  : Prop :=
  match ops with
  | [] => True
  | op :: r =>
      match op with
      | AltaCategoria _ rowid _ =>
          Forall (fun f => FilaCategoria.id f < rowid) (categorias bd)
      | _ => True
      end
      /\ rowids_nuevos r (final (aplicar_categoria op bd))
  end.

(** A category after its logical deletion. *)
Definition desactivada (c : Categoria.t) : Categoria.t :=
  Categoria.mk (Categoria.id c) (Categoria.nombre c) (Categoria.prefijo c)
    (Categoria.descripcion c) false (Categoria.creado_en c).

Module Muestra.

Definition alta_fanta : Producto.t :=
  Producto.mk None "beb003" "Fanta 600ml" "Gaseosa" 12 25 5 "Bebidas"
    None None.

Definition golosinas : Categoria.t :=
  Categoria.mk None "Golosinas" "gol" "Chocolates" true None.

Definition coca_buscada : Producto.t :=
  RepositorioProducto.producto_de_busqueda Ejemplo.coca.

Definition sprite_buscada : Producto.t :=
  RepositorioProducto.producto_de_busqueda Ejemplo.sprite.

Definition dos_cocas_y_sprite : list ItemCarrito.t :=
  [ItemCarrito.mk 1 "BEB001" "Coca-Cola 600ml" 2 25 50;
   ItemCarrito.mk 2 "BEB002" "Sprite 600ml" 4 25 100].

(** A line for a product id one past the largest INTEGER, *)
Definition fantasma : ItemCarrito.t :=
  ItemCarrito.mk (2 ^ 63) "FAN001" "Fantasma" 1 10 10.

(** a line and an update of product 1 with such a quantity. *)
Definition cocas_sin_fin : ItemCarrito.t :=
  ItemCarrito.mk 1 "BEB001" "Coca-Cola 600ml" (2 ^ 63) 25 25.

Definition coca_sin_fin : Producto.t :=
  Producto.mk (Some 1) "BEB001" "Coca-Cola 600ml" "Gaseosa" (2 ^ 63) 25 10
    "Bebidas" None None.

End Muestra.

(** * Proofs *)

(** ** The model on the data of the specification *)

Example formato_03d_4 : Texto.formato_03d 4 = "004".
Proof. reflexivity. Qed.

Example formato_03d_1000 : Texto.formato_03d 1000 = "1000".
Proof. reflexivity. Qed.

Example like_sin_caso : Texto.like "beb%" "BEB001" = true.
Proof. reflexivity. Qed.

Example like_guion_bajo : Texto.like "A_%" "AB001" = true.
Proof. reflexivity. Qed.

Example sku_sugerido_bebidas :
  ServicioProducto.generar_sku_sugerido 1 Ejemplo.tienda = "BEB003".
Proof. reflexivity. Qed.

Example buscar_sku_exacto :
  map Producto.sku (ServicioProducto.buscar "beb00" Ejemplo.tienda)
  = ["BEB001"; "BEB002"]
  /\ map Producto.sku (ServicioProducto.buscar "beb002" Ejemplo.tienda)
     = ["BEB002"]
  /\ map Producto.sku (ServicioProducto.buscar "b" Ejemplo.tienda) = [].
Proof. repeat split. Qed.

(** ** LIKE on patterns whose only wildcards are the ones the code adds *)

Section HechosTexto.
Import Texto.

Lemma minuscula_idem (c : ascii) : minuscula (minuscula c) = minuscula c.
Proof. destruct c as [[] [] [] [] [] [] [] []]; reflexivity. Qed.




Lemma lower_idem (s : string) : lower (lower s) = lower s.
Proof.
  induction s as [|c s IH]; simpl; [reflexivity|].
  now rewrite minuscula_idem, IH.
Qed.

Lemma lower_append (s t : string) :
  lower (s ++ t)%string = (lower s ++ lower t)%string.
Proof. induction s as [|c s IH]; simpl; [reflexivity | now rewrite IH]. Qed.




(** A pattern [p%] with no wildcard in [p] selects the strings that start
    with [p]. *)
Lemma like_prefijo (p s : string) :
  sin_comodines p = true ->
  like (p ++ "%")%string s = empieza_con p s.
Proof.
  revert s; induction p as [|c p IH]; intros s Hp.
  - simpl. induction s as [|d s IHs]; simpl; [reflexivity|].
    exact IHs.
  - simpl in Hp. apply andb_prop in Hp as [Hc Hp].
    apply andb_prop in Hc as [Hpc Hgb].
    apply negb_true_iff in Hpc. apply negb_true_iff in Hgb.
    simpl. rewrite Hpc. destruct s as [|d s]; [reflexivity|].
    rewrite Hgb. simpl. now rewrite IH.
Qed.



End HechosTexto.

(** ** ORDER BY *)

Section HechosOrdenar.
Context {A : Type} (le : A -> A -> bool).
Hypothesis le_total : forall x y, le x y = true \/ le y x = true.
Hypothesis le_trans :
  forall x y z, le x y = true -> le y z = true -> le x z = true.

Lemma insertar_perm (x : A) (l : list A) :
  Permutation (x :: l) (insertar le x l).
Proof.
  induction l as [|y l IH]; simpl; [reflexivity|].
  destruct (le x y); [reflexivity|].
  rewrite perm_swap. now apply perm_skip.
Qed.

Lemma ordenar_perm (l : list A) : Permutation l (ordenar le l).
Proof.
  induction l as [|x l IH]; simpl; [constructor|].
  rewrite <- insertar_perm. now apply perm_skip.
Qed.

Lemma insertar_ordenada (x : A) (l : list A) :
  StronglySorted (fun a b => le a b = true) l ->
  StronglySorted (fun a b => le a b = true) (insertar le x l).
Proof.
  induction 1 as [|y l Hs IH Hy]; simpl.
  - repeat constructor.
  - destruct (le x y) eqn:Hxy.
    + constructor; [now constructor|].
      constructor; [assumption|].
      rewrite Forall_forall in Hy |- *.
      intros z Hz. eapply le_trans; eauto.
    + constructor; [assumption|].
      rewrite Forall_forall in Hy |- *.
      intros z Hz.
      apply (Permutation_in z (Permutation_sym (insertar_perm x l))) in Hz.
      destruct Hz as [<-|Hz]; [|now apply Hy].
      destruct (le_total x y) as [H|H]; congruence.
Qed.

Lemma ordenar_ordenada (l : list A) :
  StronglySorted (fun a b => le a b = true) (ordenar le l).
Proof.
  induction l as [|x l IH]; simpl; [constructor|].
  now apply insertar_ordenada.
Qed.
End HechosOrdenar.

Section HechosListas.
Context {A : Type} (R : A -> A -> Prop).


Lemma ordenada_map {B : Type} (f : B -> A) (l : list B) :
  StronglySorted (fun x y => R (f x) (f y)) l ->
  StronglySorted R (map f l).
Proof.
  induction 1 as [|x l Hs IH Hf]; simpl; constructor; [assumption|].
  rewrite Forall_forall in Hf |- *.
  intros y Hy. apply in_map_iff in Hy as [z [<- Hz]]. now apply Hf.
Qed.

Lemma ordenada_impl (S : A -> A -> Prop) (l : list A) :
  (forall x y, R x y -> S x y) ->
  StronglySorted R l -> StronglySorted S l.
Proof.
  intros HRS. induction 1 as [|x l Hs IH Hf]; constructor; [assumption|].
  eapply Forall_impl; [|exact Hf]. intros y. apply HRS.
Qed.
End HechosListas.

(** Bytewise order on TEXT is transitive. *)
Lemma ascii_compare_N (c d : ascii) :
  Ascii.compare c d = (N_of_ascii c ?= N_of_ascii d)%N.
Proof. reflexivity. Qed.

Lemma string_compare_trans (s1 s2 s3 : string) (o : comparison) :
  o <> Eq ->
  String.compare s1 s2 = o \/ String.compare s1 s2 = Eq ->
  String.compare s2 s3 = o \/ String.compare s2 s3 = Eq ->
  String.compare s1 s3 = o \/ String.compare s1 s3 = Eq.
Proof.
  intros Ho. revert s2 s3.
  induction s1 as [|c1 s1 IH]; intros [|c2 s2] [|c3 s3]; simpl;
    try tauto; try (intros [H|H] [H'|H']; congruence).
  rewrite !ascii_compare_N.
  destruct (N.compare_spec (N_of_ascii c1) (N_of_ascii c2)) as [E12|L12|G12];
    destruct (N.compare_spec (N_of_ascii c2) (N_of_ascii c3)) as [E23|L23|G23];
    destruct (N.compare_spec (N_of_ascii c1) (N_of_ascii c3)) as [E13|L13|G13];
    try lia; try tauto; try (intros [H|H] [H'|H']; congruence).
  apply IH.
Qed.

Lemma string_leb_trans (s1 s2 s3 : string) :
  String.leb s1 s2 = true -> String.leb s2 s3 = true ->
  String.leb s1 s3 = true.
Proof.
  unfold String.leb. intros H12 H23.
  assert (H : String.compare s1 s3 = Lt \/ String.compare s1 s3 = Eq).
  { apply (string_compare_trans s1 s2 s3 Lt); [discriminate| |].
    - destruct (String.compare s1 s2); auto; discriminate.
    - destruct (String.compare s2 s3); auto; discriminate. }
  destruct H as [-> | ->]; reflexivity.
Qed.

(** ** Search *)

Section HechosBusqueda.
Import RepositorioProducto.
Variable termino : string.

Lemma orden_total (r1 r2 : FilaProducto.t) :
  orden termino r1 r2 = true \/ orden termino r2 r1 = true.
Proof.
  unfold orden.
  destruct (Z.lt_trichotomy (rango termino r1) (rango termino r2))
    as [H|[H|H]].
  - left. apply orb_true_iff. left. now apply Z.ltb_lt.
  - destruct (String.leb_total (FilaProducto.nombre r1)
                (FilaProducto.nombre r2)) as [L|L]; [left|right];
      apply orb_true_iff; right; rewrite L, andb_true_r;
      apply Z.eqb_eq; congruence.
  - right. apply orb_true_iff. left. apply Z.ltb_lt. lia.
Qed.

Lemma orden_spec (r1 r2 : FilaProducto.t) :
  orden termino r1 r2 = true <->
  rango termino r1 < rango termino r2
  \/ (rango termino r1 = rango termino r2
      /\ String.leb (FilaProducto.nombre r1) (FilaProducto.nombre r2)
         = true).
Proof.
  unfold orden.
  rewrite orb_true_iff, andb_true_iff, Z.ltb_lt, Z.eqb_eq. reflexivity.
Qed.

Lemma orden_trans (r1 r2 r3 : FilaProducto.t) :
  orden termino r1 r2 = true -> orden termino r2 r3 = true ->
  orden termino r1 r3 = true.
Proof.
  rewrite !orden_spec.
  intros [H12|[E12 L12]] [H23|[E23 L23]]; try (left; lia).
  right. split; [lia|]. eapply string_leb_trans; eassumption.
Qed.

Hypothesis sin_comodin : Texto.sin_comodines termino = true.




End HechosBusqueda.




(** ** Histories of commands *)

Section HechosEstado.
Variable R : BaseDatos -> BaseDatos -> Prop.

Lemma last_cons_desde (s bd : BaseDatos) (h : list BaseDatos) :
  List.last (s :: h) bd = List.last h s.
Proof.
  revert s bd. induction h as [|s' h IH]; intros s bd; [reflexivity|].
  change (List.last (s :: s' :: h) bd) with (List.last (s' :: h) bd).
  now rewrite !IH.
Qed.

Lemma encadenada_app (bd : BaseDatos) (h1 h2 : list BaseDatos) :
  encadenada R bd h1 -> encadenada R (List.last h1 bd) h2 ->
  encadenada R bd (h1 ++ h2).
Proof.
  revert bd. induction h1 as [|s h1 IH]; intros bd H1 H2; [exact H2|].
  destruct H1 as [Hs H1]. split; [assumption|].
  apply IH; [assumption|]. now rewrite <- (last_cons_desde s bd).
Qed.

Lemma last_app_desde (bd : BaseDatos) (h1 h2 : list BaseDatos) :
  List.last (h1 ++ h2) bd = List.last h2 (List.last h1 bd).
Proof.
  revert bd. induction h1 as [|s h1 IH]; intros bd; [reflexivity|].
  change ((s :: h1) ++ h2) with (s :: (h1 ++ h2)).
  now rewrite !last_cons_desde, IH.
Qed.

Lemma paso_ret {A} (a : A) : paso_a_paso R (ret a).
Proof. intros bd. split; [exact I | reflexivity]. Qed.

Lemma paso_leer {A} (f : BaseDatos -> A) : paso_a_paso R (leer f).
Proof. intros bd. split; [exact I | reflexivity]. Qed.

Lemma paso_transaccion {A} (f : BaseDatos -> A * BaseDatos) :
  (forall bd, R bd (snd (f bd))) -> paso_a_paso R (transaccion f).
Proof.
  intros Hf bd. unfold transaccion, historia, final.
  specialize (Hf bd). destruct (f bd) as [a bd']. simpl in *.
  split; [split; [assumption | exact I] | reflexivity].
Qed.

Lemma paso_bind {A B} (m : Estado A) (k : A -> Estado B) :
  paso_a_paso R m -> (forall a, paso_a_paso R (k a)) ->
  paso_a_paso R (bind m k).
Proof.
  intros Hm Hk bd. unfold bind, historia, final.
  destruct (Hm bd) as [Hc Hl]. unfold historia, final in Hc, Hl.
  destruct (m bd) as [[a bd1] h1]. simpl in Hc, Hl.
  destruct (Hk a bd1) as [Hc' Hl']. unfold historia, final in Hc', Hl'.
  destruct (k a bd1) as [[b bd2] h2]. simpl in *.
  subst bd1. split.
  - now apply encadenada_app.
  - rewrite last_app_desde. exact Hl'.
Qed.

Lemma paso_para_cada {A B} (cuerpo : A -> Estado B) (xs : list A) :
  (forall x, paso_a_paso R (cuerpo x)) ->
  paso_a_paso R (para_cada cuerpo xs).
Proof.
  intros Hc. induction xs as [|x xs IH]; simpl.
  - apply paso_ret.
  - apply paso_bind; [apply Hc | intros _; exact IH].
Qed.

(** An invariant of the steps holds all along a chain. *)
Lemma encadenada_invariante (Inv : BaseDatos -> Prop) :
  (forall s s', R s s' -> Inv s -> Inv s') ->
  forall h bd, encadenada R bd h -> Inv bd ->
               Forall Inv h /\ Inv (List.last h bd).
Proof.
  intros Hstep. induction h as [|s h IH]; intros bd Hc Hbd.
  - split; [constructor | assumption].
  - destruct Hc as [Hs Hc].
    destruct (IH s Hc (Hstep _ _ Hs Hbd)) as [Hf Hl].
    split; [constructor; [eapply Hstep; eassumption | assumption]|].
    now rewrite last_cons_desde.
Qed.
End HechosEstado.

(** ** Stock *)

Lemma bd_eta (bd : BaseDatos) :
  mkBD (categorias bd) (productos bd) (ventas bd) (detalles_venta bd)
       (movimientos_caja bd) (sec_ventas bd) (sec_detalles bd)
       (sec_movimientos bd) = bd.
Proof. now destruct bd. Qed.

Lemma descuento_es_guardado (pid n ahora : Z) (l : list FilaProducto.t) :
  Forall2 (descuento_guardado pid n) l
    (map (fun r => if RepositorioProducto.vendible pid n r
                   then RepositorioProducto.descontar_fila n ahora r
                   else r) l).
Proof.
  induction l as [|r l IH]; simpl; constructor; [|exact IH].
  unfold RepositorioProducto.vendible.
  destruct (FilaProducto.id r =? pid) eqn:Hid; simpl.
  - apply Z.eqb_eq in Hid.
    destruct (n <=? FilaProducto.cantidad r) eqn:Hn.
    + apply Z.leb_le in Hn. left. simpl. auto.
    + apply Z.leb_gt in Hn. right. auto.
  - apply Z.eqb_neq in Hid. right. auto.
Qed.

Lemma descuento_guardado_no_negativo (pid n : Z)
    (l l' : list FilaProducto.t) :
  Forall2 (descuento_guardado pid n) l l' ->
  Forall (fun r => 0 <= FilaProducto.cantidad r) l ->
  Forall (fun r => 0 <= FilaProducto.cantidad r) l'.
Proof.
  induction 1 as [|r r' l l' Hr _ IH]; intros Hl; [constructor|].
  inversion Hl as [|? ? Hr0 Hl0]; subst.
  constructor; [|now apply IH].
  destruct Hr as [(_ & Hn & _ & Hc)|[_ ->]]; [lia | assumption].
Qed.

Lemma paso_de_venta_no_negativo (s s' : BaseDatos) :
  paso_de_venta s s' -> stock_no_negativo s -> stock_no_negativo s'.
Proof.
  unfold stock_no_negativo. intros [E|(pid & n & H)] Hs.
  - now rewrite E.
  - eapply descuento_guardado_no_negativo; eassumption.
Qed.

Lemma paso_actualizar_stock (pid n ahora : Z) :
  paso_a_paso paso_de_venta (RepositorioProducto.actualizar_stock pid n ahora).
Proof.
  apply paso_transaccion. intros bd. right. exists pid, n.
  apply descuento_es_guardado.
Qed.

Lemma paso_registrar_venta (items : list ItemCarrito.t) (total : Q)
    (mp : string) (ahora : Z) :
  paso_a_paso paso_de_venta
    (RepositorioVenta.registrar_venta items total mp ahora).
Proof. apply paso_transaccion. intros bd. now left. Qed.

Lemma paso_procesar_venta_pos (items : list ItemCarrito.t) (mp : string)
    (ahora : Z) :
  paso_a_paso paso_de_venta (ServicioPOS.procesar_venta items mp ahora).
Proof.
  unfold ServicioPOS.procesar_venta. destruct items as [|i items].
  - apply paso_ret.
  - apply paso_bind; [apply paso_leer|]. intros [c|]; [apply paso_ret|].
    apply paso_bind; [apply paso_registrar_venta|]. intros v.
    apply paso_bind; [|intros _; apply paso_ret].
    apply paso_para_cada. intros x. apply paso_actualizar_stock.
Qed.

Lemma paso_procesar_venta_servicio (items : list ItemCarrito.t)
    (mp : string) (ahora : Z) :
  paso_a_paso paso_de_venta (ServicioVenta.procesar_venta items mp ahora).
Proof.
  unfold ServicioVenta.procesar_venta. destruct items as [|i items].
  - apply paso_ret.
  - apply paso_bind; [apply paso_registrar_venta | intros v; apply paso_ret].
Qed.

Lemma paso_procesar_pago (items : list ItemCarrito.t) (pago : option string)
    (ahora : Z) :
  paso_a_paso paso_de_venta (PestanaVentas.procesar_pago items pago ahora).
Proof.
  unfold PestanaVentas.procesar_pago. destruct items as [|i items].
  - apply paso_ret.
  - apply paso_bind; [apply paso_leer|]. intros [c|]; [apply paso_ret|].
    destruct pago as [[|c m]|]; try apply paso_ret.
    apply paso_bind.
    + apply paso_para_cada. intros x. apply paso_actualizar_stock.
    + intros _. apply paso_bind; [|intros r; apply paso_ret].
      apply paso_procesar_venta_servicio.
Qed.

Lemma paso_jornada (vs : list Venta) : paso_a_paso paso_de_venta (jornada vs).
Proof.
  apply paso_para_cada. intros [items mp ahora|items pago ahora]; simpl.
  - apply paso_bind; [apply paso_procesar_venta_pos|intros _; apply paso_ret].
  - apply paso_bind; [apply paso_procesar_pago|intros _; apply paso_ret].
Qed.

(** C1.  Along any sequence of sales, through the service or through the
    checkout tab, every committed step either leaves the product rows alone
    or takes [n] units from rows whose quantity is at least [n]; hence, from
    a store with no negative quantity, no store that is ever committed, nor
    the one left at the end, has a negative quantity. *)
Theorem stock_nunca_negativo (vs : list Venta) (bd : BaseDatos) :
  stock_no_negativo bd ->
  encadenada paso_de_venta bd (historia (jornada vs bd))
  /\ Forall stock_no_negativo (historia (jornada vs bd))
  /\ stock_no_negativo (final (jornada vs bd)).
Proof.
  intros Hbd. destruct (paso_jornada vs bd) as [Hc Hl].
  split; [assumption|]. rewrite Hl.
  apply (encadenada_invariante paso_de_venta stock_no_negativo
           paso_de_venta_no_negativo); assumption.
Qed.

Lemma stock_nunca_negativo_witness :
  stock_no_negativo Ejemplo.tienda
  /\ Forall stock_no_negativo
       (historia
          (jornada
             [VentaPOS [Ejemplo.tres_cocas; Ejemplo.tres_cocas] "efectivo" 100;
              PagoEnCaja [Ejemplo.tres_cocas] (Some "efectivo") 200]
             Ejemplo.tienda)).
Proof.
  split; [repeat constructor; simpl; lia|].
  apply (stock_nunca_negativo
           [VentaPOS [Ejemplo.tres_cocas; Ejemplo.tres_cocas] "efectivo" 100;
            PagoEnCaja [Ejemplo.tres_cocas] (Some "efectivo") 200]
           Ejemplo.tienda).
  repeat constructor; simpl; lia.
Defined.

(** A decrement that finds no row with enough stock writes nothing and
    reports zero affected rows. *)
Lemma actualizar_stock_insuficiente (pid n ahora : Z) (bd : BaseDatos) :
  (forall r, In r (productos bd) -> FilaProducto.id r = pid ->
             FilaProducto.cantidad r < n) ->
  RepositorioProducto.actualizar_stock pid n ahora bd = (false, bd, [bd]).
Proof.
  intros H. unfold RepositorioProducto.actualizar_stock, transaccion.
  assert (Hv : forall r, In r (productos bd) ->
                         RepositorioProducto.vendible pid n r = false).
  { intros r Hr. unfold RepositorioProducto.vendible.
    destruct (FilaProducto.id r =? pid) eqn:Hid; [|reflexivity].
    apply Z.eqb_eq in Hid. specialize (H r Hr Hid).
    simpl. apply Z.leb_gt. exact H. }
  assert (He : existsb (RepositorioProducto.vendible pid n) (productos bd)
               = false).
  { destruct (existsb _ _) eqn:E; [|reflexivity].
    apply existsb_exists in E as [r [Hr Hvr]].
    rewrite (Hv r Hr) in Hvr. discriminate. }
  assert (Hm : map (fun r => if RepositorioProducto.vendible pid n r
                             then RepositorioProducto.descontar_fila n ahora r
                             else r) (productos bd) = productos bd).
  { rewrite <- (map_id (productos bd)) at 2. apply map_ext_in.
    intros r Hr. now rewrite (Hv r Hr). }
  rewrite He. unfold con_productos. rewrite Hm, bd_eta. reflexivity.
Qed.

(** C2 (the defect).  Two lines of three Coca-Colas against a stock of five
    both pass the validation.  The sale is recorded with six units sold, the
    first decrement leaves two, the second finds too few, writes nothing and
    reports zero affected rows; [procesar_venta] drops that report and
    answers that the sale was completed. *)
Theorem venta_con_descuento_fallido :
  let r := ServicioPOS.procesar_venta
             [Ejemplo.tres_cocas; Ejemplo.tres_cocas] "efectivo" 100
             Ejemplo.tienda in
  resultado r = (true, VentaCompletada 1, Some 1)
  /\ map FilaDetalle.cantidad (detalles_venta (final r)) = [3; 3]
  /\ cantidad_viva 1 (final r) = Some 2
  /\ exists s1 s2,
       historia r = [s1; s2; s2]
       /\ cantidad_viva 1 s1 = Some 5
       /\ cantidad_viva 1 s2 = Some 2
       /\ RepositorioProducto.actualizar_stock 1 3 100 s2 = (false, s2, [s2]).
Proof.
  cbv zeta. split; [reflexivity|]. split; [reflexivity|].
  split; [reflexivity|].
  eexists. eexists. split; [vm_compute; reflexivity|].
  split; [reflexivity|]. split; reflexivity.
Qed.

(** ** Rejected sales *)


(** ** Parameters that bind *)

Example cabe_limites :
  Sqlite3.cabe (- 2 ^ 63) = true /\ Sqlite3.cabe (2 ^ 63 - 1) = true
  /\ Sqlite3.cabe (2 ^ 63) = false /\ Sqlite3.cabe (- 2 ^ 63 - 1) = false.
Proof. repeat split. Qed.

Lemma consultar_cabe {A} (n : Z) (consulta : BaseDatos -> A)
    (bd : BaseDatos) :
  Sqlite3.cabe n = true ->
  Sqlite3.consultar [n] consulta bd = Retorna (consulta bd).
Proof. intros H. unfold Sqlite3.consultar. simpl. now rewrite H. Qed.

Lemma consultar_no_cabe {A} (n : Z) (consulta : BaseDatos -> A)
    (bd : BaseDatos) :
  Sqlite3.cabe n = false ->
  Sqlite3.consultar [n] consulta bd = Lanza OverflowError.
Proof. intros H. unfold Sqlite3.consultar. simpl. now rewrite H. Qed.

Lemma ejecutar_caben {A} (enteros : list Z) (bloque : Estado A)
    (bd : BaseDatos) :
  forallb Sqlite3.cabe enteros = true ->
  Sqlite3.ejecutar enteros bloque bd
  = (Retorna (resultado (bloque bd)), final (bloque bd),
     historia (bloque bd)).
Proof.
  intros H. unfold Sqlite3.ejecutar. rewrite H.
  now destruct (bloque bd) as [[a bd'] h].
Qed.

Lemma ejecutar_no_caben {A} (enteros : list Z) (bloque : Estado A)
    (bd : BaseDatos) :
  forallb Sqlite3.cabe enteros = false ->
  Sqlite3.ejecutar enteros bloque bd = (Lanza OverflowError, bd, []).
Proof. intros H. unfold Sqlite3.ejecutar. now rewrite H. Qed.

Lemma lineas_enlazables (items : list ItemCarrito.t) :
  Forall linea_enlazable items ->
  forallb Sqlite3.cabe (RepositorioVentaEnlazado.enteros_de items) = true.
Proof.
  induction 1 as [|item items [Hid Hq] _ IH]; simpl; [reflexivity|].
  now rewrite Hid, Hq, IH.
Qed.

Lemma lineas_no_enlazables (items : list ItemCarrito.t) :
  forallb Sqlite3.cabe (RepositorioVentaEnlazado.enteros_de items) = false ->
  Exists (fun item => ~ linea_enlazable item) items.
Proof.
  induction items as [|item items IH]; simpl; [discriminate|].
  destruct (Sqlite3.cabe (ItemCarrito.producto_id item)) eqn:Hid; simpl.
  - destruct (Sqlite3.cabe (ItemCarrito.cantidad item)) eqn:Hq; simpl.
    + intros H. apply Exists_cons_tl. now apply IH.
    + intros _. apply Exists_cons_hd. intros [_ H]. congruence.
  - intros _. apply Exists_cons_hd. intros [H _]. congruence.
Qed.

(** On product ids that bind, the validation loop is the one of
    [ServicioPOS]. *)
Lemma validar_en_rango (items : list ItemCarrito.t) (bd : BaseDatos) :
  Forall (fun item => Sqlite3.cabe (ItemCarrito.producto_id item) = true)
    items ->
  ServicioPOSEnlazado.validar items bd
  = match ServicioPOS.primer_sin_stock items bd with
    | Some item => ServicioPOSEnlazado.SinStock item
    | None => ServicioPOSEnlazado.Aprobada
    end.
Proof.
  induction 1 as [|item items Hid _ IH]; simpl; [reflexivity|].
  unfold RepositorioProductoEnlazado.obtener_por_id.
  rewrite (consultar_cabe _ _ _ Hid).
  destruct (RepositorioProducto.obtener_por_id _ bd) as [p|];
    [|reflexivity].
  destruct (Producto.cantidad p <? ItemCarrito.cantidad item);
    [reflexivity | exact IH].
Qed.

(** A sale that is not accepted writes nothing, whatever its lines. *)
Lemma venta_no_validada (items : list ItemCarrito.t) (metodo_pago : string)
    (ahora : Z) (bd : BaseDatos) :
  ServicioPOSEnlazado.validar items bd <> ServicioPOSEnlazado.Aprobada ->
  let r := ServicioPOSEnlazado.procesar_venta items metodo_pago ahora bd in
  final r = bd /\ historia r = [].
Proof.
  intros Hv. cbv zeta. destruct items as [|i items];
    [split; reflexivity|].
  unfold ServicioPOSEnlazado.procesar_venta, bind, leer.
  destruct (ServicioPOSEnlazado.validar (i :: items) bd);
    [congruence | split; reflexivity | split; reflexivity].
Qed.




Example venta_fantasma :
  falta_stock Ejemplo.tienda Muestra.fantasma
  /\ ServicioPOSEnlazado.procesar_venta [Muestra.fantasma] "efectivo" 100
       Ejemplo.tienda
     = (Lanza OverflowError, Ejemplo.tienda, []).
Proof. split; [vm_compute; exact I | vm_compute; reflexivity]. Qed.

(** On lines that bind, the loop of decrements never raises. *)
Lemma descontar_enlazado (items : list ItemCarrito.t) (ahora : Z)
    (bd : BaseDatos) :
  Forall linea_enlazable items ->
  let bucle :=
    para_cada
      (fun item =>
         RepositorioProducto.actualizar_stock (ItemCarrito.producto_id item)
           (ItemCarrito.cantidad item) ahora) items bd in
  ServicioPOSEnlazado.descontar items ahora bd
  = (Retorna tt, final bucle, historia bucle).
Proof.
  intros H. revert bd. cbv zeta.
  induction H as [|item items [Hid Hq] _ IH]; intros bd; [reflexivity|].
  cbn [ServicioPOSEnlazado.descontar para_cada]. unfold bind.
  unfold RepositorioProductoEnlazado.actualizar_stock.
  rewrite ejecutar_caben by (simpl; now rewrite Hid, Hq).
  unfold resultado, final, historia in *.
  destruct (RepositorioProducto.actualizar_stock _ _ ahora bd)
    as [[ok b1] h1].
  cbn [fst snd]. rewrite IH.
  now destruct (para_cada _ items b1) as [[u b2] h2].
Qed.

(** On lines that bind, [procesar_venta] neither raises nor answers with
    the store's error: it is the [procesar_venta] of [ServicioPOS]. *)
Lemma procesar_venta_pos_enlazada (items : list ItemCarrito.t)
    (metodo_pago : string) (ahora : Z) (bd : BaseDatos) :
  Forall linea_enlazable items ->
  let r := ServicioPOS.procesar_venta items metodo_pago ahora bd in
  ServicioPOSEnlazado.procesar_venta items metodo_pago ahora bd
  = (Retorna (resultado r), final r, historia r).
Proof.
  intros H. cbv zeta. destruct items as [|i items]; [reflexivity|].
  unfold ServicioPOSEnlazado.procesar_venta, ServicioPOS.procesar_venta,
    bind, leer.
  rewrite validar_en_rango
    by (eapply Forall_impl; [|exact H]; now intros a [Ha _]).
  destruct (ServicioPOS.primer_sin_stock (i :: items) bd); [reflexivity|].
  unfold RepositorioVentaEnlazado.registrar_venta.
  rewrite (ejecutar_caben _ _ _ (lineas_enlazables _ H)).
  unfold resultado, final, historia.
  destruct (RepositorioVenta.registrar_venta (i :: items) _ metodo_pago
              ahora bd) as [[v b1] h1].
  cbn [fst snd]. rewrite (descontar_enlazado _ _ _ H).
  unfold final, historia.
  now destruct (para_cada _ (i :: items) b1) as [[u b2] h2].
Qed.

(** ** The sale entry point of [ServicioVenta] *)

Lemma detalles_de_items (venta_id desde : Z) (items : list ItemCarrito.t) :
  Forall2 (detalle_del_item venta_id)
    (RepositorioVenta.detalles_de venta_id desde items) items.
Proof.
  revert desde. induction items as [|i items IH]; intros desde; simpl;
    constructor; [|apply IH].
  unfold detalle_del_item. simpl. repeat split.
Qed.

(** On lines that bind, the sale entry point never fails. *)
Lemma procesar_venta_enlazada (items : list ItemCarrito.t)
    (metodo_pago : string) (ahora : Z) (bd : BaseDatos) :
  Forall linea_enlazable items ->
  ServicioVentaEnlazado.procesar_venta items metodo_pago ahora bd
  = ServicioVenta.procesar_venta items metodo_pago ahora bd.
Proof.
  intros H. destruct items as [|i items]; [reflexivity|].
  unfold ServicioVentaEnlazado.procesar_venta, ServicioVenta.procesar_venta,
    RepositorioVentaEnlazado.registrar_venta, bind.
  rewrite (ejecutar_caben _ _ _ (lineas_enlazables _ H)).
  unfold resultado, final, historia.
  now destruct (RepositorioVenta.registrar_venta _ _ _ _ bd) as [[v b] h].
Qed.

(** A line that does not bind: the block rolls back and the service
    answers with the store's error. *)
Lemma procesar_venta_sin_enlace (items : list ItemCarrito.t)
    (metodo_pago : string) (ahora : Z) (bd : BaseDatos) :
  items <> [] ->
  forallb Sqlite3.cabe (RepositorioVentaEnlazado.enteros_de items) = false ->
  ServicioVentaEnlazado.procesar_venta items metodo_pago ahora bd
  = ((false, ErrorAlmacen, None), bd, []).
Proof.
  intros Hne H. destruct items as [|i items]; [congruence|].
  unfold ServicioVentaEnlazado.procesar_venta,
    RepositorioVentaEnlazado.registrar_venta, bind.
  now rewrite (ejecutar_no_caben _ _ _ H).
Qed.

(** Whatever the lines, this entry point leaves the product rows alone. *)
Lemma procesar_venta_sin_productos (items : list ItemCarrito.t)
    (metodo_pago : string) (ahora : Z) (bd : BaseDatos) :
  let r := ServicioVentaEnlazado.procesar_venta items metodo_pago ahora bd in
  productos (final r) = productos bd
  /\ Forall (fun s => productos s = productos bd) (historia r).
Proof.
  cbv zeta. destruct items as [|i items];
    [split; [reflexivity | constructor]|].
  destruct (forallb Sqlite3.cabe
              (RepositorioVentaEnlazado.enteros_de (i :: items))) eqn:E.
  - unfold ServicioVentaEnlazado.procesar_venta,
      RepositorioVentaEnlazado.registrar_venta, bind.
    rewrite (ejecutar_caben _ _ _ E).
    unfold RepositorioVenta.registrar_venta, transaccion, resultado, final,
      historia.
    cbn [fst snd productos app].
    split; [reflexivity | repeat constructor].
  - rewrite procesar_venta_sin_enlace by (assumption || discriminate).
    split; [reflexivity | constructor].
Qed.

(** C8 (as amended).  [ServicioVenta.procesar_venta] on a non-empty cart
    whose product ids and quantities fit a signed 64-bit INTEGER commits one
    row in [ventas] (total: the sum of the subtotals) and one row in
    [detalles_venta] per item, answers success with the new sale's id, and
    never reads or writes a product row: the products are the same in the
    store it commits and in the store it leaves. *)
Theorem venta_sin_descuento (items : list ItemCarrito.t)
    (metodo_pago : string) (ahora : Z) (bd : BaseDatos) :
  items <> [] ->
  Forall linea_enlazable items ->
  let r := ServicioVentaEnlazado.procesar_venta items metodo_pago ahora bd in
  let venta_id := sec_ventas bd + 1 in
  resultado r = (true, VentaCompletada venta_id, Some venta_id)
  /\ productos (final r) = productos bd
  /\ Forall (fun s => productos s = productos bd) (historia r)
  /\ ventas (final r)
     = ventas bd
       ++ [FilaVenta.mk venta_id (py_sum (subtotales items)) metodo_pago
             ahora "CAJERO"]
  /\ exists nuevos,
       detalles_venta (final r) = detalles_venta bd ++ nuevos
       /\ Forall2 (detalle_del_item venta_id) nuevos items.
Proof.
  intros Hne Hlineas. cbv zeta.
  rewrite (procesar_venta_enlazada _ _ _ _ Hlineas).
  destruct items as [|i items]; [congruence|].
  unfold ServicioVenta.procesar_venta, bind,
    RepositorioVenta.registrar_venta, transaccion, ret, resultado, final,
    historia.
  cbn [fst snd productos ventas detalles_venta app].
  split; [reflexivity|]. split; [reflexivity|].
  split; [repeat constructor|]. split; [reflexivity|].
  eexists. split; [reflexivity|]. apply detalles_de_items.
Qed.

Lemma venta_sin_descuento_witness :
  [Ejemplo.seis_cocas] <> []
  /\ Forall linea_enlazable [Ejemplo.seis_cocas]
  /\ resultado
       (ServicioVentaEnlazado.procesar_venta [Ejemplo.seis_cocas] "efectivo"
          100 Ejemplo.tienda)
     = (true, VentaCompletada 1, Some 1)
  /\ productos
       (final (ServicioVentaEnlazado.procesar_venta [Ejemplo.seis_cocas]
                 "efectivo" 100 Ejemplo.tienda))
     = productos Ejemplo.tienda.
Proof.
  assert (H : Forall linea_enlazable [Ejemplo.seis_cocas])
    by (repeat constructor).
  split; [discriminate|]. split; [exact H|].
  destruct (venta_sin_descuento [Ejemplo.seis_cocas] "efectivo" 100
              Ejemplo.tienda) as (Hr & Hp & _); [discriminate | exact H|].
  split; [exact Hr | exact Hp].
Defined.

(** C8 (as stated) fails.  A line of 2^63 units does not bind: the INSERT
    into [detalles_venta] raises OverflowError, the sale is rolled back and
    the [except] branch answers [(False, "Error: ...", None)]. *)
Lemma venta_de_cantidad_sin_enlace :
  ~ (forall items metodo_pago ahora bd,
        items <> [] ->
        fst (fst (resultado
                    (ServicioVentaEnlazado.procesar_venta items metodo_pago
                       ahora bd))) = true).
Proof.
  intros H.
  specialize (H [Muestra.cocas_sin_fin] "efectivo" 100 Ejemplo.tienda).
  assert (Hne : [Muestra.cocas_sin_fin] <> []) by discriminate.
  specialize (H Hne). vm_compute in H. discriminate H.
Qed.

Example venta_sin_fin :
  ServicioVentaEnlazado.procesar_venta [Muestra.cocas_sin_fin] "efectivo"
    100 Ejemplo.tienda
  = ((false, ErrorAlmacen, None), Ejemplo.tienda, []).
Proof. vm_compute. reflexivity. Qed.

(** ** Cash drawer *)

Local Open Scope Q_scope.

Lemma fold_left_Qplus (l : list Q) (a : Q) :
  fold_left Qplus l a == a + fold_right Qplus 0 l.
Proof.
  revert a. induction l as [|x l IH]; intros a; simpl.
  - ring.
  - rewrite IH. ring.
Qed.

Lemma py_sum_total (l : list Q) : py_sum l == fold_right Qplus 0 l.
Proof. unfold py_sum. rewrite fold_left_Qplus. ring. Qed.

Lemma total_perm (l l' : list Q) :
  Permutation l l' -> fold_right Qplus 0 l == fold_right Qplus 0 l'.
Proof.
  induction 1 as [|x l l' _ IH|x y l|l l' l'' _ IH1 _ IH2]; simpl.
  - reflexivity.
  - now rewrite IH.
  - ring.
  - now rewrite IH1.
Qed.

Lemma total_ventas_del_dia_filtro (dia : Z) (vs : list FilaVenta.t) :
  total_ventas_del_dia dia vs
  == fold_right Qplus 0
       (map FilaVenta.total
          (filter (fun v => DATE (FilaVenta.fecha v) =? dia) vs)).
Proof.
  induction vs as [|v vs IH]; simpl; [reflexivity|].
  destruct (DATE (FilaVenta.fecha v) =? dia); simpl; now rewrite IH.
Qed.

Lemma total_retiros_del_dia_filtro (dia : Z) (ms : list FilaMovimiento.t) :
  total_retiros_del_dia dia ms
  == fold_right Qplus 0
       (map FilaMovimiento.monto
          (filter (RepositorioVenta.retiro_de_hoy dia) ms)).
Proof.
  induction ms as [|m ms IH]; simpl; [reflexivity|].
  unfold RepositorioVenta.retiro_de_hoy at 1.
  destruct (FilaMovimiento.tipo m); simpl.
  - rewrite andb_true_r.
    destruct (DATE (FilaMovimiento.fecha m) =? dia); simpl; now rewrite IH.
  - rewrite andb_false_r. exact IH.
Qed.

Lemma total_retiros_dia_especificado (ahora : Z) (bd : BaseDatos) :
  RepositorioVenta.total_retiros_dia ahora bd
  == total_retiros_del_dia (DATE ahora) (movimientos_caja bd).
Proof.
  unfold RepositorioVenta.total_retiros_dia.
  rewrite total_retiros_del_dia_filtro.
  destruct (map _ _); reflexivity.
Qed.

Lemma total_ventas_dia_especificado (ahora : Z) (bd : BaseDatos) :
  match RepositorioVenta.obtener_ventas_dia ahora bd with
  | [] => 0
  | _ :: _ =>
      py_sum (map FilaVenta.total
                (RepositorioVenta.obtener_ventas_dia ahora bd))
  end
  == total_ventas_del_dia (DATE ahora) (ventas bd).
Proof.
  rewrite total_ventas_del_dia_filtro.
  assert (H : py_sum (map FilaVenta.total
                        (RepositorioVenta.obtener_ventas_dia ahora bd))
              == fold_right Qplus 0
                   (map FilaVenta.total
                      (filter (fun v => DATE (FilaVenta.fecha v) =? DATE ahora)
                         (ventas bd)))).
  { rewrite py_sum_total. apply total_perm, Permutation_map.
    apply Permutation_sym, ordenar_perm. }
  destruct (RepositorioVenta.obtener_ventas_dia ahora bd) eqn:E;
    [|exact H].
  rewrite <- H. reflexivity.
Qed.

Lemma efectivo_disponible_saldo (ahora : Z) (bd : BaseDatos) :
  ServicioPOS.efectivo_disponible ahora bd
  == saldo_disponible (DATE ahora) bd.
Proof.
  unfold ServicioPOS.efectivo_disponible, saldo_disponible,
    ServicioPOS.obtener_ventas_dia, ServicioPOS.total_retiros_dia.
  rewrite total_ventas_dia_especificado, total_retiros_dia_especificado.
  reflexivity.
Qed.

Lemma sin_ventas_total (dia : Z) (vs : list FilaVenta.t) :
  (forall v, In v vs -> DATE (FilaVenta.fecha v) <> dia) ->
  total_ventas_del_dia dia vs = 0%Q.
Proof.
  induction vs as [|v vs IH]; intros H; simpl; [reflexivity|].
  destruct (DATE (FilaVenta.fecha v) =? dia) eqn:E.
  - apply Z.eqb_eq in E. exfalso. apply (H v); [now left | assumption].
  - apply IH. intros w Hw. apply H. now right.
Qed.

Lemma sin_retiros_total (dia : Z) (ms : list FilaMovimiento.t) :
  (forall m, In m ms -> FilaMovimiento.tipo m = RETIRO ->
             DATE (FilaMovimiento.fecha m) <> dia) ->
  total_retiros_del_dia dia ms = 0%Q.
Proof.
  induction ms as [|m ms IH]; intros H; simpl; [reflexivity|].
  assert (Hms : total_retiros_del_dia dia ms = 0%Q).
  { apply IH. intros w Hw. apply H. now right. }
  destruct (FilaMovimiento.tipo m) eqn:Ht; [|exact Hms].
  destruct (DATE (FilaMovimiento.fecha m) =? dia) eqn:E; [|exact Hms].
  apply Z.eqb_eq in E. exfalso. apply (H m); [now left | assumption..].
Qed.

(** C5.  Whatever the day the clock shows, the available balance is the sum
    of the totals of the sales of that day minus the sum of the amounts of
    the withdrawals of that day (amounts as exact rationals); on a day with
    no sale and no withdrawal it is 0. *)
Theorem saldo_del_dia (ahora : Z) (bd : BaseDatos) :
  ServicioPOS.efectivo_disponible ahora bd
  == total_ventas_del_dia (DATE ahora) (ventas bd)
     - total_retiros_del_dia (DATE ahora) (movimientos_caja bd)
  /\ (sin_actividad (DATE ahora) bd ->
      ServicioPOS.efectivo_disponible ahora bd == 0).
Proof.
  split; [apply efectivo_disponible_saldo|].
  intros [Hv Hm]. rewrite efectivo_disponible_saldo.
  unfold saldo_disponible.
  rewrite (sin_ventas_total _ _ Hv), (sin_retiros_total _ _ Hm).
  reflexivity.
Qed.

Lemma saldo_del_dia_witness :
  sin_actividad (DATE 100000) Ejemplo.con_retiro_de_30
  /\ ServicioPOS.efectivo_disponible 100000 Ejemplo.con_retiro_de_30 == 0.
Proof.
  assert (H : sin_actividad (DATE 100000) Ejemplo.con_retiro_de_30).
  { split; simpl; intros x [<-|[]]; intros; vm_compute; discriminate. }
  split; [exact H|].
  exact (proj2 (saldo_del_dia 100000 Ejemplo.con_retiro_de_30) H).
Defined.

(** The withdrawal of [ServicioPOS] checks the amount against the balance of
    the day. *)
Lemma registrar_retiro_pos (monto : Q) (concepto : string) (ahora : Z)
    (bd : BaseDatos) :
  let r := ServicioPOS.registrar_retiro monto concepto ahora bd in
  (monto <= 0 -> r = ((false, MontoNoPositivo), bd, []))
  /\ (0 < monto -> saldo_disponible (DATE ahora) bd < monto ->
      r = ((false,
            FondosInsuficientes (ServicioPOS.efectivo_disponible ahora bd)),
           bd, []))
  /\ (0 < monto -> monto <= saldo_disponible (DATE ahora) bd ->
      resultado r = (true, RetiroRegistrado monto)
      /\ movimientos_caja (final r)
         = movimientos_caja bd
           ++ [FilaMovimiento.mk (sec_movimientos bd + 1) ahora RETIRO monto
                 concepto "CAJERO"]).
Proof.
  cbv zeta. unfold ServicioPOS.registrar_retiro, bind, leer.
  pose proof (efectivo_disponible_saldo ahora bd) as Hs.
  split; [intros H | split; [intros H H0 | intros H H0; split]].
  - apply Qle_bool_iff in H. now rewrite H.
  - destruct (Qle_bool monto 0) eqn:E1;
      [apply Qle_bool_iff in E1; exfalso; apply (Qlt_not_le _ _ H), E1|].
    destruct (Qle_bool monto (ServicioPOS.efectivo_disponible ahora bd))
      eqn:E2; [|reflexivity].
    apply Qle_bool_iff in E2. rewrite Hs in E2.
    exfalso. apply (Qlt_not_le _ _ H0), E2.
  - destruct (Qle_bool monto 0) eqn:E1;
      [apply Qle_bool_iff in E1; exfalso; apply (Qlt_not_le _ _ H), E1|].
    rewrite <- Hs in H0. apply Qle_bool_iff in H0. rewrite H0. reflexivity.
  - destruct (Qle_bool monto 0) eqn:E1;
      [apply Qle_bool_iff in E1; exfalso; apply (Qlt_not_le _ _ H), E1|].
    rewrite <- Hs in H0. apply Qle_bool_iff in H0. rewrite H0. reflexivity.
Qed.

(** The withdrawal of the cash tab checks the amount against the total
    already withdrawn that day, not against the balance. *)
Lemma registrar_retiro_caja (monto : Q) (c : ascii) (concepto : string)
    (ahora : Z) (bd : BaseDatos) :
  0 < monto ->
  total_retiros_del_dia (DATE ahora) (movimientos_caja bd) < monto ->
  PestanaCaja.registrar_retiro monto (String c concepto) ahora bd
  = ((false,
      FondosInsuficientes (RepositorioVenta.total_retiros_dia ahora bd)),
     bd, []).
Proof.
  intros Hpos Hlt.
  unfold PestanaCaja.registrar_retiro, ServicioVenta.registrar_retiro, bind,
    leer, ServicioVenta.total_retiros_dia.
  destruct (Qle_bool monto 0) eqn:E1;
    [apply Qle_bool_iff in E1; exfalso; apply (Qlt_not_le _ _ Hpos), E1|].
  destruct (Qle_bool monto (RepositorioVenta.total_retiros_dia ahora bd))
    eqn:E2; [|reflexivity].
  apply Qle_bool_iff in E2. rewrite total_retiros_dia_especificado in E2.
  exfalso. apply (Qlt_not_le _ _ Hlt), E2.
Qed.

(** C4 (the defect).  On a day with sales of 100 and withdrawals of 30 the
    balance is 70.  The service [ServicioPOS.registrar_retiro] records a
    withdrawal of 70; the cash tab refuses the same withdrawal for
    insufficient funds, because it passes the total withdrawn (30) as the
    available amount.  With withdrawals of 60 (balance 40) the cash tab
    records a withdrawal of 50, which exceeds the balance and which the
    service refuses. *)
Theorem retiro_en_caja_contra_retiros :
  ServicioPOS.efectivo_disponible 3000 Ejemplo.con_retiro_de_30 == 70
  /\ resultado
       (ServicioPOS.registrar_retiro 70 "cierre" 3000 Ejemplo.con_retiro_de_30)
     = (true, RetiroRegistrado 70)
  /\ PestanaCaja.registrar_retiro 70 "cierre" 3000 Ejemplo.con_retiro_de_30
     = ((false, FondosInsuficientes 30), Ejemplo.con_retiro_de_30, [])
  /\ ServicioPOS.efectivo_disponible 3000 Ejemplo.con_retiro_de_60 == 40
  /\ resultado
       (ServicioPOS.registrar_retiro 50 "cierre" 3000 Ejemplo.con_retiro_de_60)
     = (false, FondosInsuficientes 40)
  /\ resultado
       (PestanaCaja.registrar_retiro 50 "cierre" 3000 Ejemplo.con_retiro_de_60)
     = (true, RetiroRegistrado 50)
  /\ ServicioPOS.efectivo_disponible 3000
       (final (PestanaCaja.registrar_retiro 50 "cierre" 3000
                 Ejemplo.con_retiro_de_60)) == -10.
Proof. repeat split; vm_compute; reflexivity. Qed.

Local Close Scope Q_scope.

(** ** Suggested SKUs *)




(** For an id that binds, the suggestion is the one computed on the
    store. *)
Lemma generar_sku_enlazado (categoria_id : Z) (bd : BaseDatos) :
  Sqlite3.cabe categoria_id = true ->
  ServicioProductoEnlazado.generar_sku_sugerido categoria_id bd
  = Retorna (ServicioProducto.generar_sku_sugerido categoria_id bd).
Proof.
  intros H. unfold ServicioProductoEnlazado.generar_sku_sugerido,
    RepositorioCategoriaEnlazado.obtener_por_id,
    ServicioProducto.generar_sku_sugerido, ServicioCategoria.obtener_por_id.
  rewrite (consultar_cabe _ _ _ H).
  now destruct (RepositorioCategoria.obtener_por_id categoria_id bd).
Qed.

(** C10 (as amended).  For an id that fits a signed 64-bit INTEGER and that
    no category row carries, the suggested SKU is the empty string: nothing
    is raised and no failure value is returned. *)
Theorem sku_sugerido_sin_categoria (categoria_id : Z) (bd : BaseDatos) :
  Sqlite3.cabe categoria_id = true ->
  (forall r, In r (categorias bd) -> FilaCategoria.id r <> categoria_id) ->
  ServicioProductoEnlazado.generar_sku_sugerido categoria_id bd = Retorna "".
Proof.
  intros Hcabe H. rewrite (generar_sku_enlazado _ _ Hcabe). f_equal.
  unfold ServicioProducto.generar_sku_sugerido,
    ServicioCategoria.obtener_por_id, RepositorioCategoria.obtener_por_id.
  destruct (find _ (categorias bd)) as [r|] eqn:E; [|reflexivity].
  apply find_some in E as [Hin Hid]. apply Z.eqb_eq in Hid.
  now apply H in Hin.
Qed.

Lemma sku_sugerido_sin_categoria_witness :
  Sqlite3.cabe 7 = true
  /\ (forall r, In r (categorias Ejemplo.tienda) -> FilaCategoria.id r <> 7)
  /\ ServicioProductoEnlazado.generar_sku_sugerido 7 Ejemplo.tienda
     = Retorna "".
Proof.
  assert (H : forall r, In r (categorias Ejemplo.tienda) ->
                        FilaCategoria.id r <> 7).
  { intros r [<-|[]]. simpl. lia. }
  split; [reflexivity|]. split; [exact H|].
  apply (sku_sugerido_sin_categoria 7 Ejemplo.tienda eq_refl H).
Defined.

(** C10 (as stated) fails.  No category has the id 2^63, and the id does
    not bind: [obtener_por_id] raises OverflowError and
    [generar_sku_sugerido], which has no [try], raises it too. *)
Lemma sku_sugerido_sin_enlace :
  ~ (forall categoria_id bd,
        (forall r, In r (categorias bd) ->
           FilaCategoria.id r <> categoria_id) ->
        ServicioProductoEnlazado.generar_sku_sugerido categoria_id bd
        = Retorna "").
Proof.
  intros H. specialize (H (2 ^ 63) Ejemplo.tienda).
  assert (Hid : forall r, In r (categorias Ejemplo.tienda) ->
                          FilaCategoria.id r <> 2 ^ 63).
  { intros r [<-|[]]. simpl. lia. }
  specialize (H Hid). vm_compute in H. discriminate H.
Qed.

Example sku_sugerido_lanza :
  ServicioProductoEnlazado.generar_sku_sugerido (2 ^ 63) Ejemplo.tienda
  = Lanza OverflowError.
Proof. vm_compute. reflexivity. Qed.

(** ** Updating a product *)

Lemma find_map_conserva {A : Type} (p : A -> bool) (g : A -> A)
    (l : list A) :
  (forall x, p (g x) = p x) ->
  find p (map g l) = option_map g (find p l).
Proof.
  intros Hg. induction l as [|x l IH]; simpl; [reflexivity|].
  rewrite Hg. destruct (p x); [reflexivity | exact IH].
Qed.




(** A quantity, a minimum stock or an id that does not bind: nothing is
    written and the [except] branch answers. *)
Lemma actualizar_sin_enlace (producto : Producto.t) (ahora : Z)
    (bd : BaseDatos) :
  forallb Sqlite3.cabe (RepositorioProductoEnlazado.enteros_de producto)
  = false ->
  ServicioProductoEnlazado.actualizar producto ahora bd
  = ((false, ErrorAlmacen), bd, []).
Proof.
  intros H. unfold ServicioProductoEnlazado.actualizar,
    RepositorioProductoEnlazado.actualizar, bind.
  now rewrite (ejecutar_no_caben _ _ _ H).
Qed.




(** Nor is success unconditional: a quantity of 2^63 does not bind, the
    UPDATE raises OverflowError and the [except] branch answers
    [(False, "Error: ...")] with nothing written. *)
Example actualizar_sin_fin :
  RepositorioProducto.obtener_por_id 1 Ejemplo.tienda
  = Some (RepositorioProducto._fila_a_producto Ejemplo.coca)
  /\ ServicioProductoEnlazado.actualizar Muestra.coca_sin_fin 500
       Ejemplo.tienda
     = ((false, ErrorAlmacen), Ejemplo.tienda, []).
Proof. split; [reflexivity | vm_compute; reflexivity]. Qed.

(** * The rest of the catalogue, the cart and the ledger *)

(** ** More on text *)

Lemma mayuscula_idem (c : ascii) :
  Texto.mayuscula (Texto.mayuscula c) = Texto.mayuscula c.
Proof. destruct c as [[] [] [] [] [] [] [] []]; reflexivity. Qed.

Lemma mayuscula_minuscula (c : ascii) :
  Texto.mayuscula (Texto.minuscula c) = Texto.mayuscula c.
Proof. destruct c as [[] [] [] [] [] [] [] []]; reflexivity. Qed.

Lemma minuscula_mayuscula (c : ascii) :
  Texto.minuscula (Texto.mayuscula c) = Texto.minuscula c.
Proof. destruct c as [[] [] [] [] [] [] [] []]; reflexivity. Qed.

Lemma letra_sin_comodin (c : ascii) :
  es_letra c = true ->
  Texto.es_porcentaje c = false /\ Texto.es_guion_bajo c = false.
Proof.
  destruct c as [[] [] [] [] [] [] [] []]; intros H;
    try discriminate H; split; reflexivity.
Qed.

Lemma upper_idem (s : string) : Texto.upper (Texto.upper s) = Texto.upper s.
Proof.
  induction s as [|c s IH]; simpl; [reflexivity|].
  now rewrite mayuscula_idem, IH.
Qed.

Lemma upper_lower (s : string) : Texto.upper (Texto.lower s) = Texto.upper s.
Proof.
  induction s as [|c s IH]; simpl; [reflexivity|].
  now rewrite mayuscula_minuscula, IH.
Qed.

Lemma lower_upper (s : string) : Texto.lower (Texto.upper s) = Texto.lower s.
Proof.
  induction s as [|c s IH]; simpl; [reflexivity|].
  now rewrite minuscula_mayuscula, IH.
Qed.

Lemma length_upper (s : string) :
  String.length (Texto.upper s) = String.length s.
Proof. induction s as [|c s IH]; simpl; [reflexivity | now rewrite IH]. Qed.

Lemma length_lower (s : string) :
  String.length (Texto.lower s) = String.length s.
Proof. induction s as [|c s IH]; simpl; [reflexivity | now rewrite IH]. Qed.

(** Two texts with the same letters up to case have the same upper-case
    form. *)
Lemma upper_de_lower_igual (s t : string) :
  Texto.lower s = Texto.lower t -> Texto.upper s = Texto.upper t.
Proof.
  intros H. rewrite <- (upper_lower s), <- (upper_lower t). now rewrite H.
Qed.

Lemma letras_sin_comodines (s : string) :
  todas_letras s = true -> Texto.sin_comodines s = true.
Proof.
  induction s as [|c s IH]; simpl; [reflexivity|].
  intros H. apply andb_prop in H as [Hc Hs].
  destruct (letra_sin_comodin c Hc) as [-> ->]. simpl. now apply IH.
Qed.

(** ** More on commands *)

Lemma final_bind {A B} (m : Estado A) (k : A -> Estado B) (bd : BaseDatos) :
  final (bind m k bd) = final (k (resultado (m bd)) (final (m bd))).
Proof.
  unfold bind, final, resultado. destruct (m bd) as [[a bd1] h1]. simpl.
  now destruct (k a bd1) as [[b bd2] h2].
Qed.

Lemma resultado_bind {A B} (m : Estado A) (k : A -> Estado B)
    (bd : BaseDatos) :
  resultado (bind m k bd) = resultado (k (resultado (m bd)) (final (m bd))).
Proof.
  unfold bind, final, resultado. destruct (m bd) as [[a bd1] h1]. simpl.
  now destruct (k a bd1) as [[b bd2] h2].
Qed.

Lemma find_app_ninguno {A : Type} (p : A -> bool) (l : list A) (x : A) :
  (forall y, In y l -> p y = false) ->
  find p (l ++ [x]) = if p x then Some x else None.
Proof.
  induction l as [|y l IH]; intros H; simpl; [reflexivity|].
  rewrite (H y) by now left. apply IH. intros z Hz. apply H. now right.
Qed.

Lemma existsb_falso {A : Type} (p : A -> bool) (l : list A) :
  existsb p l = false -> forall y, In y l -> p y = false.
Proof.
  intros H y Hy. destruct (p y) eqn:E; [|reflexivity].
  assert (existsb p l = true) by (apply existsb_exists; eauto).
  congruence.
Qed.

Lemma find_ninguno_existsb {A : Type} (p : A -> bool) (l : list A) :
  find p l = None -> existsb p l = false.
Proof.
  intros H. destruct (existsb p l) eqn:E; [|reflexivity].
  apply existsb_exists in E as [x [Hx Hp]].
  now rewrite (find_none _ _ H x Hx) in Hp.
Qed.

(** ** Adding and deleting products *)

(** The outcomes of [ServicioProducto.agregar]. *)
Lemma agregar_producto_casos (producto : Producto.t) (rowid ahora : Z)
    (bd : BaseDatos) :
  let r := ProductoSrv.agregar producto rowid ahora bd in
  (final r = bd /\ historia r = []
   /\ (resultado r = (false, SkuDuplicado (Producto.sku producto))
       \/ resultado r = (false, NombreObligatorio)
       \/ resultado r = (false, PrecioNoPositivo)
       \/ resultado r = (false, CantidadNegativa)))
  \/ (resultado r = (true, ProductoAgregado (Producto.nombre producto))
      /\ Producto.nombre producto <> ""
      /\ (0 < Producto.precio producto)%Q
      /\ 0 <= Producto.cantidad producto
      /\ (forall f, In f (productos bd) ->
            FilaProducto.sku f <> Texto.upper (Producto.sku producto))
      /\ final r
         = con_productos
             (fun filas =>
                filas
                  ++ [FilaProducto.mk rowid
                        (Texto.upper (Producto.sku producto))
                        (Producto.nombre producto)
                        (Producto.descripcion producto)
                        (Producto.cantidad producto)
                        (Producto.precio producto)
                        (Producto.stock_minimo producto)
                        (Producto.categoria producto) ahora ahora]) bd).
Proof.
  cbv zeta. unfold ProductoSrv.agregar, bind, leer,
    ProductoRepo.obtener_por_sku.
  destruct (find _ (productos bd)) as [f|] eqn:Hf; simpl.
  - left. repeat split. now left.
  - destruct (Producto.nombre producto) as [|c n] eqn:Hn.
    + left. repeat split. right. now left.
    + destruct (Qle_bool (Producto.precio producto) 0) eqn:Hp.
      * left. repeat split. right. right. now left.
      * destruct (Producto.cantidad producto <? 0) eqn:Hc.
        -- left. repeat split. right. right. now right.
        -- right. unfold ProductoRepo.agregar, transaccion.
           rewrite (find_ninguno_existsb _ _ Hf). simpl.
           unfold resultado, final. simpl.
           split; [reflexivity|]. split; [discriminate|].
           split.
           { apply Qnot_le_lt. intros Hle. apply Qle_bool_iff in Hle.
             congruence. }
           split; [now apply Z.ltb_ge|].
           split; [|now rewrite Hn].
           intros g Hg E. pose proof (find_none _ _ Hf g Hg) as Hx.
           simpl in Hx. rewrite E, String.eqb_refl in Hx. discriminate.
Qed.

(** On a quantity and a minimum stock that bind, the INSERT can only fail
    on the UNIQUE constraint. *)
Lemma agregar_enlazado (producto : Producto.t) (rowid ahora : Z)
    (bd : BaseDatos) :
  Sqlite3.cabe (Producto.cantidad producto) = true ->
  Sqlite3.cabe (Producto.stock_minimo producto) = true ->
  ServicioProductoEnlazado.agregar producto rowid ahora bd
  = ProductoSrv.agregar producto rowid ahora bd.
Proof.
  intros Hq Hm. unfold ServicioProductoEnlazado.agregar, ProductoSrv.agregar,
    bind, leer.
  destruct (ProductoRepo.obtener_por_sku _ bd); [reflexivity|].
  destruct (Producto.nombre producto); [reflexivity|].
  destruct (Qle_bool _ _); [reflexivity|].
  destruct (_ <? 0); [reflexivity|].
  unfold RepositorioProductoEnlazado.agregar.
  rewrite ejecutar_caben by (simpl; now rewrite Hq, Hm).
  unfold resultado, final, historia.
  destruct (ProductoRepo.agregar producto rowid ahora bd) as [[o b] h].
  now destruct o.
Qed.

(** X1.  [ServicioProducto.agregar] either refuses the product and leaves
    the store as it was, committing nothing: for a SKU already stored, an
    empty name, a price of at most 0, a negative quantity, or, with the
    store's error, for a quantity or a minimum stock that does not fit a
    signed 64-bit INTEGER; or it appends one row that carries the SKU
    upper-cased and the other fields as given.  The store's own UNIQUE
    error is never reached. *)
Theorem alta_de_producto (producto : Producto.t) (rowid ahora : Z)
    (bd : BaseDatos) :
  let r := ServicioProductoEnlazado.agregar producto rowid ahora bd in
  (final r = bd /\ historia r = []
   /\ (resultado r = (false, SkuDuplicado (Producto.sku producto))
       \/ resultado r = (false, NombreObligatorio)
       \/ resultado r = (false, PrecioNoPositivo)
       \/ resultado r = (false, CantidadNegativa)
       \/ (resultado r = (false, ErrorDeAlmacen)
           /\ (Sqlite3.cabe (Producto.cantidad producto) = false
               \/ Sqlite3.cabe (Producto.stock_minimo producto) = false))))
  \/ (resultado r = (true, ProductoAgregado (Producto.nombre producto))
      /\ Producto.nombre producto <> ""
      /\ Qle_bool (Producto.precio producto) 0 = false
      /\ 0 <= Producto.cantidad producto
      /\ Sqlite3.cabe (Producto.cantidad producto) = true
      /\ Sqlite3.cabe (Producto.stock_minimo producto) = true
      /\ (forall f, In f (productos bd) ->
            FilaProducto.sku f <> Texto.upper (Producto.sku producto))
      /\ final r
         = con_productos
             (fun filas =>
                filas
                  ++ [FilaProducto.mk rowid
                        (Texto.upper (Producto.sku producto))
                        (Producto.nombre producto)
                        (Producto.descripcion producto)
                        (Producto.cantidad producto)
                        (Producto.precio producto)
                        (Producto.stock_minimo producto)
                        (Producto.categoria producto) ahora ahora]) bd).
Proof.
  cbv zeta.
  destruct (Sqlite3.cabe (Producto.cantidad producto)) eqn:Hq;
    [destruct (Sqlite3.cabe (Producto.stock_minimo producto)) eqn:Hm|].
  - rewrite (agregar_enlazado _ _ _ _ Hq Hm).
    destruct (agregar_producto_casos producto rowid ahora bd)
      as [(Hf & Hh & Hr)|(Hr & Hn & Hp & Hc & Hs & Hf)].
    + left. split; [assumption|]. split; [assumption|]. tauto.
    + right. split; [assumption|]. split; [assumption|].
      split.
      { destruct (Qle_bool (Producto.precio producto) 0) eqn:E;
          [|reflexivity].
        apply Qle_bool_iff in E. now apply Qlt_not_le in Hp. }
      now repeat split.
  - left. unfold ServicioProductoEnlazado.agregar, bind, leer.
    destruct (ProductoRepo.obtener_por_sku _ bd);
      [repeat split; now left|].
    destruct (Producto.nombre producto);
      [repeat split; right; now left|].
    destruct (Qle_bool _ _); [repeat split; right; right; now left|].
    destruct (_ <? 0); [repeat split; right; right; right; now left|].
    unfold RepositorioProductoEnlazado.agregar.
    rewrite ejecutar_no_caben by (simpl; now rewrite Hq, Hm).
    repeat split. right. right. right. right. split; [reflexivity|].
    now right.
  - left. unfold ServicioProductoEnlazado.agregar, bind, leer.
    destruct (ProductoRepo.obtener_por_sku _ bd);
      [repeat split; now left|].
    destruct (Producto.nombre producto);
      [repeat split; right; now left|].
    destruct (Qle_bool _ _); [repeat split; right; right; now left|].
    destruct (_ <? 0); [repeat split; right; right; right; now left|].
    unfold RepositorioProductoEnlazado.agregar.
    rewrite ejecutar_no_caben by (simpl; now rewrite Hq).
    repeat split. right. right. right. right. split; [reflexivity|].
    now left.
Qed.

(** X2.  Round trip: once [ServicioProducto.agregar] accepted a product,
    [obtener_por_sku] finds it under its SKU written in any case, with the
    rowid and the fields it was added with. *)
Theorem alta_y_consulta (producto : Producto.t) (rowid ahora : Z)
    (bd : BaseDatos) (sku : string) :
  fst (resultado (ProductoSrv.agregar producto rowid ahora bd)) = true ->
  Texto.lower sku = Texto.lower (Producto.sku producto) ->
  ProductoRepo.obtener_por_sku sku
    (final (ProductoSrv.agregar producto rowid ahora bd))
  = Some (Producto.mk (Some rowid) (Texto.upper (Producto.sku producto))
            (Producto.nombre producto) (Producto.descripcion producto)
            (Producto.cantidad producto) (Producto.precio producto)
            (Producto.stock_minimo producto) (Producto.categoria producto)
            (Some ahora) (Some ahora)).
Proof.
  intros Hok Hs.
  destruct (agregar_producto_casos producto rowid ahora bd)
    as [(_ & _ & [H|[H|[H|H]]])|(_ & _ & _ & _ & Hn & Hf)];
    try (rewrite H in Hok; discriminate).
  rewrite Hf. unfold ProductoRepo.obtener_por_sku, con_productos.
  cbn [productos]. rewrite (upper_de_lower_igual _ _ Hs).
  rewrite find_app_ninguno.
  - cbn [FilaProducto.sku]. now rewrite String.eqb_refl.
  - intros g Hg. apply String.eqb_neq. now apply Hn.
Qed.

Lemma alta_y_consulta_witness :
  fst (resultado (ProductoSrv.agregar Muestra.alta_fanta 3 50 Ejemplo.tienda))
  = true
  /\ Texto.lower "Beb003" = Texto.lower (Producto.sku Muestra.alta_fanta)
  /\ option_map Producto.nombre
       (ProductoRepo.obtener_por_sku "Beb003"
          (final (ProductoSrv.agregar Muestra.alta_fanta 3 50
                    Ejemplo.tienda)))
     = Some "Fanta 600ml".
Proof.
  split; [reflexivity|]. split; [reflexivity|].
  rewrite (alta_y_consulta Muestra.alta_fanta 3 50 Ejemplo.tienda "Beb003"
             eq_refl eq_refl).
  reflexivity.
Defined.

(** ** Invariants of the product table *)

Lemma skus_tras_filtrar (conserva : FilaProducto.t -> bool)
    (filas : list FilaProducto.t) :
  NoDup (map FilaProducto.sku filas) ->
  NoDup (map FilaProducto.sku (filter conserva filas)).
Proof.
  induction filas as [|fila filas IH]; simpl; intros H; [constructor|].
  apply NoDup_cons_iff in H as [Hfila Hfilas].
  destruct (conserva fila); simpl; [|now apply IH].
  constructor; [|now apply IH].
  intros Hin. apply Hfila. apply in_map_iff in Hin as [otra [Hsku Hin]].
  apply in_map_iff. exists otra. split; [assumption|].
  now apply filter_In in Hin.
Qed.

Lemma NoDup_map_snoc {A B : Type} (f : A -> B) (l : list A) (x : A) :
  NoDup (map f l) -> (forall y, In y l -> f y <> f x) ->
  NoDup (map f (l ++ [x])).
Proof.
  intros Hl Hx. rewrite map_app. apply NoDup_app; [assumption| |].
  - simpl. constructor; [intros [] | constructor].
  - intros b Hb [<-|[]]. apply in_map_iff in Hb as [y [Hy Hin]].
    now apply (Hx y).
Qed.

Lemma map_map_mismo {A B : Type} (f : A -> B) (g : A -> A) (l : list A) :
  (forall x, f (g x) = f x) -> map f (map g l) = map f l.
Proof.
  intros H. rewrite map_map. apply map_ext. exact H.
Qed.

(** Stored upper-cased, SKUs that differ differ in more than case. *)
Lemma skus_unicos_sin_caso (bd : BaseDatos) :
  skus_unicos bd ->
  NoDup (map (fun r => Texto.lower (FilaProducto.sku r)) (productos bd)).
Proof.
  intros [Hnd Hup]. induction (productos bd) as [|x l IH]; simpl;
    [constructor|].
  simpl in Hnd. apply NoDup_cons_iff in Hnd as [Hx Hl].
  inversion Hup as [|? ? Hux Hul]; subst.
  constructor; [|now apply IH].
  intros Hin. apply Hx. apply in_map_iff in Hin as [y [Hy Hin]].
  apply in_map_iff. exists y. split; [|assumption].
  rewrite Forall_forall in Hul.
  rewrite <- (Hul y Hin), <- Hux. now apply upper_de_lower_igual.
Qed.

Section PasosDelCatalogo.
Variable Inv : BaseDatos -> Prop.
Let R (s s' : BaseDatos) : Prop := Inv s -> Inv s'.

Hypothesis Inv_alta :
  forall producto rowid ahora bd,
    Inv bd -> Inv (final (ProductoSrv.agregar producto rowid ahora bd)).
Hypothesis Inv_baja :
  forall pid bd,
    Inv bd ->
    Inv (con_productos
           (filter (fun r => negb (FilaProducto.id r =? pid))) bd).
Hypothesis Inv_descuento :
  forall pid n ahora bd,
    Inv bd ->
    Inv (con_productos
           (map (fun r => if RepositorioProducto.vendible pid n r
                          then RepositorioProducto.descontar_fila n ahora r
                          else r)) bd).

Lemma paso_alta (producto : Producto.t) (rowid ahora : Z) :
  paso_a_paso R (ProductoSrv.agregar producto rowid ahora).
Proof.
  intros bd.
  pose proof (Inv_alta producto rowid ahora bd) as Hinv.
  destruct (agregar_producto_casos producto rowid ahora bd)
    as [(Hf & Hh & _)|(_ & _ & _ & _ & _ & Hf)].
  - rewrite Hh, Hf. split; [exact I | reflexivity].
  - revert Hinv Hf.
    unfold ProductoSrv.agregar, bind, leer, ProductoRepo.agregar,
      transaccion, ret, final, historia.
    destruct (ProductoRepo.obtener_por_sku _ bd); simpl;
      [intros _ _; split; [exact I | reflexivity]|].
    destruct (Producto.nombre producto); simpl;
      [intros _ _; split; [exact I | reflexivity]|].
    destruct (Qle_bool _ _); simpl;
      [intros _ _; split; [exact I | reflexivity]|].
    destruct (_ <? 0); simpl;
      [intros _ _; split; [exact I | reflexivity]|].
    destruct (existsb _ _); simpl; intros Hinv Hf;
      (split; [split; [exact Hinv | exact I] | reflexivity]).
Qed.

Lemma paso_baja (pid : Z) : paso_a_paso R (ProductoSrv.eliminar pid).
Proof.
  unfold ProductoSrv.eliminar. apply paso_bind.
  - apply paso_transaccion. intros bd H. simpl. now apply Inv_baja.
  - intros [|]; apply paso_ret.
Qed.

Lemma paso_descuento (pid n ahora : Z) :
  paso_a_paso R (ServicioProducto.actualizar_stock pid n ahora).
Proof.
  apply paso_transaccion. intros bd H. simpl. now apply Inv_descuento.
Qed.

End PasosDelCatalogo.

Lemma paso_para_cada_si {A B} (R : BaseDatos -> BaseDatos -> Prop)
    (P : A -> Prop) (cuerpo : A -> Estado B) (xs : list A) :
  (forall x, P x -> paso_a_paso R (cuerpo x)) ->
  Forall P xs -> paso_a_paso R (para_cada cuerpo xs).
Proof.
  intros Hc. induction 1 as [|x xs Hx _ IH]; simpl.
  - apply paso_ret.
  - apply paso_bind; [now apply Hc | intros _; exact IH].
Qed.

Lemma historia_invariante (Inv : BaseDatos -> Prop) {A} (m : Estado A)
    (bd : BaseDatos) :
  paso_a_paso (fun s s' => Inv s -> Inv s') m ->
  Inv bd -> Forall Inv (historia (m bd)) /\ Inv (final (m bd)).
Proof.
  intros Hm Hbd. destruct (Hm bd) as [Hc Hl]. rewrite Hl.
  apply (encadenada_invariante (fun s s' => Inv s -> Inv s') Inv);
    auto.
Qed.

Lemma skus_unicos_alta (producto : Producto.t) (rowid ahora : Z)
    (bd : BaseDatos) :
  skus_unicos bd ->
  skus_unicos (final (ProductoSrv.agregar producto rowid ahora bd)).
Proof.
  intros [Hnd Hup].
  destruct (agregar_producto_casos producto rowid ahora bd)
    as [(Hf & _)|(_ & _ & _ & _ & Hn & Hf)]; rewrite Hf; [now split|].
  unfold skus_unicos, con_productos. cbn [productos]. split.
  - apply NoDup_map_snoc; [assumption|]. intros y Hy. now apply Hn.
  - apply Forall_app. split; [assumption|].
    constructor; [|constructor]. apply upper_idem.
Qed.

Lemma skus_unicos_baja (pid : Z) (bd : BaseDatos) :
  skus_unicos bd ->
  skus_unicos
    (con_productos (filter (fun r => negb (FilaProducto.id r =? pid))) bd).
Proof.
  intros [Hnd Hup]. unfold skus_unicos, con_productos. cbn [productos].
  split; [now apply skus_tras_filtrar|].
  rewrite Forall_forall in Hup |- *. intros r Hr.
  apply filter_In in Hr as [Hr _]. now apply Hup.
Qed.

Lemma skus_unicos_map (g : FilaProducto.t -> FilaProducto.t)
    (bd : BaseDatos) :
  (forall r, FilaProducto.sku (g r) = FilaProducto.sku r) ->
  skus_unicos bd -> skus_unicos (con_productos (map g) bd).
Proof.
  intros Hg [Hnd Hup]. unfold skus_unicos, con_productos. cbn [productos].
  split; [now rewrite map_map_mismo|].
  rewrite Forall_forall in Hup |- *. intros r Hr.
  apply in_map_iff in Hr as [x [<- Hx]]. rewrite Hg. now apply Hup.
Qed.

Lemma paso_modificacion_skus (producto : Producto.t) (ahora : Z) :
  paso_a_paso (fun s s' => skus_unicos s -> skus_unicos s')
    (ServicioProducto.actualizar producto ahora).
Proof.
  unfold ServicioProducto.actualizar. apply paso_bind.
  - apply paso_transaccion. intros bd H. simpl.
    apply skus_unicos_map; [|assumption].
    intros r. now destruct (RepositorioProducto.tiene_id _ r).
  - intros [|]; apply paso_ret.
Qed.

Lemma paso_aplicar_skus (op : OperacionCatalogo) :
  paso_a_paso (fun s s' => skus_unicos s -> skus_unicos s') (aplicar op).
Proof.
  destruct op as [p rowid ahora|p ahora|pid|pid n ahora]; simpl;
    (apply paso_bind; [|intros _; apply paso_ret]).
  - apply (paso_alta skus_unicos). apply skus_unicos_alta.
  - apply paso_modificacion_skus.
  - apply (paso_baja skus_unicos). apply skus_unicos_baja.
  - apply (paso_descuento skus_unicos). intros pid' n' ahora' bd H.
    apply skus_unicos_map; [|assumption].
    intros r. now destruct (RepositorioProducto.vendible _ _ r).
Qed.

(** X3.  SKU uniqueness is an invariant of the catalogue: along any
    sequence of additions, updates, deletions and stock decrements, starting
    from a table whose SKUs are pairwise different and upper-cased, every
    committed table is of that kind; so no two products ever hold SKUs that
    are equal up to case. *)
Theorem skus_siempre_unicos (ops : list OperacionCatalogo) (bd : BaseDatos) :
  skus_unicos bd ->
  Forall skus_unicos (historia (para_cada aplicar ops bd))
  /\ skus_unicos (final (para_cada aplicar ops bd))
  /\ NoDup (map (fun r => Texto.lower (FilaProducto.sku r))
              (productos (final (para_cada aplicar ops bd)))).
Proof.
  intros Hbd.
  destruct (historia_invariante skus_unicos (para_cada aplicar ops) bd)
    as [Hh Hf]; [|assumption|].
  - apply paso_para_cada. apply paso_aplicar_skus.
  - split; [assumption|]. split; [assumption|].
    now apply skus_unicos_sin_caso.
Qed.

Lemma skus_siempre_unicos_witness :
  skus_unicos Ejemplo.tienda
  /\ skus_unicos
       (final (para_cada aplicar
                 [Alta Muestra.alta_fanta 3 50;
                  Alta Muestra.alta_fanta 4 60;
                  Modificacion Ejemplo.coca_editada 70;
                  Baja 2]
                 Ejemplo.tienda)).
Proof.
  assert (H : skus_unicos Ejemplo.tienda).
  { split.
    - simpl. constructor; [intros [H|[]]; discriminate H|].
      constructor; [intros []|constructor].
    - repeat constructor. }
  split; [exact H|].
  apply (skus_siempre_unicos
           [Alta Muestra.alta_fanta 3 50; Alta Muestra.alta_fanta 4 60;
            Modificacion Ejemplo.coca_editada 70; Baja 2]
           Ejemplo.tienda H).
Defined.

Lemma en_rango_alta (producto : Producto.t) (rowid ahora : Z)
    (bd : BaseDatos) :
  Forall en_rango (productos bd) ->
  Forall en_rango
    (productos (final (ProductoSrv.agregar producto rowid ahora bd))).
Proof.
  intros H.
  destruct (agregar_producto_casos producto rowid ahora bd)
    as [(Hf & _)|(_ & Hn & _ & Hc & _ & Hf)]; rewrite Hf; [assumption|].
  unfold con_productos. cbn [productos].
  apply Forall_app. split; [assumption|].
  constructor; [|constructor]. now split.
Qed.

Lemma en_rango_descuento (pid n ahora : Z) (bd : BaseDatos) :
  Forall en_rango (productos bd) ->
  Forall en_rango
    (productos
       (con_productos
          (map (fun r => if RepositorioProducto.vendible pid n r
                         then RepositorioProducto.descontar_fila n ahora r
                         else r)) bd)).
Proof.
  intros H. unfold con_productos. cbn [productos].
  rewrite Forall_forall in H |- *. intros r Hr.
  apply in_map_iff in Hr as [x [<- Hx]].
  destruct (H x Hx) as (Hn & Hc).
  destruct (RepositorioProducto.vendible pid n x) eqn:E;
    [|now split].
  unfold RepositorioProducto.vendible in E.
  apply andb_prop in E as [_ E]. apply Z.leb_le in E.
  unfold en_rango. simpl. split; [assumption | lia].
Qed.

Lemma paso_aplicar_rangos (op : OperacionCatalogo) :
  sin_modificacion op ->
  paso_a_paso
    (fun s s' => Forall en_rango (productos s) ->
                 Forall en_rango (productos s'))
    (aplicar op).
Proof.
  destruct op as [p rowid ahora|p ahora|pid|pid n ahora]; simpl;
    intros Hop; [| destruct Hop | |];
    (apply paso_bind; [|intros _; apply paso_ret]).
  - apply (paso_alta (fun s => Forall en_rango (productos s))).
    apply en_rango_alta.
  - apply (paso_baja (fun s => Forall en_rango (productos s))).
    intros pid' bd H. unfold con_productos. cbn [productos].
    rewrite Forall_forall in H |- *. intros r Hr.
    apply filter_In in Hr as [Hr _]. now apply H.
  - apply (paso_descuento (fun s => Forall en_rango (productos s))).
    apply en_rango_descuento.
Qed.

(** X4.  Additions, deletions and stock decrements keep every stored
    product with a name and a quantity of at least 0, in every store they
    commit; only [updateProduct] can break this. *)
Theorem rangos_conservados (ops : list OperacionCatalogo) (bd : BaseDatos) :
  Forall sin_modificacion ops ->
  Forall en_rango (productos bd) ->
  Forall (fun s => Forall en_rango (productos s))
    (historia (para_cada aplicar ops bd))
  /\ Forall en_rango (productos (final (para_cada aplicar ops bd))).
Proof.
  intros Hops Hbd.
  apply (historia_invariante (fun s => Forall en_rango (productos s)));
    [|assumption].
  apply (paso_para_cada_si _ sin_modificacion); [|assumption].
  apply paso_aplicar_rangos.
Qed.

Lemma rangos_conservados_witness :
  Forall sin_modificacion
    [Alta Muestra.alta_fanta 3 50; Descuento 1 5 60; Baja 2]
  /\ Forall en_rango (productos Ejemplo.tienda)
  /\ Forall en_rango
       (productos
          (final (para_cada aplicar
                    [Alta Muestra.alta_fanta 3 50; Descuento 1 5 60; Baja 2]
                    Ejemplo.tienda))).
Proof.
  assert (H1 : Forall sin_modificacion
                 [Alta Muestra.alta_fanta 3 50; Descuento 1 5 60; Baja 2])
    by (repeat constructor).
  assert (H2 : Forall en_rango (productos Ejemplo.tienda)).
  { repeat constructor; simpl; try discriminate; lia. }
  split; [exact H1|]. split; [exact H2|].
  apply (rangos_conservados
           [Alta Muestra.alta_fanta 3 50; Descuento 1 5 60; Baja 2]
           Ejemplo.tienda H1 H2).
Defined.

Lemma find_filter_otro (pid j : Z) (l : list FilaProducto.t) :
  j <> pid ->
  find (fun r => FilaProducto.id r =? j)
    (filter (fun r => negb (FilaProducto.id r =? pid)) l)
  = find (fun r => FilaProducto.id r =? j) l.
Proof.
  intros Hj. induction l as [|x l IH]; simpl; [reflexivity|].
  destruct (FilaProducto.id x =? pid) eqn:Ep; simpl.
  - apply Z.eqb_eq in Ep.
    destruct (FilaProducto.id x =? j) eqn:Ej; [|exact IH].
    apply Z.eqb_eq in Ej. congruence.
  - destruct (FilaProducto.id x =? j); [reflexivity | exact IH].
Qed.

Lemma find_filter_mismo (pid : Z) (l : list FilaProducto.t) :
  find (fun r => FilaProducto.id r =? pid)
    (filter (fun r => negb (FilaProducto.id r =? pid)) l) = None.
Proof.
  induction l as [|x l IH]; simpl; [reflexivity|].
  destruct (FilaProducto.id x =? pid) eqn:Ep; simpl; [exact IH|].
  now rewrite Ep.
Qed.

Lemma filter_todos {A : Type} (p : A -> bool) (l : list A) :
  (forall x, In x l -> p x = true) -> filter p l = l.
Proof.
  induction l as [|x l IH]; intros H; simpl; [reflexivity|].
  rewrite (H x) by now left. f_equal. apply IH. intros y Hy. apply H.
  now right.
Qed.

(** X5.  [ServicioProducto.eliminar] answers success exactly when the id
    was stored; afterwards no product has that id, every other id finds the
    product it found before, and when the id was not stored the table is as
    it was. *)
Theorem baja_de_producto (producto_id : Z) (bd : BaseDatos) :
  let r := ProductoSrv.eliminar producto_id bd in
  resultado r
  = match RepositorioProducto.obtener_por_id producto_id bd with
    | Some _ => (true, ProductoEliminado)
    | None => (false, NoSePudoEliminar)
    end
  /\ RepositorioProducto.obtener_por_id producto_id (final r) = None
  /\ (forall j, j <> producto_id ->
        RepositorioProducto.obtener_por_id j (final r)
        = RepositorioProducto.obtener_por_id j bd)
  /\ match RepositorioProducto.obtener_por_id producto_id bd with
     | Some _ => True
     | None => productos (final r) = productos bd
     end.
Proof.
  cbv zeta.
  assert (Hfin : final (ProductoSrv.eliminar producto_id bd)
                 = con_productos
                     (filter (fun r => negb (FilaProducto.id r =? producto_id)))
                     bd).
  { unfold ProductoSrv.eliminar, ProductoRepo.eliminar, bind, transaccion,
      final. now destruct (existsb _ _). }
  rewrite Hfin. unfold RepositorioProducto.obtener_por_id, con_productos.
  cbn [productos].
  split; [|split; [|split]].
  - unfold ProductoSrv.eliminar, ProductoRepo.eliminar, bind, transaccion,
      resultado.
    destruct (find _ (productos bd)) as [f|] eqn:Hf; simpl.
    + assert (He : existsb (fun r => FilaProducto.id r =? producto_id)
                     (productos bd) = true).
      { apply existsb_exists. exists f. now apply find_some in Hf. }
      now rewrite He.
    + now rewrite (find_ninguno_existsb _ _ Hf).
  - now rewrite find_filter_mismo.
  - intros j Hj. now rewrite find_filter_otro.
  - destruct (find _ (productos bd)) as [f|] eqn:Hf; simpl; [exact I|].
    apply filter_todos. intros x Hx.
    now rewrite (find_none _ _ Hf x Hx).
Qed.

(** ** The product list *)

Lemma por_nombre_producto_total (a b : FilaProducto.t) :
  por_nombre_producto a b = true \/ por_nombre_producto b a = true.
Proof. apply String.leb_total. Qed.

Lemma por_nombre_producto_trans (a b c : FilaProducto.t) :
  por_nombre_producto a b = true -> por_nombre_producto b c = true ->
  por_nombre_producto a c = true.
Proof. apply string_leb_trans. Qed.

Lemma length_filter_perm {A : Type} (p : A -> bool) (l l' : list A) :
  Permutation l l' ->
  List.length (filter p l) = List.length (filter p l').
Proof.
  induction 1 as [|x l l' _ IH|x y l|l l' l'' _ IH1 _ IH2]; simpl.
  - reflexivity.
  - destruct (p x); simpl; now rewrite IH.
  - destruct (p x), (p y); reflexivity.
  - now rewrite IH1.
Qed.

Lemma filter_map_fila {A B : Type} (f : A -> B) (p : B -> bool)
    (l : list A) :
  filter p (map f l) = map f (filter (fun x => p (f x)) l).
Proof.
  induction l as [|x l IH]; simpl; [reflexivity|].
  destruct (p (f x)); simpl; now rewrite IH.
Qed.

(** X6.  [obtener_todos] lists every stored product once, ordered by name
    (bytewise, so upper case before lower case); and
    [contar_por_categoria] is the number of stored products whose category
    label is exactly the given name, 0 when there is none. *)
Theorem listado_de_productos (bd : BaseDatos) (categoria_nombre : string) :
  Permutation (map RepositorioProducto._fila_a_producto (productos bd))
    (ProductoSrv.obtener_todos bd)
  /\ StronglySorted
       (fun p q => String.leb (Producto.nombre p) (Producto.nombre q) = true)
       (ProductoSrv.obtener_todos bd)
  /\ ProductoSrv.contar_por_categoria categoria_nombre bd
     = Z.of_nat
         (List.length
            (filter (fun r => String.eqb (FilaProducto.categoria r)
                                categoria_nombre) (productos bd))).
Proof.
  unfold ProductoSrv.contar_por_categoria, ProductoSrv.obtener_todos,
    ProductoRepo.obtener_todos.
  split; [|split].
  - apply Permutation_map, ordenar_perm.
  - apply ordenada_map.
    apply (ordenar_ordenada por_nombre_producto por_nombre_producto_total
             por_nombre_producto_trans).
  - f_equal. rewrite filter_map_fila, length_map.
    apply length_filter_perm, Permutation_sym, ordenar_perm.
Qed.

(** ** Categories *)

Lemma validar_prefijo_casos (prefijo : string) (bd : BaseDatos) :
  (fst (CategoriaSrv.validar_prefijo prefijo bd) = false
   /\ snd (CategoriaSrv.validar_prefijo prefijo bd) <> ErrorDeAlmacen)
  \/ (CategoriaSrv.validar_prefijo prefijo bd = (true, PrefijoValido)
      /\ (1 <= String.length (Texto.upper prefijo) <= 5)%nat
      /\ todas_letras (Texto.upper prefijo) = true
      /\ forall f, In f (categorias bd) ->
           FilaCategoria.prefijo f <> Texto.upper prefijo).
Proof.
  unfold CategoriaSrv.validar_prefijo.
  destruct prefijo as [|c p]; [left; split; [reflexivity | discriminate]|].
  set (P := Texto.upper (String c p)).
  destruct (5 <? String.length P)%nat eqn:Hl;
    [left; split; [reflexivity | discriminate]|].
  destruct (isalpha P) eqn:Ha; simpl;
    [|left; split; [reflexivity | discriminate]].
  unfold CategoriaRepo.obtener_por_prefijo.
  destruct (find _ (categorias bd)) as [f|] eqn:Hf; simpl;
    [left; split; [reflexivity | discriminate]|].
  right. split; [reflexivity|]. apply Nat.ltb_ge in Hl.
  split; [split; [unfold P; simpl; lia | exact Hl]|].
  split; [exact Ha|].
  intros g Hg E. pose proof (find_none _ _ Hf g Hg) as Hx. cbv beta in Hx.
  unfold P in Hx. rewrite upper_idem in Hx. fold P in Hx.
  rewrite E, String.eqb_refl in Hx. discriminate.
Qed.

(** X7.  An ASCII prefix that [validar_prefijo] accepts is, upper-cased,
    one to five letters, so it holds no LIKE wildcard, and no category,
    active or not, has it. *)
Theorem prefijo_aceptado (prefijo : string) (bd : BaseDatos) :
  Texto.es_ascii prefijo = true ->
  fst (CategoriaSrv.validar_prefijo prefijo bd) = true ->
  (1 <= String.length (Texto.upper prefijo) <= 5)%nat
  /\ todas_letras (Texto.upper prefijo) = true
  /\ Texto.sin_comodines (Texto.upper prefijo) = true
  /\ forall f, In f (categorias bd) ->
       FilaCategoria.prefijo f <> Texto.upper prefijo.
Proof.
  intros _ H.
  destruct (validar_prefijo_casos prefijo bd)
    as [[Hf _]|(_ & Hl & Ha & Hn)]; [congruence|].
  split; [assumption|]. split; [assumption|].
  split; [now apply letras_sin_comodines | assumption].
Qed.

Lemma prefijo_aceptado_witness :
  Texto.es_ascii "gol" = true
  /\ fst (CategoriaSrv.validar_prefijo "gol" Ejemplo.tienda) = true
  /\ Texto.sin_comodines (Texto.upper "gol") = true.
Proof.
  split; [reflexivity|]. split; [reflexivity|].
  apply (prefijo_aceptado "gol" Ejemplo.tienda); reflexivity.
Defined.

Lemma por_nombre_categoria_total (a b : FilaCategoria.t) :
  por_nombre_categoria a b = true \/ por_nombre_categoria b a = true.
Proof. apply String.leb_total. Qed.

Lemma por_nombre_categoria_trans (a b c : FilaCategoria.t) :
  por_nombre_categoria a b = true -> por_nombre_categoria b c = true ->
  por_nombre_categoria a c = true.
Proof. apply string_leb_trans. Qed.

Lemma nombre_no_repetido (nombre : string) (bd : BaseDatos) :
  CategoriaSrv.nombre_repetido nombre bd = false ->
  forall f, In f (categorias bd) ->
    FilaCategoria.nombre f <> Texto.upper nombre.
Proof.
  unfold CategoriaSrv.nombre_repetido, CategoriaRepo.obtener_todas.
  intros H f Hf E.
  pose proof (existsb_falso _ _ H
                (RepositorioCategoria._fila_a_categoria f)) as Hx.
  simpl in Hx. rewrite E, upper_idem, String.eqb_refl in Hx.
  assert (false = true); [|discriminate]. symmetry. apply Hx.
  apply in_map. apply (Permutation_in f (ordenar_perm _ _)). exact Hf.
Qed.

(** The outcomes of [ServicioCategoria.agregar]. *)
Lemma agregar_categoria_casos (categoria : Categoria.t) (rowid ahora : Z)
    (bd : BaseDatos) :
  let r := CategoriaSrv.agregar categoria rowid ahora bd in
  (final r = bd /\ historia r = [] /\ fst (resultado r) = false
   /\ snd (resultado r) <> ErrorDeAlmacen)
  \/ (resultado r = (true, CategoriaCreada (Categoria.nombre categoria))
      /\ fst (CategoriaSrv.validar_prefijo (Categoria.prefijo categoria) bd)
         = true
      /\ (forall f, In f (categorias bd) ->
            FilaCategoria.nombre f <> Texto.upper (Categoria.nombre categoria))
      /\ final r
         = con_categorias
             (fun filas =>
                filas
                  ++ [FilaCategoria.mk rowid
                        (Texto.upper (Categoria.nombre categoria))
                        (Texto.upper (Categoria.prefijo categoria))
                        (Categoria.descripcion categoria) true ahora]) bd).
Proof.
  cbv zeta. unfold CategoriaSrv.agregar, bind, leer.
  destruct (CategoriaSrv.nombre_repetido _ bd) eqn:Hrep; simpl.
  - left. repeat split. discriminate.
  - pose proof (nombre_no_repetido _ _ Hrep) as Hnom.
    destruct (validar_prefijo_casos (Categoria.prefijo categoria) bd)
      as [[Hf Hm]|(Hv & _ & _ & Hpre)].
    + rewrite Hf. simpl. left. repeat split. exact Hm.
    + rewrite Hv. simpl. right.
      unfold CategoriaRepo.agregar, transaccion.
      assert (He : existsb
                     (fun r =>
                        String.eqb (FilaCategoria.nombre r)
                          (Texto.upper (Categoria.nombre categoria))
                        || String.eqb (FilaCategoria.prefijo r)
                             (Texto.upper (Categoria.prefijo categoria)))
                     (categorias bd) = false).
      { destruct (existsb _ _) eqn:E; [|reflexivity].
        apply existsb_exists in E as [f [Hin Hf]].
        apply orb_prop in Hf as [Hf|Hf]; apply String.eqb_eq in Hf.
        - now apply Hnom in Hin.
        - now apply Hpre in Hin. }
      rewrite He. simpl. repeat split. exact Hnom.
Qed.

(** X8.  On ASCII text, that is for a category whose name and prefix are
    ASCII, in a table whose names are: [ServicioCategoria.agregar] either
    refuses the category (name already used up to case, or prefix not
    valid), leaving the store as it was and committing nothing, or it
    appends one active row with the name and the prefix upper-cased.  Its
    own checks cover the UNIQUE constraints of the table: the store's error
    is never answered. *)
Theorem alta_de_categoria (categoria : Categoria.t) (rowid ahora : Z)
    (bd : BaseDatos) :
  Texto.es_ascii (Categoria.nombre categoria) = true ->
  Texto.es_ascii (Categoria.prefijo categoria) = true ->
  Forall (fun f => Texto.es_ascii (FilaCategoria.nombre f) = true)
    (categorias bd) ->
  let r := CategoriaSrv.agregar categoria rowid ahora bd in
  (final r = bd /\ historia r = [] /\ fst (resultado r) = false
   /\ snd (resultado r) <> ErrorDeAlmacen)
  \/ (resultado r = (true, CategoriaCreada (Categoria.nombre categoria))
      /\ fst (CategoriaSrv.validar_prefijo (Categoria.prefijo categoria) bd)
         = true
      /\ (forall f, In f (categorias bd) ->
            FilaCategoria.nombre f <> Texto.upper (Categoria.nombre categoria))
      /\ final r
         = con_categorias
             (fun filas =>
                filas
                  ++ [FilaCategoria.mk rowid
                        (Texto.upper (Categoria.nombre categoria))
                        (Texto.upper (Categoria.prefijo categoria))
                        (Categoria.descripcion categoria) true ahora]) bd).
Proof.
  intros _ _ _. exact (agregar_categoria_casos categoria rowid ahora bd).
Qed.

Lemma alta_de_categoria_witness :
  Texto.es_ascii (Categoria.nombre Muestra.golosinas) = true
  /\ Texto.es_ascii (Categoria.prefijo Muestra.golosinas) = true
  /\ Forall (fun f => Texto.es_ascii (FilaCategoria.nombre f) = true)
       (categorias Ejemplo.tienda)
  /\ categorias
       (final (CategoriaSrv.agregar Muestra.golosinas 2 50 Ejemplo.tienda))
     = [Ejemplo.bebidas;
        FilaCategoria.mk 2 "GOLOSINAS" "GOL" "Chocolates" true 50].
Proof.
  assert (H : Forall (fun f => Texto.es_ascii (FilaCategoria.nombre f) = true)
                (categorias Ejemplo.tienda)) by (repeat constructor).
  split; [reflexivity|]. split; [reflexivity|]. split; [exact H|].
  destruct (alta_de_categoria Muestra.golosinas 2 50 Ejemplo.tienda
              eq_refl eq_refl H) as [(_ & _ & Hno & _)|(_ & _ & _ & Hf)].
  - discriminate Hno.
  - rewrite Hf. reflexivity.
Defined.

Lemma NoDup_map_reemplazo {B : Type} (f : FilaCategoria.t -> B)
    (g : FilaCategoria.t -> FilaCategoria.t) (cid : Z) (nuevo : B)
    (l : list FilaCategoria.t) :
  (forall r, FilaCategoria.id r = cid -> f (g r) = nuevo) ->
  (forall r, FilaCategoria.id r <> cid -> g r = r) ->
  NoDup (map FilaCategoria.id l) ->
  NoDup (map f l) ->
  (forall r, In r l -> FilaCategoria.id r <> cid -> f r <> nuevo) ->
  NoDup (map f (map g l)).
Proof.
  intros Hsi Hno. induction l as [|x l IH]; simpl; intros Hid Hf Hn;
    [constructor|].
  apply NoDup_cons_iff in Hid as [Hxid Hid].
  apply NoDup_cons_iff in Hf as [Hxf Hf].
  assert (IHl : NoDup (map f (map g l))).
  { apply IH; try assumption. intros r Hr. apply Hn. now right. }
  constructor; [|exact IHl].
  intros Hin. apply in_map_iff in Hin as [y' [Hy' Hin]].
  apply in_map_iff in Hin as [y [<- Hy]].
  destruct (Z.eq_dec (FilaCategoria.id x) cid) as [Ex|Ex];
    destruct (Z.eq_dec (FilaCategoria.id y) cid) as [Ey|Ey].
  - apply Hxid. apply in_map_iff. exists y. split; [congruence | assumption].
  - rewrite (Hsi x Ex), (Hno y Ey) in Hy'.
    apply (Hn y); [now right | assumption | assumption].
  - rewrite (Hsi y Ey), (Hno x Ex) in Hy'.
    apply (Hn x); [now left | assumption | now symmetry].
  - rewrite (Hno x Ex), (Hno y Ey) in Hy'.
    apply Hxf. apply in_map_iff. exists y. split; assumption.
Qed.

Lemma categorias_unicas_alta (categoria : Categoria.t) (rowid ahora : Z)
    (bd : BaseDatos) :
  Forall (fun f => FilaCategoria.id f < rowid) (categorias bd) ->
  categorias_unicas bd ->
  categorias_unicas (final (CategoriaSrv.agregar categoria rowid ahora bd)).
Proof.
  intros Hnuevo (Hid & Hnom & Hpre).
  destruct (agregar_categoria_casos categoria rowid ahora bd)
    as [(Hf & _)|(_ & Hv & Hn & Hf)]; rewrite Hf; [now repeat split|].
  destruct (validar_prefijo_casos (Categoria.prefijo categoria) bd)
    as [[Hx _]|(_ & _ & _ & Hp)]; [congruence|].
  unfold categorias_unicas, con_categorias. cbn [categorias].
  rewrite Forall_forall in Hnuevo.
  repeat split; apply NoDup_map_snoc; try assumption.
  intros y Hy. simpl. specialize (Hnuevo y Hy). simpl in Hnuevo. lia.
Qed.

Lemma categorias_unicas_cambio (categoria : Categoria.t) (bd : BaseDatos) :
  categorias_unicas bd ->
  categorias_unicas (final (ServicioCategoria.actualizar categoria bd)).
Proof.
  intros (Hid & Hnom & Hpre).
  assert (Hfin : final (ServicioCategoria.actualizar categoria bd)
                 = final (RepositorioCategoria.actualizar categoria bd)).
  { unfold ServicioCategoria.actualizar. rewrite final_bind.
    now destruct (resultado (RepositorioCategoria.actualizar categoria bd))
      as [[|]|]. }
  rewrite Hfin. unfold RepositorioCategoria.actualizar, transaccion, final.
  destruct (Categoria.id categoria) as [cid|]; simpl; [|now repeat split].
  destruct (existsb _ (categorias bd)); simpl; [|now repeat split].
  destruct (RepositorioCategoria.choca _ _ _ _) eqn:Hch; simpl;
    [now repeat split|].
  unfold RepositorioCategoria.choca in Hch.
  pose proof (existsb_falso _ _ Hch) as Hlibre. cbv beta in Hlibre.
  unfold categorias_unicas, con_categorias. cbn [categorias].
  split; [|split].
  - rewrite map_map_mismo; [assumption|].
    intros r. now destruct (FilaCategoria.id r =? cid).
  - apply (NoDup_map_reemplazo FilaCategoria.nombre _ cid
             (Texto.upper (Categoria.nombre categoria)));
      try assumption.
    + intros r Hr. apply Z.eqb_eq in Hr. now rewrite Hr.
    + intros r Hr. apply Z.eqb_neq in Hr. now rewrite Hr.
    + intros r Hr Hne E. specialize (Hlibre r Hr).
      apply Z.eqb_neq in Hne. rewrite Hne, E, String.eqb_refl in Hlibre.
      discriminate.
  - apply (NoDup_map_reemplazo FilaCategoria.prefijo _ cid
             (Texto.upper (Categoria.prefijo categoria)));
      try assumption.
    + intros r Hr. apply Z.eqb_eq in Hr. now rewrite Hr.
    + intros r Hr. apply Z.eqb_neq in Hr. now rewrite Hr.
    + intros r Hr Hne E. specialize (Hlibre r Hr).
      apply Z.eqb_neq in Hne.
      rewrite Hne, E, String.eqb_refl, orb_true_r in Hlibre.
      discriminate.
Qed.

Lemma final_baja_categoria (cid : Z) (bd : BaseDatos) :
  final (CategoriaSrv.eliminar cid bd)
  = con_categorias
      (map (fun r =>
              if FilaCategoria.id r =? cid then
                FilaCategoria.mk (FilaCategoria.id r) (FilaCategoria.nombre r)
                  (FilaCategoria.prefijo r) (FilaCategoria.descripcion r)
                  false (FilaCategoria.creado_en r)
              else r)) bd.
Proof.
  unfold CategoriaSrv.eliminar, CategoriaRepo.eliminar, bind, transaccion,
    final. now destruct (existsb _ _).
Qed.

Lemma categorias_unicas_baja (cid : Z) (bd : BaseDatos) :
  categorias_unicas bd ->
  categorias_unicas (final (CategoriaSrv.eliminar cid bd)).
Proof.
  intros (Hid & Hnom & Hpre). rewrite final_baja_categoria.
  unfold categorias_unicas, con_categorias. cbn [categorias].
  repeat split; (rewrite map_map_mismo; [assumption|]);
    intros r; now destruct (FilaCategoria.id r =? cid).
Qed.

(** X9.  Names and prefixes of categories stay pairwise different along any
    sequence of creations, edits and logical deletions in which new rows get
    new rowids: the checks of [agregar] and, for the unvalidated
    [actualizar], the UNIQUE constraints of the table see to it. *)
Theorem categorias_siempre_unicas (ops : list OperacionCategoria)
    (bd : BaseDatos) :
  rowids_nuevos ops bd ->
  categorias_unicas bd ->
  categorias_unicas (final (para_cada aplicar_categoria ops bd)).
Proof.
  revert bd. induction ops as [|op ops IH]; intros bd Hrow Hbd;
    [exact Hbd|].
  destruct Hrow as [Hop Hrow].
  change (para_cada aplicar_categoria (op :: ops))
    with (bind (aplicar_categoria op)
            (fun _ => para_cada aplicar_categoria ops)).
  rewrite final_bind. apply IH; [exact Hrow|].
  destruct op as [c rowid ahora|c|cid]; simpl; rewrite final_bind; simpl.
  - now apply categorias_unicas_alta.
  - now apply categorias_unicas_cambio.
  - now apply categorias_unicas_baja.
Qed.

Lemma categorias_siempre_unicas_witness :
  rowids_nuevos
    [AltaCategoria Muestra.golosinas 2 50;
     CambioCategoria Ejemplo.almacen_editado; BajaCategoria 2]
    Ejemplo.tienda
  /\ categorias_unicas Ejemplo.tienda
  /\ categorias_unicas
       (final (para_cada aplicar_categoria
                 [AltaCategoria Muestra.golosinas 2 50;
                  CambioCategoria Ejemplo.almacen_editado; BajaCategoria 2]
                 Ejemplo.tienda)).
Proof.
  assert (H1 : rowids_nuevos
                 [AltaCategoria Muestra.golosinas 2 50;
                  CambioCategoria Ejemplo.almacen_editado; BajaCategoria 2]
                 Ejemplo.tienda).
  { simpl. repeat split. repeat constructor. }
  assert (H2 : categorias_unicas Ejemplo.tienda).
  { repeat split; simpl; (constructor; [intros []|constructor]). }
  split; [exact H1|]. split; [exact H2|].
  apply (categorias_siempre_unicas
           [AltaCategoria Muestra.golosinas 2 50;
            CambioCategoria Ejemplo.almacen_editado; BajaCategoria 2]
           Ejemplo.tienda H1 H2).
Defined.

Lemma find_map_imagen {A B : Type} (p : A -> bool) (g : A -> A)
    (f : A -> B) (l : list A) :
  (forall x, p (g x) = p x) ->
  option_map f (find p (map g l)) = option_map (fun x => f (g x)) (find p l).
Proof.
  intros Hg. rewrite find_map_conserva by assumption.
  now destruct (find p l).
Qed.

(** X10.  Deleting a category is logical.  It touches no product, so every
    search and every product lookup answers as before; the category leaves
    the list of active categories but is still found by its id, now
    inactive; SKUs are still suggested from its prefix; and its prefix stays
    taken: [validar_prefijo] answers as before the deletion. *)
Theorem baja_logica (categoria_id : Z) (bd : BaseDatos) :
  let bd' := final (CategoriaSrv.eliminar categoria_id bd) in
  productos bd' = productos bd
  /\ (forall termino,
        ServicioProducto.buscar termino bd'
        = ServicioProducto.buscar termino bd)
  /\ (forall c, In c (CategoriaSrv.obtener_todas bd') ->
        Categoria.id c <> Some categoria_id)
  /\ RepositorioCategoria.obtener_por_id categoria_id bd'
     = option_map desactivada
         (RepositorioCategoria.obtener_por_id categoria_id bd)
  /\ (forall j,
        ServicioProducto.generar_sku_sugerido j bd'
        = ServicioProducto.generar_sku_sugerido j bd)
  /\ (forall prefijo,
        CategoriaSrv.validar_prefijo prefijo bd'
        = CategoriaSrv.validar_prefijo prefijo bd).
Proof.
  cbv zeta. rewrite final_baja_categoria.
  set (g := fun r =>
              if FilaCategoria.id r =? categoria_id then
                FilaCategoria.mk (FilaCategoria.id r) (FilaCategoria.nombre r)
                  (FilaCategoria.prefijo r) (FilaCategoria.descripcion r)
                  false (FilaCategoria.creado_en r)
              else r).
  assert (Hid : forall r j,
            (FilaCategoria.id (g r) =? j) = (FilaCategoria.id r =? j)).
  { intros r j. unfold g. now destruct (FilaCategoria.id r =? categoria_id). }
  assert (Hpre : forall r,
            FilaCategoria.prefijo (g r) = FilaCategoria.prefijo r).
  { intros r. unfold g. now destruct (FilaCategoria.id r =? categoria_id). }
  split; [reflexivity|]. split; [reflexivity|].
  split; [|split; [|split]].
  - intros c Hc E.
    unfold CategoriaSrv.obtener_todas, CategoriaRepo.obtener_todas,
      con_categorias in Hc. cbn [categorias] in Hc.
    apply in_map_iff in Hc as [f [<- Hf]].
    apply (Permutation_in f (Permutation_sym (ordenar_perm _ _))) in Hf.
    apply filter_In in Hf as [Hf Hact].
    apply in_map_iff in Hf as [r [<- Hr]].
    simpl in E. injection E as E. rewrite <- Z.eqb_eq, Hid in E.
    unfold g in Hact. rewrite E in Hact. discriminate.
  - unfold RepositorioCategoria.obtener_por_id, con_categorias.
    cbn [categorias].
    rewrite find_map_imagen by (intros x; apply Hid).
    destruct (find _ (categorias bd)) as [r|] eqn:Hf; [|reflexivity].
    apply find_some in Hf as [_ Hf]. simpl. unfold g. now rewrite Hf.
  - intros j. unfold ServicioProducto.generar_sku_sugerido,
      ServicioCategoria.obtener_por_id, RepositorioCategoria.obtener_por_id,
      con_categorias. cbn [categorias].
    rewrite find_map_imagen by (intros x; apply Hid).
    destruct (find _ (categorias bd)) as [r|]; [|reflexivity].
    simpl. unfold RepositorioProducto.obtener_siguiente_numero_sku.
    cbn [productos]. now rewrite Hpre.
  - intros prefijo. unfold CategoriaSrv.validar_prefijo.
    destruct prefijo as [|c p]; [reflexivity|].
    destruct (5 <? _)%nat; [reflexivity|].
    destruct (isalpha _); [|reflexivity]. simpl.
    unfold CategoriaRepo.obtener_por_prefijo, con_categorias.
    cbn [categorias].
    rewrite find_map_imagen by (intros x; now rewrite Hpre).
    now destruct (find _ (categorias bd)).
Qed.

(** X11.  A category that [ServicioCategoria.agregar] created under a new
    rowid gets its SKUs suggested as the specification describes: the
    prefix upper-cased, then one more than the number of products whose SKU
    starts with it, on three digits. *)
Theorem sku_sugerido_tras_alta (categoria : Categoria.t) (rowid ahora : Z)
    (bd : BaseDatos) :
  fst (resultado (CategoriaSrv.agregar categoria rowid ahora bd)) = true ->
  (forall f, In f (categorias bd) -> FilaCategoria.id f <> rowid) ->
  ServicioProducto.generar_sku_sugerido rowid
    (final (CategoriaSrv.agregar categoria rowid ahora bd))
  = sku_especificado (Texto.upper (Categoria.prefijo categoria)) bd.
Proof.
  intros Hok Hnuevo.
  destruct (agregar_categoria_casos categoria rowid ahora bd)
    as [(_ & _ & Hf & _)|(_ & Hv & _ & Hf)]; [congruence|].
  destruct (validar_prefijo_casos (Categoria.prefijo categoria) bd)
    as [[Hx _]|(_ & _ & Hlet & _)]; [congruence|].
  rewrite Hf.
  unfold ServicioProducto.generar_sku_sugerido,
    ServicioCategoria.obtener_por_id, RepositorioCategoria.obtener_por_id,
    con_categorias. cbn [categorias].
  rewrite find_app_ninguno.
  - cbn [FilaCategoria.id]. rewrite Z.eqb_refl. simpl.
    unfold sku_especificado, productos_con_prefijo,
      RepositorioProducto.obtener_siguiente_numero_sku. cbn [productos].
    rewrite (filter_ext _
               (fun r => Texto.empieza_con
                           (Texto.upper (Categoria.prefijo categoria))
                           (FilaProducto.sku r))); [reflexivity|].
    intros r. apply like_prefijo. now apply letras_sin_comodines.
  - intros y Hy. apply Z.eqb_neq. now apply Hnuevo.
Qed.

Lemma sku_sugerido_tras_alta_witness :
  fst (resultado (CategoriaSrv.agregar Muestra.golosinas 2 50 Ejemplo.tienda))
  = true
  /\ (forall f, In f (categorias Ejemplo.tienda) -> FilaCategoria.id f <> 2)
  /\ ServicioProducto.generar_sku_sugerido 2
       (final (CategoriaSrv.agregar Muestra.golosinas 2 50 Ejemplo.tienda))
     = "GOL001".
Proof.
  assert (H : forall f, In f (categorias Ejemplo.tienda) ->
                        FilaCategoria.id f <> 2).
  { intros f [<-|[]]. simpl. lia. }
  split; [reflexivity|]. split; [exact H|].
  apply (sku_sugerido_tras_alta Muestra.golosinas 2 50 Ejemplo.tienda
           eq_refl H).
Defined.

(** ** Search, for every term *)

Lemma algun_sufijo_aqui (f : string -> bool) (s : string) :
  f s = true -> Texto.algun_sufijo f s = true.
Proof. intros H. destruct s; simpl; now rewrite H. Qed.

Lemma igual_ci_refl (c : ascii) : Texto.igual_ci c c = true.
Proof. unfold Texto.igual_ci. apply Ascii.eqb_refl. Qed.

(** Read as a pattern and closed by [%], a text matches itself, whatever
    wildcards it holds. *)
Lemma like_si_mismo (s : string) : Texto.like (s ++ "%")%string s = true.
Proof.
  induction s as [|c s IH]; [reflexivity|].
  change (String c s ++ "%")%string with (String c (s ++ "%")%string).
  cbn [Texto.like].
  destruct (Texto.es_porcentaje c).
  - cbn [Texto.algun_sufijo]. apply orb_true_iff. right.
    now apply algun_sufijo_aqui.
  - now rewrite igual_ci_refl, orb_true_r, IH.
Qed.

Lemma lower_patron (t : string) :
  Texto.lower (RepositorioProducto.patron t)
  = String "%" (Texto.lower t ++ "%")%string.
Proof.
  unfold RepositorioProducto.patron.
  change (Texto.lower (String "%" t ++ "%"))
    with (String "%" (Texto.lower (t ++ "%"))).
  now rewrite lower_append.
Qed.

Lemma like_patron_igual (t s : string) :
  Texto.lower s = Texto.lower t ->
  Texto.like (Texto.lower (RepositorioProducto.patron t)) (Texto.lower s)
  = true.
Proof.
  intros E. rewrite lower_patron, E.
  change (Texto.like (String "%" (Texto.lower t ++ "%")) (Texto.lower t))
    with (Texto.algun_sufijo (Texto.like (Texto.lower t ++ "%"))
            (Texto.lower t)).
  apply algun_sufijo_aqui, like_si_mismo.
Qed.

Lemma rango_cero (t : string) (r : FilaProducto.t) :
  RepositorioProducto.rango t r <= 0 ->
  Texto.igual_sin_caso t (FilaProducto.sku r) = true.
Proof.
  unfold RepositorioProducto.rango, Texto.igual_sin_caso.
  rewrite lower_idem.
  destruct (String.eqb _ _); [reflexivity|].
  destruct (Texto.like _ _); lia.
Qed.

(** X12.  For every ASCII term of two characters or more, wildcards
    included: if some stored product has a SKU equal to the term up to case,
    the search is not empty and its first result has such a SKU. *)
Theorem sku_exacto_primero (termino : string) (bd : BaseDatos)
    (r : FilaProducto.t) :
  Texto.es_ascii termino = true ->
  (2 <= String.length termino)%nat ->
  In r (productos bd) ->
  Texto.igual_sin_caso termino (FilaProducto.sku r) = true ->
  exists p resto,
    ServicioProducto.buscar termino bd = p :: resto
    /\ Texto.igual_sin_caso termino (Producto.sku p) = true.
Proof.
  intros _ Hlen Hr Hsku. unfold ServicioProducto.buscar.
  destruct (String.length termino <? 2)%nat eqn:Hl;
    [apply Nat.ltb_lt in Hl; lia|].
  unfold Texto.igual_sin_caso in Hsku. apply String.eqb_eq in Hsku.
  assert (Hco : RepositorioProducto.coincide termino r = true).
  { unfold RepositorioProducto.coincide.
    rewrite (like_patron_igual termino (FilaProducto.sku r) Hsku).
    now rewrite orb_true_r. }
  assert (Hra : RepositorioProducto.rango termino r = 0).
  { unfold RepositorioProducto.rango.
    now rewrite lower_idem, Hsku, String.eqb_refl. }
  unfold RepositorioProducto.buscar_para_venta,
    RepositorioProducto.filas_para_venta.
  pose proof (ordenar_perm (RepositorioProducto.orden termino)
                (filter (RepositorioProducto.coincide termino)
                   (productos bd))) as Hperm.
  pose proof (ordenar_ordenada (RepositorioProducto.orden termino)
                (orden_total termino) (orden_trans termino)
                (filter (RepositorioProducto.coincide termino)
                   (productos bd))) as Hord.
  assert (Hin : In r (ordenar (RepositorioProducto.orden termino)
                        (filter (RepositorioProducto.coincide termino)
                           (productos bd)))).
  { apply (Permutation_in r Hperm). apply filter_In. now split. }
  destruct (ordenar _ _) as [|x todas]; [destruct Hin|].
  exists (RepositorioProducto.producto_de_busqueda x),
    (map RepositorioProducto.producto_de_busqueda (firstn 9 todas)).
  split; [reflexivity|].
  apply rango_cero.
  destruct Hin as [->|Hin]; [lia|].
  inversion Hord as [|? ? _ Hf]; subst.
  rewrite Forall_forall in Hf. specialize (Hf r Hin).
  apply orden_spec in Hf. lia.
Qed.

Lemma sku_exacto_primero_witness :
  Texto.es_ascii "beb002" = true
  /\ (2 <= String.length "beb002")%nat
  /\ In Ejemplo.sprite (productos Ejemplo.tienda)
  /\ Texto.igual_sin_caso "beb002" (FilaProducto.sku Ejemplo.sprite) = true
  /\ exists p resto,
       ServicioProducto.buscar "beb002" Ejemplo.tienda = p :: resto
       /\ Texto.igual_sin_caso "beb002" (Producto.sku p) = true.
Proof.
  assert (H1 : (2 <= String.length "beb002")%nat) by (simpl; lia).
  assert (H2 : In Ejemplo.sprite (productos Ejemplo.tienda))
    by (right; now left).
  split; [reflexivity|].
  split; [exact H1|]. split; [exact H2|]. split; [reflexivity|].
  apply (sku_exacto_primero "beb002" Ejemplo.tienda Ejemplo.sprite eq_refl
           H1 H2).
  reflexivity.
Defined.

Lemma insertar_ext {A : Type} (le le' : A -> A -> bool) (x : A)
    (l : list A) :
  (forall a b, le a b = le' a b) -> insertar le x l = insertar le' x l.
Proof.
  intros H. induction l as [|y l IH]; simpl; [reflexivity|].
  now rewrite H, IH.
Qed.

Lemma ordenar_ext {A : Type} (le le' : A -> A -> bool) (l : list A) :
  (forall a b, le a b = le' a b) -> ordenar le l = ordenar le' l.
Proof.
  intros H. unfold ordenar.
  induction l as [|x l IH]; simpl; [reflexivity|].
  rewrite IH. now apply insertar_ext.
Qed.

(** X13.  The search does not look at the case of the term: two terms with
    the same letters up to case find the same products in the same
    order. *)
Theorem buscar_sin_caso (t t' : string) (bd : BaseDatos) :
  Texto.lower t = Texto.lower t' ->
  ServicioProducto.buscar t bd = ServicioProducto.buscar t' bd.
Proof.
  intros E. unfold ServicioProducto.buscar.
  assert (Hlen : String.length t = String.length t').
  { rewrite <- (length_lower t), <- (length_lower t'). now rewrite E. }
  rewrite Hlen. destruct (String.length t' <? 2)%nat; [reflexivity|].
  assert (Hpat : Texto.lower (RepositorioProducto.patron t)
                 = Texto.lower (RepositorioProducto.patron t')).
  { now rewrite !lower_patron, E. }
  assert (Hco : forall r, RepositorioProducto.coincide t r
                          = RepositorioProducto.coincide t' r).
  { intros r. unfold RepositorioProducto.coincide. now rewrite Hpat. }
  assert (Hra : forall r, RepositorioProducto.rango t r
                          = RepositorioProducto.rango t' r).
  { intros r. unfold RepositorioProducto.rango. now rewrite Hpat, E. }
  unfold RepositorioProducto.buscar_para_venta,
    RepositorioProducto.filas_para_venta.
  rewrite (filter_ext _ _ Hco).
  rewrite (ordenar_ext (RepositorioProducto.orden t)
             (RepositorioProducto.orden t')); [reflexivity|].
  intros a b. unfold RepositorioProducto.orden. now rewrite !Hra.
Qed.

Lemma buscar_sin_caso_witness :
  Texto.lower "COLA" = Texto.lower "cola"
  /\ ServicioProducto.buscar "COLA" Ejemplo.tienda
     = ServicioProducto.buscar "cola" Ejemplo.tienda.
Proof.
  split; [reflexivity|].
  apply (buscar_sin_caso "COLA" "cola" Ejemplo.tienda). reflexivity.
Defined.

(** ** Sales of carts with one line per product *)





(** What an accepted sale did: the validation found no short line, the
    sale was recorded and then the decrements ran. *)
Lemma procesar_venta_aceptada (items : list ItemCarrito.t)
    (metodo_pago : string) (ahora : Z) (bd : BaseDatos) :
  fst (fst (resultado (ServicioPOS.procesar_venta items metodo_pago ahora bd)))
  = true ->
  items <> []
  /\ ServicioPOS.primer_sin_stock items bd = None
  /\ final (ServicioPOS.procesar_venta items metodo_pago ahora bd)
     = final (para_cada
                (fun item =>
                   RepositorioProducto.actualizar_stock
                     (ItemCarrito.producto_id item)
                     (ItemCarrito.cantidad item) ahora)
                items
                (final (RepositorioVenta.registrar_venta items
                          (py_sum (subtotales items)) metodo_pago ahora bd))).
Proof.
  intros Hok. destruct items as [|i items]; [discriminate Hok|].
  split; [discriminate|].
  unfold ServicioPOS.procesar_venta, bind, leer in *.
  destruct (ServicioPOS.primer_sin_stock (i :: items) bd) eqn:Hval;
    [discriminate Hok|].
  split; [reflexivity|].
  unfold final.
  destruct (RepositorioVenta.registrar_venta (i :: items) _ metodo_pago
              ahora bd) as [[v b1] h1].
  cbn [fst snd].
  now destruct (para_cada _ (i :: items) b1) as [[u b2] h2].
Qed.






(** ** The cart *)

Lemma sumar_no_esta (pid cantidad stock : Z) (items : list ItemCarrito.t) :
  CarritoWidget.sumar pid cantidad stock items = CarritoWidget.NoEsta ->
  forall item, In item items -> ItemCarrito.producto_id item <> pid.
Proof.
  induction items as [|i items IH]; simpl; intros H item Hin;
    [destruct Hin|].
  destruct (ItemCarrito.producto_id i =? pid) eqn:E.
  - destruct (stock <? _); discriminate H.
  - destruct (CarritoWidget.sumar pid cantidad stock items) eqn:Es;
      try discriminate H.
    destruct Hin as [<-|Hin]; [now apply Z.eqb_neq | now apply IH].
Qed.

Lemma sumar_sumada (pid cantidad stock : Z) (items : list ItemCarrito.t) :
  forall items' linea,
    CarritoWidget.sumar pid cantidad stock items
    = CarritoWidget.Sumada items' linea ->
    map ItemCarrito.producto_id items' = map ItemCarrito.producto_id items
    /\ In linea items'
    /\ ItemCarrito.producto_id linea = pid
    /\ ItemCarrito.cantidad linea <= stock
    /\ (Forall linea_coherente items -> Forall linea_coherente items')
    /\ (0 < cantidad ->
        Forall (fun it => 0 < ItemCarrito.cantidad it) items ->
        Forall (fun it => 0 < ItemCarrito.cantidad it) items')
    /\ (Forall linea_coherente items ->
        (fold_right Qplus 0 (subtotales items')
         == fold_right Qplus 0 (subtotales items)
            + inject_Z cantidad * ItemCarrito.precio_unitario linea)%Q).
Proof.
  induction items as [|i items IH]; simpl; intros items' linea H;
    [discriminate H|].
  destruct (ItemCarrito.producto_id i =? pid) eqn:E.
  - destruct (stock <? ItemCarrito.cantidad i + cantidad) eqn:Es;
      [discriminate H|].
    injection H as <- <-. apply Z.eqb_eq in E. apply Z.ltb_ge in Es.
    split; [reflexivity|]. split; [now left|]. split; [exact E|].
    split; [exact Es|]. split; [|split].
    + intros Hc. inversion Hc; subst. constructor; [reflexivity|assumption].
    + intros Hpos Hc. inversion Hc; subst.
      constructor; [simpl; lia | assumption].
    + intros Hc. inversion Hc as [|? ? Hi _]; subst. simpl.
      unfold linea_coherente in Hi. rewrite Hi, inject_Z_plus. ring.
  - destruct (CarritoWidget.sumar pid cantidad stock items)
      as [| |r' l'] eqn:Es; try discriminate H.
    injection H as <- <-.
    destruct (IH r' l' eq_refl) as (Hm & Hin & Hp & Hs & Hc & Hpos & Hsum).
    split; [simpl; now rewrite Hm|]. split; [now right|].
    split; [exact Hp|]. split; [exact Hs|]. split; [|split].
    + intros H. inversion H; subst. constructor; [assumption | now apply Hc].
    + intros H0 H. inversion H; subst.
      constructor; [assumption | now apply Hpos].
    + intros H. inversion H; subst. simpl. rewrite Hsum by assumption.
      ring.
Qed.

(** X16.  [CarritoWidget.agregar] keeps the cart with one line per product
    and every subtotal equal to quantity times unit price; a refusal leaves
    the cart as it was; after an acceptance the line of the product holds no
    more than the stock the product showed; and adding positive quantities
    keeps every line positive. *)
Theorem carrito_agregar (items items' : list ItemCarrito.t)
    (producto : Producto.t) (cantidad : Z) (ok : bool)
    (msg : CarritoWidget.Mensaje) :
  carrito_coherente items ->
  CarritoWidget.agregar items producto cantidad = Some (items', (ok, msg)) ->
  carrito_coherente items'
  /\ (ok = false -> items' = items)
  /\ (ok = true ->
      exists linea,
        In linea items'
        /\ Producto.id producto = Some (ItemCarrito.producto_id linea)
        /\ ItemCarrito.cantidad linea <= Producto.cantidad producto)
  /\ (0 < cantidad ->
      Forall (fun it => 0 < ItemCarrito.cantidad it) items ->
      Forall (fun it => 0 < ItemCarrito.cantidad it) items').
Proof.
  intros [Hnd Hco] H. unfold CarritoWidget.agregar in H.
  destruct (Producto.id producto) as [pid|] eqn:Hid; [|discriminate H].
  destruct (CarritoWidget.sumar pid cantidad (Producto.cantidad producto)
              items) as [| |r' l'] eqn:Es.
  - pose proof (sumar_no_esta _ _ _ _ Es) as Hno.
    destruct (Producto.cantidad producto <? cantidad) eqn:Eq;
      injection H as <- <- <-.
    + split; [now split|]. split; [reflexivity|].
      split; [discriminate|]. intros _ Hall. exact Hall.
    + apply Z.ltb_ge in Eq. split; [|split; [|split]].
      * split.
        -- apply NoDup_map_snoc; [assumption|]. intros y Hy. simpl.
           now apply Hno.
        -- apply Forall_app. split; [assumption|].
           constructor; [reflexivity | constructor].
      * discriminate.
      * intros _. eexists. split; [apply in_or_app; right; now left|].
        split; [reflexivity | exact Eq].
      * intros Hpos Hall. apply Forall_app. split; [assumption|].
        constructor; [exact Hpos | constructor].
  - injection H as <- <- <-.
    split; [now split|]. split; [reflexivity|].
    split; [discriminate|]. intros _ Hall. exact Hall.
  - injection H as <- <- <-.
    destruct (sumar_sumada _ _ _ _ _ _ Es)
      as (Hm & Hin & Hp & Hs & Hc & Hpos & _).
    split; [split; [now rewrite Hm | now apply Hc]|].
    split; [discriminate|]. split; [|exact Hpos].
    intros _. exists l'. split; [assumption|]. split; [now rewrite Hp|].
    exact Hs.
Qed.

Lemma carrito_agregar_witness :
  carrito_coherente Muestra.dos_cocas_y_sprite
  /\ CarritoWidget.agregar Muestra.dos_cocas_y_sprite Muestra.coca_buscada 3
     = Some ([ItemCarrito.mk 1 "BEB001" "Coca-Cola 600ml" 5 25
                (inject_Z 5 * 25);
              ItemCarrito.mk 2 "BEB002" "Sprite 600ml" 4 25 100],
             (true, CarritoWidget.CantidadActualizada "Coca-Cola 600ml" 5))
  /\ carrito_coherente
       [ItemCarrito.mk 1 "BEB001" "Coca-Cola 600ml" 5 25 (inject_Z 5 * 25);
        ItemCarrito.mk 2 "BEB002" "Sprite 600ml" 4 25 100].
Proof.
  assert (H : carrito_coherente Muestra.dos_cocas_y_sprite).
  { split.
    - simpl. constructor; [intros [E|[]]; discriminate E|].
      constructor; [intros []|constructor].
    - repeat constructor. }
  split; [exact H|]. split; [reflexivity|].
  apply (carrito_agregar Muestra.dos_cocas_y_sprite _ Muestra.coca_buscada 3
           true (CarritoWidget.CantidadActualizada "Coca-Cola 600ml" 5) H
           eq_refl).
Defined.

(** X17.  An accepted [agregar] raises the total of a coherent cart by the
    quantity added times the unit price of the product's line (amounts as
    exact rationals). *)
Theorem carrito_total (items items' : list ItemCarrito.t)
    (producto : Producto.t) (cantidad : Z) (msg : CarritoWidget.Mensaje) :
  carrito_coherente items ->
  CarritoWidget.agregar items producto cantidad = Some (items', (true, msg)) ->
  exists linea,
    In linea items'
    /\ Producto.id producto = Some (ItemCarrito.producto_id linea)
    /\ (CarritoWidget.obtener_total items'
        == CarritoWidget.obtener_total items
           + inject_Z cantidad * ItemCarrito.precio_unitario linea)%Q.
Proof.
  intros [Hnd Hco] H. unfold CarritoWidget.agregar in H.
  unfold CarritoWidget.obtener_total.
  destruct (Producto.id producto) as [pid|] eqn:Hid; [|discriminate H].
  destruct (CarritoWidget.sumar pid cantidad (Producto.cantidad producto)
              items) as [| |r' l'] eqn:Es.
  - destruct (Producto.cantidad producto <? cantidad) eqn:Eq;
      [discriminate H|].
    injection H as <- <-.
    eexists. split; [apply in_or_app; right; now left|].
    split; [reflexivity|]. rewrite !py_sum_total. simpl. unfold subtotales.
    rewrite map_app, fold_right_app. simpl.
    generalize (inject_Z cantidad * Producto.precio producto)%Q.
    intros x. induction (map ItemCarrito.subtotal items) as [|y l IH];
      simpl.
    + ring.
    + rewrite IH. ring.
  - discriminate H.
  - injection H as <- <-.
    destruct (sumar_sumada _ _ _ _ _ _ Es)
      as (_ & Hin & Hp & _ & _ & _ & Hsum).
    exists l'. split; [assumption|]. split; [now rewrite Hp|].
    rewrite !py_sum_total. now apply Hsum.
Qed.

Lemma carrito_total_witness :
  carrito_coherente Muestra.dos_cocas_y_sprite
  /\ CarritoWidget.agregar Muestra.dos_cocas_y_sprite Muestra.coca_buscada 3
     = Some ([ItemCarrito.mk 1 "BEB001" "Coca-Cola 600ml" 5 25
                (inject_Z 5 * 25);
              ItemCarrito.mk 2 "BEB002" "Sprite 600ml" 4 25 100],
             (true, CarritoWidget.CantidadActualizada "Coca-Cola 600ml" 5))
  /\ exists linea,
       In linea
         [ItemCarrito.mk 1 "BEB001" "Coca-Cola 600ml" 5 25 (inject_Z 5 * 25);
          ItemCarrito.mk 2 "BEB002" "Sprite 600ml" 4 25 100]
       /\ Producto.id Muestra.coca_buscada
          = Some (ItemCarrito.producto_id linea)
       /\ (CarritoWidget.obtener_total
             [ItemCarrito.mk 1 "BEB001" "Coca-Cola 600ml" 5 25
                (inject_Z 5 * 25);
              ItemCarrito.mk 2 "BEB002" "Sprite 600ml" 4 25 100]
           == CarritoWidget.obtener_total Muestra.dos_cocas_y_sprite
              + inject_Z 3 * ItemCarrito.precio_unitario linea)%Q.
Proof.
  assert (H : carrito_coherente Muestra.dos_cocas_y_sprite).
  { split.
    - simpl. constructor; [intros [E|[]]; discriminate E|].
      constructor; [intros []|constructor].
    - repeat constructor. }
  split; [exact H|]. split; [reflexivity|].
  apply (carrito_total Muestra.dos_cocas_y_sprite _ Muestra.coca_buscada 3
           (CarritoWidget.CantidadActualizada "Coca-Cola 600ml" 5) H
           eq_refl).
Defined.

(** ** The ledger *)

Local Open Scope Q_scope.

Lemma total_ventas_del_dia_app (dia : Z) (l l' : list FilaVenta.t) :
  total_ventas_del_dia dia (l ++ l')
  == total_ventas_del_dia dia l + total_ventas_del_dia dia l'.
Proof.
  induction l as [|v l IH]; simpl; [ring|].
  destruct (DATE (FilaVenta.fecha v) =? dia)%Z; rewrite IH; ring.
Qed.



Lemma saldo_tras_venta (dia : Z) (items : list ItemCarrito.t) (total : Q)
    (metodo_pago : string) (ahora : Z) (bd : BaseDatos) :
  saldo_disponible dia
    (final (RepositorioVenta.registrar_venta items total metodo_pago ahora bd))
  == saldo_disponible dia bd
     + (if (DATE ahora =? dia)%Z then total else 0).
Proof.
  unfold saldo_disponible, RepositorioVenta.registrar_venta, transaccion,
    final. cbn [fst snd ventas movimientos_caja].
  rewrite total_ventas_del_dia_app. simpl.
  destruct (DATE ahora =? dia)%Z; ring.
Qed.

Lemma saldo_mismo_libro (dia : Z) (bd bd' : BaseDatos) :
  ventas bd' = ventas bd -> movimientos_caja bd' = movimientos_caja bd ->
  saldo_disponible dia bd' = saldo_disponible dia bd.
Proof. intros Hv Hm. unfold saldo_disponible. now rewrite Hv, Hm. Qed.

Lemma descontar_marco (ahora : Z) (items : list ItemCarrito.t)
    (bd : BaseDatos) :
  let bd' :=
    final (para_cada
             (fun item =>
                RepositorioProducto.actualizar_stock
                  (ItemCarrito.producto_id item)
                  (ItemCarrito.cantidad item) ahora) items bd) in
  ventas bd' = ventas bd /\ movimientos_caja bd' = movimientos_caja bd.
Proof.
  revert bd. induction items as [|i items IH]; intros bd; cbv zeta;
    [split; reflexivity|].
  cbn [para_cada]. rewrite final_bind.
  destruct (IH (final (RepositorioProducto.actualizar_stock
                         (ItemCarrito.producto_id i)
                         (ItemCarrito.cantidad i) ahora bd)))
    as [Hv Hm].
  rewrite Hv, Hm. split; reflexivity.
Qed.

(** With one clock, [DosRelojes.registrar_retiro] is the method of
    [ServicioPOS]. *)
Lemma registrar_retiro_un_reloj (monto : Q) (concepto : string) (ahora : Z) :
  DosRelojes.registrar_retiro monto concepto ahora ahora
  = ServicioPOS.registrar_retiro monto concepto ahora.
Proof. reflexivity. Qed.




(** When the two dates differ, the withdrawal is stamped on another day
    than the one whose balance was checked: the balance that was checked
    stays as it was, and the same amount passes the check again. *)
Example retiro_en_otra_fecha :
  let hoy := 3000%Z in
  let ahora := (3000 + 86400)%Z in
  let r := DosRelojes.registrar_retiro 70 "cierre" hoy ahora
             Ejemplo.con_retiro_de_30 in
  fst (resultado r) = true
  /\ ServicioPOS.efectivo_disponible hoy Ejemplo.con_retiro_de_30 == 70
  /\ ServicioPOS.efectivo_disponible hoy (final r) == 70
  /\ fst (resultado
            (DosRelojes.registrar_retiro 70 "cierre" hoy ahora (final r)))
     = true.
Proof. cbv zeta. repeat split. Qed.

(** X19.  A sale that [ServicioPOS.procesar_venta] accepts raises the
    balance of the day it is stamped with by the sum of the subtotals of the
    cart, and leaves the balance of every other day as it was: the balance
    read at [lectura] shows the sale exactly when [lectura] falls on the
    day of the stamp (amounts as exact rationals). *)
Theorem venta_suma_al_saldo (items : list ItemCarrito.t)
    (metodo_pago : string) (ahora lectura : Z) (bd : BaseDatos) :
  fst (fst (resultado (ServicioPOS.procesar_venta items metodo_pago ahora bd)))
  = true ->
  ServicioPOS.efectivo_disponible lectura
    (final (ServicioPOS.procesar_venta items metodo_pago ahora bd))
  == ServicioPOS.efectivo_disponible lectura bd
     + (if (DATE ahora =? DATE lectura)%Z then py_sum (subtotales items)
        else 0).
Proof.
  intros Hok.
  destruct (procesar_venta_aceptada items metodo_pago ahora bd Hok)
    as (_ & _ & Hfin).
  rewrite Hfin, !efectivo_disponible_saldo.
  set (bd1 := final (RepositorioVenta.registrar_venta items _ _ _ bd)).
  destruct (descontar_marco ahora items bd1) as [Hv Hm].
  rewrite (saldo_mismo_libro _ _ _ Hv Hm). unfold bd1.
  now rewrite saldo_tras_venta.
Qed.

Lemma venta_suma_al_saldo_witness :
  fst (fst (resultado
              (ServicioPOS.procesar_venta Muestra.dos_cocas_y_sprite
                 "efectivo" 3000 Ejemplo.con_retiro_de_30))) = true
  /\ ServicioPOS.efectivo_disponible 3600
       (final (ServicioPOS.procesar_venta Muestra.dos_cocas_y_sprite
                 "efectivo" 3000 Ejemplo.con_retiro_de_30))
     == ServicioPOS.efectivo_disponible 3600 Ejemplo.con_retiro_de_30
        + (if (DATE 3000 =? DATE 3600)%Z
           then py_sum (subtotales Muestra.dos_cocas_y_sprite) else 0).
Proof.
  split; [reflexivity|].
  apply (venta_suma_al_saldo Muestra.dos_cocas_y_sprite "efectivo" 3000 3600
           Ejemplo.con_retiro_de_30 eq_refl).
Defined.

Local Close Scope Q_scope.

(** ** The lists of the day *)

Lemma mas_reciente_venta_total (v w : FilaVenta.t) :
  RepositorioVenta.mas_reciente v w = true
  \/ RepositorioVenta.mas_reciente w v = true.
Proof. unfold RepositorioVenta.mas_reciente. rewrite !Z.leb_le. lia. Qed.

Lemma mas_reciente_venta_trans (u v w : FilaVenta.t) :
  RepositorioVenta.mas_reciente u v = true ->
  RepositorioVenta.mas_reciente v w = true ->
  RepositorioVenta.mas_reciente u w = true.
Proof. unfold RepositorioVenta.mas_reciente. rewrite !Z.leb_le. lia. Qed.

Lemma mas_reciente_retiro_total (m n : FilaMovimiento.t) :
  VentaRepo.mas_reciente m n = true \/ VentaRepo.mas_reciente n m = true.
Proof. unfold VentaRepo.mas_reciente. rewrite !Z.leb_le. lia. Qed.

Lemma mas_reciente_retiro_trans (l m n : FilaMovimiento.t) :
  VentaRepo.mas_reciente l m = true -> VentaRepo.mas_reciente m n = true ->
  VentaRepo.mas_reciente l n = true.
Proof. unfold VentaRepo.mas_reciente. rewrite !Z.leb_le. lia. Qed.

(** X20.  The lists of the day hold exactly the sales, and exactly the
    withdrawals, dated on the day of the clock, each once, the most recent
    first. *)
Theorem listas_del_dia (ahora : Z) (bd : BaseDatos) :
  (forall v, In v (RepositorioVenta.obtener_ventas_dia ahora bd) <->
             In v (ventas bd) /\ DATE (FilaVenta.fecha v) = DATE ahora)
  /\ List.length (RepositorioVenta.obtener_ventas_dia ahora bd)
     = List.length
         (filter (fun v => DATE (FilaVenta.fecha v) =? DATE ahora) (ventas bd))
  /\ StronglySorted
       (fun v w => FilaVenta.fecha w <= FilaVenta.fecha v)
       (RepositorioVenta.obtener_ventas_dia ahora bd)
  /\ (forall m, In m (VentaRepo.obtener_retiros_dia ahora bd) <->
                In m (movimientos_caja bd)
                /\ DATE (FilaMovimiento.fecha m) = DATE ahora
                /\ FilaMovimiento.tipo m = RETIRO)
  /\ List.length (VentaRepo.obtener_retiros_dia ahora bd)
     = List.length
         (filter (RepositorioVenta.retiro_de_hoy (DATE ahora))
            (movimientos_caja bd))
  /\ StronglySorted
       (fun m n => FilaMovimiento.fecha n <= FilaMovimiento.fecha m)
       (VentaRepo.obtener_retiros_dia ahora bd).
Proof.
  unfold RepositorioVenta.obtener_ventas_dia, VentaRepo.obtener_retiros_dia.
  split; [|split; [|split; [|split; [|split]]]].
  - intros v. split.
    + intros H.
      apply (Permutation_in v (Permutation_sym (ordenar_perm _ _))) in H.
      apply filter_In in H as [H E]. now apply Z.eqb_eq in E.
    + intros [H E]. apply (Permutation_in v (ordenar_perm _ _)).
      apply filter_In. split; [assumption | now apply Z.eqb_eq].
  - symmetry. apply Permutation_length, ordenar_perm.
  - eapply ordenada_impl;
      [|apply (ordenar_ordenada RepositorioVenta.mas_reciente
                 mas_reciente_venta_total mas_reciente_venta_trans)].
    intros v w H. now apply Z.leb_le.
  - intros m. unfold RepositorioVenta.retiro_de_hoy. split.
    + intros H.
      apply (Permutation_in m (Permutation_sym (ordenar_perm _ _))) in H.
      apply filter_In in H as [H E]. apply andb_prop in E as [E1 E2].
      apply Z.eqb_eq in E1. destruct (FilaMovimiento.tipo m);
        [now repeat split | discriminate].
    + intros (H & E & T). apply (Permutation_in m (ordenar_perm _ _)).
      apply filter_In. split; [assumption|].
      rewrite T. simpl. rewrite andb_true_r. now apply Z.eqb_eq.
  - symmetry. apply Permutation_length, ordenar_perm.
  - eapply ordenada_impl;
      [|apply (ordenar_ordenada VentaRepo.mas_reciente
                 mas_reciente_retiro_total mas_reciente_retiro_trans)].
    intros m n H. now apply Z.leb_le.
Qed.

(** X21.  [ServicioCategoria.obtener_todas] lists the active categories
    and only them, each stored row once, ordered by name (bytewise); the
    repository's list with [solo_activas=False] holds every category. *)
Theorem lista_de_categorias (bd : BaseDatos) :
  Permutation
    (map RepositorioCategoria._fila_a_categoria
       (filter FilaCategoria.activo (categorias bd)))
    (CategoriaSrv.obtener_todas bd)
  /\ Forall (fun c => Categoria.activo c = true) (CategoriaSrv.obtener_todas bd)
  /\ StronglySorted
       (fun c d => String.leb (Categoria.nombre c) (Categoria.nombre d) = true)
       (CategoriaSrv.obtener_todas bd)
  /\ Permutation
       (map RepositorioCategoria._fila_a_categoria (categorias bd))
       (CategoriaRepo.obtener_todas false bd).
Proof.
  unfold CategoriaSrv.obtener_todas, CategoriaRepo.obtener_todas.
  split; [|split; [|split]].
  - apply Permutation_map, ordenar_perm.
  - rewrite Forall_forall. intros c Hc.
    apply in_map_iff in Hc as [f [<- Hf]].
    apply (Permutation_in f (Permutation_sym (ordenar_perm _ _))) in Hf.
    now apply filter_In in Hf.
  - apply ordenada_map.
    apply (ordenar_ordenada por_nombre_categoria por_nombre_categoria_total
             por_nombre_categoria_trans).
  - apply Permutation_map, ordenar_perm.
Qed.
